(** * Cron isolated agent turns of the clawdis gateway

    A shallow embedding of [src/cron/isolated-agent.ts] (summary extraction,
    delivery target resolution, session freshness, and the run of an
    isolated agent turn with result delivery) and of the payload builder of
    the macOS cron job editor ([CronSettings.swift]), with the properties
    the specification states about them. *)

From Stdlib Require Import ZArith NArith List Ascii String Bool Lia.
From Stdlib Require QArith Qround.
From stdpp Require Import gmap.
Import ListNotations.

Local Open Scope Z_scope.

(** ** JavaScript strings

    A JavaScript string is a sequence of UTF-16 code units; [length],
    [slice] and [trim] all work on code units. *)

Abbreviation jsstring := (list N).

(** ** JavaScript numbers

    The numbers the configuration and a job carry come from JSON, so they
    are finite; they are modelled as rationals, which is enough to tell a
    whole number of seconds from a fraction of one. *)

Abbreviation jsnumber := QArith_base.Q.

Module Js.

(** A string literal of the source, for literals made of ASCII only. *)
Definition lit (s : string) : jsstring :=
  map N_of_ascii (list_ascii_of_string s).

Definition eqb (a b : jsstring) : bool := bool_decide (a = b).

(** [WhiteSpace] and [LineTerminator] of ECMAScript, the code units that
    [String.prototype.trim] removes. *)
Definition isWhiteSpace (c : N) : bool :=
  ((9 <=? c) && (c <=? 13) || (c =? 32) || (c =? 160) || (c =? 5760)
   || (8192 <=? c) && (c <=? 8202) || (c =? 8232) || (c =? 8233)
   || (c =? 8239) || (c =? 8287) || (c =? 12288) || (c =? 65279))%N.

Fixpoint trimStart (s : jsstring) : jsstring :=
  match s with
  | c :: rest => if isWhiteSpace c then trimStart rest else s
  | [] => []
  end.

Definition trimEnd (s : jsstring) : jsstring := rev (trimStart (rev s)).

Definition trim (s : jsstring) : jsstring := trimEnd (trimStart s).

(** Truthiness of a string: the empty string is falsy. *)
Definition truthy (s : jsstring) : bool :=
  match s with [] => false | _ :: _ => true end.

(** [Math.floor] *)
Definition floor (x : jsnumber) : Z := Qround.Qfloor x.

(** Truthiness of a number: zero is falsy. *)
Definition truthyNumber (x : jsnumber) : bool :=
  negb (QArith_base.Qeq_bool x (QArith_base.inject_Z 0)).

(** [arr.includes(x)] on an array of strings. *)
Definition includes (arr : list jsstring) (x : jsstring) : bool :=
  existsb (eqb x) arr.

End Js.

(** ** Reply payloads and summaries *)

Record Payload := {
  text : option jsstring;
  mediaUrl : option jsstring;
  mediaUrls : option (list jsstring)
}.

Definition textPayload (t : jsstring) : Payload :=
  {| text := Some t; mediaUrl := None; mediaUrls := None |}.

(** The three code units that follow the slice in the template literal of
    [pickSummaryFromOutput], as the source file spells them:
    U+00E2, U+20AC, U+00A6. *)
Definition truncationSuffix : jsstring := [226; 8364; 166]%N.

(** U+2026 HORIZONTAL ELLIPSIS, the character the test suite expects at the
    end of a truncated summary. *)
Definition ellipsis : jsstring := [8230]%N.

Definition pickSummaryFromOutput (text : option jsstring) : option jsstring :=
  let clean := Js.trim (default [] text) in
  if negb (Js.truthy clean) then None
  else
    let limit := 2000%nat in
    Some (if (limit <? length clean)%nat
          then firstn limit clean ++ truncationSuffix
          else clean).

(** The loop of [pickSummaryFromPayloads]: [n] is [i + 1], so the loop
    visits the indices [n - 1], ..., [0]. *)
Fixpoint pickSummaryLoop (payloads : list Payload) (n : nat) : option jsstring :=
  match n with
  | O => None
  | S i =>
      match pickSummaryFromOutput (payloads !! i ≫= text) with
      | Some summary =>
          if Js.truthy summary then Some summary
          else pickSummaryLoop payloads i
      | None => pickSummaryLoop payloads i
      end
  end.

Definition pickSummaryFromPayloads (payloads : list Payload) : option jsstring :=
  pickSummaryLoop payloads (length payloads).

(** The trimmed text of a payload; an absent text counts as empty. *)
Definition trimmedText (p : Payload) : jsstring :=
  Js.trim (default [] (text p)).

(** ** The session store and the configuration

    Timestamps, minutes and seconds are whole numbers here: [Date.now()]
    and the stored [updatedAt] are integral milliseconds, on which the
    arithmetic of JavaScript numbers is exact, and [Math.floor] is the
    identity. *)

Record SessionEntry := {
  sessionId : jsstring;
  updatedAt : Z;
  systemSent : option bool;
  thinkingLevel : option jsstring;
  verboseLevel : option jsstring;
  model : option jsstring;
  contextTokens : option Z;
  lastChannel : option jsstring;
  lastTo : option jsstring;
  syncing : option jsstring
}.

(** [cfg.inbound.reply.session] *)
Record SessionConfig := {
  store : option jsstring;
  mainKey : option jsstring;
  idleMinutes : option Z;
  sendSystemOnce : option bool;
  sessionIntro : option jsstring
}.

(** [cfg.inbound.reply] *)
Record ReplyConfig := {
  mode : jsstring;
  command : option (list jsstring);
  session : option SessionConfig;
  bodyPrefix : option jsstring;
  thinkingDefault : option jsstring;
  replyTimeoutSeconds : option jsnumber
}.

Record InboundConfig := {
  reply : option ReplyConfig;
  allowFrom : option (list jsstring)
}.

Record ClawdisConfig := { inbound : option InboundConfig }.

(** [cfg.inbound?.reply?.session] *)
Definition sessionCfgOf (cfg : ClawdisConfig) : option SessionConfig :=
  (inbound cfg ≫= reply) ≫= session.

(** ** Cron jobs *)

Record AgentTurn := {
  message : jsstring;
  thinking : option jsstring;
  timeoutSeconds : option jsnumber;
  deliver : option bool;
  channel : option jsstring;
  to : option jsstring;
  bestEffortDeliver : option bool
}.

Inductive CronPayload :=
| systemEvent (eventText : jsstring)
| agentTurn (turn : AgentTurn).

(** The fields of a [CronJob] that the isolated run reads. *)
Record CronJob := {
  id : jsstring;
  name : option jsstring;
  payload : CronPayload
}.

Inductive RunStatus := StatusOk | StatusError | StatusSkipped.

Record RunCronAgentTurnResult := {
  status : RunStatus;
  summary : option jsstring;
  error : option jsstring
}.

(** ** The agent command and the send functions *)

Record TemplateContext := {
  Body : jsstring;
  BodyStripped : jsstring;
  SessionId : jsstring;
  From : jsstring;
  To : jsstring;
  Surface : jsstring;
  IsNewSession : jsstring
}.

(** The argument object of [runCommandReply]; [argLane] is the lane the
    [enqueue] closure captures. *)
Record CommandReplyArgs := {
  argReply : ReplyConfig;
  templatingCtx : TemplateContext;
  argSendSystemOnce : bool;
  argIsNewSession : bool;
  argIsFirstTurnInSession : bool;
  argSystemSent : bool;
  timeoutMs : Z;
  argTimeoutSeconds : Z;
  thinkLevel : option jsstring;
  argLane : jsstring;
  runId : jsstring
}.

Record SendOpts := {
  verbose : option bool;
  optMediaUrl : option jsstring;
  token : option jsstring
}.

Inductive SendSurface := WhatsApp | Telegram | Discord.

(** What the run does to the outside world, in the order it happens. An
    agent invocation either rejects with an error or resolves with a result
    whose [payloads] may be missing; a send either resolves ([None]) or
    rejects with an error. *)
Inductive Event :=
| EvSave (saved : gmap jsstring SessionEntry)
| EvAgent (args : CommandReplyArgs) (outcome : jsstring + option (list Payload))
| EvSend (surface : SendSurface) (target body : jsstring) (opts : SendOpts)
         (failure : option jsstring).

(** The session store file and the history of the run so far. *)
Record World := {
  disk : gmap jsstring SessionEntry;
  log : list Event
}.

(** [params.deps]: each send function may answer differently on each call,
    so it sees the history. *)
Record CliDeps := {
  sendMessageWhatsApp : list Event -> jsstring -> jsstring -> SendOpts -> option jsstring;
  sendMessageTelegram : list Event -> jsstring -> jsstring -> SendOpts -> option jsstring;
  sendMessageDiscord : list Event -> jsstring -> jsstring -> SendOpts -> option jsstring
}.

Record RunParams := {
  cfg : ClawdisConfig;
  deps : CliDeps;
  job : CronJob;
  runMessage : jsstring;
  sessionKey : jsstring;
  lane : option jsstring
}.

(** ** Asynchronous code: state passing with exceptions

    A rejected promise is [Thrown]; the world is kept when a call throws. *)
Inductive Outcome (A : Type) :=
| Returned (a : A)
| Thrown (err : jsstring).
Arguments Returned {A} a.
Arguments Thrown {A} err.

Definition M (A : Type) : Type := World -> Outcome A * World.

Definition ret {A} (a : A) : M A := fun w => (Returned a, w).

Definition throw {A} (err : jsstring) : M A := fun w => (Thrown err, w).

Definition bind {A B} (m : M A) (k : A -> M B) : M B :=
  fun w =>
    match m w with
    | (Returned a, w') => k a w'
    | (Thrown err, w') => (Thrown err, w')
    end.

Definition tryCatch {A} (m : M A) (handler : jsstring -> M A) : M A :=
  fun w =>
    match m w with
    | (Returned a, w') => (Returned a, w')
    | (Thrown err, w') => handler err w'
    end.

Declare Scope async_scope.
Delimit Scope async_scope with async.
Notation "x <- m ;; k" := (bind m (fun x => k))
  (at level 100, m at next level, right associativity) : async_scope.
Notation "m ;; k" := (bind m (fun _ => k))
  (at level 100, right associativity) : async_scope.

(** [for (const x of xs) { await body(x) }] *)
Fixpoint forOf {A} (xs : list A) (body : A -> M unit) : M unit :=
  match xs with
  | [] => ret tt
  | x :: rest => bind (body x) (fun _ => forOf rest body)
  end.

(** [let first = true; for (const x of xs) { ... first ...; first = false; ... }] *)
Fixpoint forOfFirst {A} (first : bool) (xs : list A) (body : bool -> A -> M unit) : M unit :=
  match xs with
  | [] => ret tt
  | x :: rest => bind (body first x) (fun _ => forOfFirst false rest body)
  end.

(** [saveSessionStore]: the whole store is written to the file. *)
Definition saveSessionStore (s : gmap jsstring SessionEntry) : M unit :=
  fun w => (Returned tt, {| disk := s; log := log w ++ [EvSave s] |}).

(** [loadSessionStore] *)
Definition loadSessionStore : M (gmap jsstring SessionEntry) :=
  fun w => (Returned (disk w), w).

Definition callSend (surface : SendSurface)
    (send : list Event -> jsstring -> jsstring -> SendOpts -> option jsstring)
    (target body : jsstring) (opts : SendOpts) : M unit :=
  fun w =>
    let failure := send (log w) target body opts in
    let w' := {| disk := disk w;
                 log := log w ++ [EvSend surface target body opts failure] |} in
    match failure with
    | None => (Returned tt, w')
    | Some err => (Thrown err, w')
    end.

(** ** The cron job editor of the macOS app ([CronSettings.swift]) *)

Module CronJobEditor.

(** A Swift string, as its Unicode scalars. *)
Abbreviation swstring := (list N).

(** [CharacterSet.whitespacesAndNewlines]: the general category Z*,
    U+0009 to U+000D and U+0085. *)
Definition isWhitespaceOrNewline (c : N) : bool :=
  ((9 <=? c) && (c <=? 13) || (c =? 32) || (c =? 133) || (c =? 160)
   || (c =? 5760) || (8192 <=? c) && (c <=? 8202) || (c =? 8232)
   || (c =? 8233) || (c =? 8239) || (c =? 8287) || (c =? 12288))%N.

Fixpoint dropLeading (s : swstring) : swstring :=
  match s with
  | c :: rest => if isWhitespaceOrNewline c then dropLeading rest else s
  | [] => []
  end.

(** [s.trimmingCharacters(in: .whitespacesAndNewlines)] *)
Definition trimmingWhitespace (s : swstring) : swstring :=
  rev (dropLeading (rev (dropLeading s))).

Definition isEmpty (s : swstring) : bool :=
  match s with [] => true | _ :: _ => false end.

Definition digitValue (c : N) : option Z :=
  if ((48 <=? c) && (c <=? 57))%N then Some (Z.of_N c - 48) else None.

Fixpoint parseDigits (acc : Z) (s : swstring) : option Z :=
  match s with
  | [] => Some acc
  | c :: rest =>
      match digitValue c with
      | Some d => parseDigits (10 * acc + d) rest
      | None => None
      end
  end.

Definition inInt64 (v : Z) : option Z :=
  if (- 2 ^ 63 <=? v) && (v <? 2 ^ 63) then Some v else None.

(** [Int(s)]: an optional sign and at least one decimal digit, within the
    range of a 64-bit integer. *)
Definition parseInt (s : swstring) : option Z :=
  match s with
  | [] => None
  | c :: rest =>
      if (c =? 45)%N then
        (if isEmpty rest then None
         else parseDigits 0 rest ≫= (fun v => inInt64 (- v)))
      else if (c =? 43)%N then
        (if isEmpty rest then None else parseDigits 0 rest ≫= inInt64)
      else parseDigits 0 s ≫= inInt64
  end.

Inductive CronSessionTarget := main | isolated.
Inductive CronWakeMode := nextHeartbeat | now.
Inductive ScheduleKind := atKind | everyKind | cronKind.
Inductive PayloadKind := systemEventKind | agentTurnKind.

(** The [@State] of the editor. [atDateMs] stands for
    [Int(atDate.timeIntervalSince1970 * 1000)]. *)
Record EditorState := {
  name : swstring;
  enabled : bool;
  sessionTarget : CronSessionTarget;
  wakeMode : CronWakeMode;
  scheduleKind : ScheduleKind;
  atDateMs : Z;
  everyText : swstring;
  cronExpr : swstring;
  cronTz : swstring;
  payloadKind : PayloadKind;
  systemEventText : swstring;
  agentMessage : swstring;
  deliver : bool;
  channel : swstring;
  to : swstring;
  thinking : swstring;
  timeoutSeconds : swstring;
  bestEffortDeliver : bool;
  postPrefix : swstring
}.

(** The [schedule] dictionary. *)
Inductive ScheduleDict :=
| scheduleAt (atMs : Z)
| scheduleEvery (everyMs : Z)
| scheduleCron (expr : swstring) (tz : option swstring).

(** The dictionary [buildAgentTurnPayload] fills; a key that is not set is
    [None]. *)
Record AgentTurnDict := {
  dMessage : swstring;
  dThinking : option swstring;
  dTimeoutSeconds : option Z;
  dDeliver : bool;
  dChannel : option swstring;
  dTo : option swstring;
  dBestEffortDeliver : option bool
}.

(** The [payload] dictionary, by its ["kind"]. *)
Inductive PayloadDict :=
| systemEventDict (eventText : swstring)
| agentTurnDict (turn : AgentTurnDict).

Definition kind (p : PayloadDict) : PayloadKind :=
  match p with
  | systemEventDict _ => systemEventKind
  | agentTurnDict _ => agentTurnKind
  end.

Definition isKind (p : PayloadDict) (k : PayloadKind) : bool :=
  match kind p, k with
  | systemEventKind, systemEventKind => true
  | agentTurnKind, agentTurnKind => true
  | _, _ => false
  end.

(** The [root] dictionary that [buildPayload] returns. *)
Record JobDict := {
  rEnabled : bool;
  rSchedule : ScheduleDict;
  rSessionTarget : CronSessionTarget;
  rWakeMode : CronWakeMode;
  rPayload : PayloadDict;
  rName : option swstring;
  rIsolation : option swstring
}.

Definition isMain (t : CronSessionTarget) : bool :=
  match t with main => true | isolated => false end.

Definition isIsolated (t : CronSessionTarget) : bool :=
  match t with main => false | isolated => true end.

Definition buildAgentTurnPayload (s : EditorState) : AgentTurnDict :=
  let msg := trimmingWhitespace (agentMessage s) in
  let thinking := trimmingWhitespace (thinking s) in
  let to := trimmingWhitespace (to s) in
  {| dMessage := msg;
     dThinking := if negb (isEmpty thinking) then Some thinking else None;
     dTimeoutSeconds :=
       match parseInt (timeoutSeconds s) with
       | Some n => if 0 <? n then Some n else None
       | None => None
       end;
     dDeliver := deliver s;
     dChannel := if deliver s then Some (channel s) else None;
     dTo := if deliver s then (if negb (isEmpty to) then Some to else None) else None;
     dBestEffortDeliver := if deliver s then Some (bestEffortDeliver s) else None |}.

Section BuildPayload.

(** [parseDurationMs] computes on [Double]; only whether it yields a value
    matters here, so it is left open. *)
Variable parseDurationMs : swstring -> option Z.

Definition buildSchedule (s : EditorState) : string + ScheduleDict :=
  match scheduleKind s with
  | atKind => inr (scheduleAt (atDateMs s))
  | everyKind =>
      match parseDurationMs (everyText s) with
      | None => inl "Invalid every duration (use 10m, 1h, 1d)."%string
      | Some ms => inr (scheduleEvery ms)
      end
  | cronKind =>
      let expr := trimmingWhitespace (cronExpr s) in
      if isEmpty expr then inl "Cron expression is required."%string
      else
        let tz := trimmingWhitespace (cronTz s) in
        if isEmpty tz then inr (scheduleCron expr None)
        else inr (scheduleCron expr (Some tz))
  end.

(** The closure that picks the payload dictionary. *)
Definition buildPayloadDict (s : EditorState) : PayloadDict :=
  if isIsolated (sessionTarget s) then agentTurnDict (buildAgentTurnPayload s)
  else
    match payloadKind s with
    | systemEventKind =>
        systemEventDict (trimmingWhitespace (systemEventText s))
    | agentTurnKind => agentTurnDict (buildAgentTurnPayload s)
    end.

(** The two pairing guards of [buildPayload], which test the session
    target and the [kind] of the payload just built; the result is the
    description of the error thrown, if one is. *)
Definition pairingError (target : CronSessionTarget) (payload : PayloadDict)
    : option string :=
  if isMain target && isKind payload agentTurnKind then
    Some "Main session jobs require systemEvent payloads (switch Session target to isolated)."%string
  else if isIsolated target && isKind payload systemEventKind then
    Some "Isolated jobs require agentTurn payloads."%string
  else None.

(** [buildPayload]: [inl] is the thrown error's description. *)
Definition buildPayload (s : EditorState) : string + JobDict :=
  let name := trimmingWhitespace (name s) in
  match buildSchedule s with
  | inl err => inl err
  | inr schedule =>
      let payload := buildPayloadDict s in
      match pairingError (sessionTarget s) payload with
      | Some err => inl err
      | None =>
        let contentError :=
          match payload with
          | systemEventDict eventText =>
              if isEmpty eventText
              then Some "System event text is required."%string else None
          | agentTurnDict turn =>
              if isEmpty (dMessage turn)
              then Some "Agent message is required."%string else None
          end in
        match contentError with
        | Some err => inl err
        | None =>
            inr {| rEnabled := enabled s;
                   rSchedule := schedule;
                   rSessionTarget := sessionTarget s;
                   rWakeMode := wakeMode s;
                   rPayload := payload;
                   rName := if negb (isEmpty name) then Some name else None;
                   rIsolation :=
                     if isIsolated (sessionTarget s) then
                       let trimmed := trimmingWhitespace (postPrefix s) in
                       Some (if isEmpty trimmed then Js.lit "Cron" else trimmed)
                     else None |}
        end
      end
  end.

(** What [save] leaves behind: the error shown in the editor and the
    dictionary handed to [onSave], which is what gets persisted. *)
Record SaveResult := {
  shownError : option string;
  submitted : option JobDict
}.

Definition save (s : EditorState) : SaveResult :=
  match buildPayload s with
  | inr payload => {| shownError := None; submitted := Some payload |}
  | inl err => {| shownError := Some err; submitted := None |}
  end.

(** The invariant of the job model on a built record. *)
Definition pairingOk (j : JobDict) : bool :=
  match rSessionTarget j, kind (rPayload j) with
  | main, systemEventKind => true
  | isolated, agentTurnKind => true
  | _, _ => false
  end.

End BuildPayload.

(** The [onChange] handlers of the editor. Each runs after its field has
    taken its new value. *)
Definition withSessionTarget (t : CronSessionTarget) (s : EditorState)
    : EditorState :=
  {| name := name s; enabled := enabled s; sessionTarget := t;
     wakeMode := wakeMode s; scheduleKind := scheduleKind s;
     atDateMs := atDateMs s; everyText := everyText s;
     cronExpr := cronExpr s; cronTz := cronTz s;
     payloadKind := payloadKind s; systemEventText := systemEventText s;
     agentMessage := agentMessage s; deliver := deliver s;
     channel := channel s; to := to s; thinking := thinking s;
     timeoutSeconds := timeoutSeconds s;
     bestEffortDeliver := bestEffortDeliver s; postPrefix := postPrefix s |}.

Definition withPayloadKind (k : PayloadKind) (s : EditorState) : EditorState :=
  {| name := name s; enabled := enabled s; sessionTarget := sessionTarget s;
     wakeMode := wakeMode s; scheduleKind := scheduleKind s;
     atDateMs := atDateMs s; everyText := everyText s;
     cronExpr := cronExpr s; cronTz := cronTz s;
     payloadKind := k; systemEventText := systemEventText s;
     agentMessage := agentMessage s; deliver := deliver s;
     channel := channel s; to := to s; thinking := thinking s;
     timeoutSeconds := timeoutSeconds s;
     bestEffortDeliver := bestEffortDeliver s; postPrefix := postPrefix s |}.

(** [.onChange(of: self.payloadKind)] *)
Definition onChangePayloadKind (s : EditorState) : EditorState :=
  match payloadKind s, sessionTarget s with
  | agentTurnKind, main => withSessionTarget isolated s
  | _, _ => s
  end.

(** [.onChange(of: self.sessionTarget)] *)
Definition onChangeSessionTarget (s : EditorState) : EditorState :=
  match sessionTarget s with
  | isolated => withPayloadKind agentTurnKind s
  | main =>
      match payloadKind s with
      | agentTurnKind => withPayloadKind systemEventKind s
      | systemEventKind => s
      end
  end.

(** Whether the draft pairs main with a system event or isolated with an
    agent turn. *)
Definition draftPaired (s : EditorState) : bool :=
  match sessionTarget s, payloadKind s with
  | main, systemEventKind => true
  | isolated, agentTurnKind => true
  | _, _ => false
  end.

(** The editor as it opens for a new job, with the date picker at the epoch. *)
Definition initialState : EditorState :=
  {| name := []; enabled := true; sessionTarget := main;
     wakeMode := nextHeartbeat; scheduleKind := everyKind;
     atDateMs := 0; everyText := Js.lit "1h";
     cronExpr := Js.lit "0 9 * * 3"; cronTz := [];
     payloadKind := systemEventKind; systemEventText := [];
     agentMessage := []; deliver := false; channel := Js.lit "last";
     to := []; thinking := []; timeoutSeconds := [];
     bestEffortDeliver := false; postPrefix := Js.lit "Cron" |}.

(** A draft with the isolated target picked while the payload kind still
    reads "systemEvent", and an agent message typed in. *)
Definition isolatedDraft : EditorState :=
  {| name := []; enabled := true; sessionTarget := isolated;
     wakeMode := nextHeartbeat; scheduleKind := everyKind;
     atDateMs := 0; everyText := Js.lit "1h";
     cronExpr := Js.lit "0 9 * * 3"; cronTz := [];
     payloadKind := systemEventKind; systemEventText := [];
     agentMessage := Js.lit "Summarize inbox"; deliver := false;
     channel := Js.lit "last"; to := []; thinking := [];
     timeoutSeconds := []; bestEffortDeliver := false;
     postPrefix := Js.lit "Cron" |}.

(** A draft for the main session with the agent turn kind picked. *)
Definition mainAgentDraft : EditorState :=
  {| name := []; enabled := true; sessionTarget := main;
     wakeMode := nextHeartbeat; scheduleKind := everyKind;
     atDateMs := 0; everyText := Js.lit "1h";
     cronExpr := Js.lit "0 9 * * 3"; cronTz := [];
     payloadKind := agentTurnKind; systemEventText := [];
     agentMessage := Js.lit "Summarize inbox"; deliver := false;
     channel := Js.lit "last"; to := []; thinking := [];
     timeoutSeconds := []; bestEffortDeliver := false;
     postPrefix := Js.lit "Cron" |}.

(** A duration parser for whole hours ("1h", "12h", ...), enough to run the
    editor on its default schedule text. *)
Definition wholeHours (s : swstring) : option Z :=
  match rev (trimmingWhitespace s) with
  | u :: digits =>
      if ((u =? 104) || (u =? 72))%N && negb (isEmpty digits) then
        match parseDigits 0 (rev digits) with
        | Some n => if 0 <? n then Some (n * 3600000) else None
        | None => None
        end
      else None
  | [] => None
  end.

End CronJobEditor.

(** ** Delivery targets, cron sessions and the isolated run *)

Record DeliveryTarget := {
  targetChannel : jsstring;
  targetTo : option jsstring
}.

Record CronSession := {
  sessionStore : gmap jsstring SessionEntry;
  sessionEntry : SessionEntry;
  sessionSystemSent : bool;
  isNewSession : bool
}.

(** [!to] is false exactly for a non-empty string. *)
Definition hasRecipient (to : option jsstring) : bool :=
  match to with
  | Some t => Js.truthy t
  | None => false
  end.

(** [payload.mediaUrls ?? (payload.mediaUrl ? [payload.mediaUrl] : [])] *)
Definition mediaListOf (p : Payload) : list jsstring :=
  match mediaUrls p with
  | Some urls => urls
  | None =>
      match mediaUrl p with
      | Some url => if Js.truthy url then [url] else []
      | None => []
      end
  end.

Definition setSystemSent (e : SessionEntry) (v : option bool) : SessionEntry :=
  {| sessionId := sessionId e;
     updatedAt := updatedAt e;
     systemSent := v;
     thinkingLevel := thinkingLevel e;
     verboseLevel := verboseLevel e;
     model := model e;
     contextTokens := contextTokens e;
     lastChannel := lastChannel e;
     lastTo := lastTo e;
     syncing := syncing e |}.

(** [{ ...replyCfg, mode: "command" }] *)
Definition withCommandMode (r : ReplyConfig) : ReplyConfig :=
  {| mode := Js.lit "command";
     command := command r;
     session := session r;
     bodyPrefix := bodyPrefix r;
     thinkingDefault := thinkingDefault r;
     replyTimeoutSeconds := replyTimeoutSeconds r |}.

(** ** Sample data

    Concrete collaborators and inputs on which the definitions are run. *)

Module Sample.

Fixpoint dropPrefix (prefix s : jsstring) : option jsstring :=
  match prefix, s with
  | [], _ => Some s
  | p :: prefix', c :: s' => if (p =? c)%N then dropPrefix prefix' s' else None
  | _ :: _, [] => None
  end.

(** A phone number normaliser of the usual shape: it drops a leading
    "whatsapp:", keeps digits and plus signs, and puts a plus sign in
    front. *)
Definition normalizeE164 (number : jsstring) : jsstring :=
  let withoutPrefix :=
    Js.trim (default number (dropPrefix (Js.lit "whatsapp:") number)) in
  let digits :=
    List.filter (fun c => ((48 <=? c) && (c <=? 57) || (c =? 43))%N)
      withoutPrefix in
  match digits with
  | 43%N :: _ => digits
  | _ => 43%N :: digits
  end.

Definition applyTemplate (template sessionId : jsstring) : jsstring := template.

Definition normalizeThinkLevel (level : option jsstring) : option jsstring := level.

Definition chunkText (t : jsstring) (limit : Z) : list jsstring := [t].

Definition session1 : SessionConfig :=
  {| store := None; mainKey := Some (Js.lit "main"); idleMinutes := Some 60;
     sendSystemOnce := Some true; sessionIntro := None |}.

Definition reply1 : ReplyConfig :=
  {| mode := Js.lit "command";
     command := Some [Js.lit "echo"; Js.lit "ok"];
     session := Some session1;
     bodyPrefix := None; thinkingDefault := None;
     replyTimeoutSeconds := None |}.

(** A configuration without an allowlist, as in the test suite. *)
Definition cfgPlain : ClawdisConfig :=
  {| inbound := Some {| reply := Some reply1; allowFrom := None |} |}.

(** The same with an allowlist of one phone number. *)
Definition cfgAllow : ClawdisConfig :=
  {| inbound :=
       Some {| reply := Some reply1;
               allowFrom := Some [Js.lit "+1 (555) 555-0123"] |} |}.

Definition mkEntry (sid : jsstring) (at_ : Z) (lastCh lastRecipient : option jsstring)
    : SessionEntry :=
  {| sessionId := sid; updatedAt := at_; systemSent := None;
     thinkingLevel := None; verboseLevel := None; model := None;
     contextTokens := None; lastChannel := lastCh; lastTo := lastRecipient;
     syncing := None |}.

(** The store of the test suite: a main session last seen on the web chat. *)
Definition webchatStore : gmap jsstring SessionEntry :=
  {[ Js.lit "main" :=
       mkEntry (Js.lit "main-session") 1000 (Some (Js.lit "webchat")) (Some []) ]}.

(** A main session whose last route is a Telegram chat, stored with blanks
    around the chat id. *)
Definition telegramStore : gmap jsstring SessionEntry :=
  {[ Js.lit "main" :=
       mkEntry (Js.lit "main-session") 1000 (Some (Js.lit "telegram"))
         (Some (Js.lit " 123456 ")) ]}.

Definition mkTurn (wantDelivery : bool) (ch recipient : option jsstring)
    (bestEffort : bool) : AgentTurn :=
  {| message := Js.lit "do it"; thinking := None; timeoutSeconds := None;
     deliver := Some wantDelivery; channel := ch; to := recipient;
     bestEffortDeliver := Some bestEffort |}.

Definition makeJob (t : AgentTurn) : CronJob :=
  {| id := Js.lit "job-1"; name := None; payload := agentTurn t |}.

(** Send functions that always resolve, and ones that always reject. *)
Definition sendOk (history : list Event) (target body : jsstring)
    (opts : SendOpts) : option jsstring := None.

Definition sendFails (history : list Event) (target body : jsstring)
    (opts : SendOpts) : option jsstring := Some (Js.lit "Error: offline").

Definition depsOk : CliDeps :=
  {| sendMessageWhatsApp := sendOk; sendMessageTelegram := sendOk;
     sendMessageDiscord := sendOk |}.

Definition depsDown : CliDeps :=
  {| sendMessageWhatsApp := sendFails; sendMessageTelegram := sendFails;
     sendMessageDiscord := sendFails |}.

Definition mkParams (c : ClawdisConfig) (d : CliDeps) (t : AgentTurn) : RunParams :=
  {| cfg := c; deps := d; job := makeJob t; runMessage := Js.lit "do it";
     sessionKey := Js.lit "cron:job-1"; lane := Some (Js.lit "cron") |}.

(** An agent that answers "hello", and one whose command fails. *)
Definition agentHello (history : list Event) (args : CommandReplyArgs)
    : jsstring + option (list Payload) :=
  inr (Some [textPayload (Js.lit "hello")]).

Definition agentCrashes (history : list Event) (args : CommandReplyArgs)
    : jsstring + option (list Payload) :=
  inl (Js.lit "Error: command failed").

(** The payloads of the summary tests. *)
Definition threePayloads : list Payload :=
  [textPayload (Js.lit "first"); textPayload (Js.lit " ");
   textPayload (Js.lit " last ")].

Definition longPayloads : list Payload := [textPayload (repeat 97%N 2001)].

(** A main session last seen on a surface the run has no delivery branch
    for. *)
Definition voiceStore : gmap jsstring SessionEntry :=
  {[ Js.lit "main" :=
       mkEntry (Js.lit "main-session") 1000 (Some (Js.lit "voice"))
         (Some (Js.lit "+15550001111")) ]}.

End Sample.

(** ** The claims about summaries and recipients, in the specification's words *)

(** "Scan payloads from the last to the first, return the trimmed text of
    the first payload whose trimmed text is non-empty." *)
Definition lastNonEmptyTrimmedText (payloads : list Payload) : option jsstring :=
  trimmedText <$> find (fun p => Js.truthy (trimmedText p)) (rev payloads).

(** "An explicit [to] that is non-empty after trimming wins, otherwise the
    session's last-route [to], or absent if that is empty." *)
Definition recipientByPrecedence (to lastTo : option jsstring) : option jsstring :=
  match to with
  | Some t =>
      if Js.truthy (Js.trim t) then Some (Js.trim t)
      else match lastTo with
           | Some l => if Js.truthy l then Some l else None
           | None => None
           end
  | None =>
      match lastTo with
      | Some l => if Js.truthy l then Some l else None
      | None => None
      end
  end.

(** Whether [needle] occurs in [hay]. *)
Fixpoint startsWith (needle hay : jsstring) : bool :=
  match needle, hay with
  | [], _ => true
  | n :: needle', h :: hay' => (n =? h)%N && startsWith needle' hay'
  | _ :: _, [] => false
  end.

Fixpoint mentions (needle hay : jsstring) : bool :=
  startsWith needle hay
  || match hay with
     | [] => false
     | _ :: hay' => mentions needle hay'
     end.

Definition isSend (ev : Event) : bool :=
  match ev with
  | EvSend _ _ _ _ _ => true
  | _ => false
  end.

(** ** Sending to Discord ([src/discord/send.ts]) *)

Module DiscordSend.

Definition DISCORD_TEXT_LIMIT : nat := 2000.

Inductive DiscordRecipient :=
| userRecipient (id : jsstring)
| channelRecipient (id : jsstring).

Record DiscordSendOpts := {
  token : option jsstring;
  mediaUrl : option jsstring
}.

Record DiscordSendResult := {
  messageId : jsstring;
  channelId : jsstring
}.

(** An entry of [files]. *)
Record UploadFile := {
  data : list N;
  name : jsstring
}.

(** The two shapes of [rest.post] the module uses:
    [post(Routes.userChannels(), { body: { recipient_id } })] and
    [post(Routes.channelMessages(channelId), { body: { content }, files })]. *)
Inductive Request :=
| postUserChannels (recipient_id : jsstring)
| postChannelMessage (channel : jsstring) (content : option jsstring)
    (files : list UploadFile).

(** What [rest.post] resolves with: possibly nothing, possibly an object
    without the fields the code reads. *)
Record ApiObject := {
  id : option jsstring;
  channel_id : option jsstring
}.

(** What [loadWebMedia] resolves with. *)
Record WebMedia := {
  buffer : list N;
  fileName : option jsstring
}.

(** What the module does to the outside world, in order; [inl] is a
    rejection. [Logged] is a line given to [runtime.log]. *)
Inductive Ev :=
| Posted (request : Request) (answer : jsstring + option ApiObject)
| Loaded (url : jsstring) (answer : jsstring + WebMedia)
| Logged (line : jsstring).

(** The environment: the process environment and the configuration file,
    the imported [chunkText], the network, and the text of the [TypeError]
    that reading a property of a missing response raises. *)
Record Env := {
  envToken : option jsstring;
  configToken : option jsstring;
  chunkText : jsstring -> nat -> list jsstring;
  loadWebMedia : list Ev -> jsstring -> jsstring + WebMedia;
  restPost : list Ev -> Request -> jsstring + option ApiObject;
  nullAccess : jsstring
}.

Definition D (A : Type) : Type := list Ev -> Outcome A * list Ev.

Definition retD {A} (a : A) : D A := fun h => (Returned a, h).

Definition throwD {A} (err : jsstring) : D A := fun h => (Thrown err, h).

Definition bindD {A B} (m : D A) (k : A -> D B) : D B :=
  fun h =>
    match m h with
    | (Returned a, h') => k a h'
    | (Thrown err, h') => (Thrown err, h')
    end.

(** A synchronous function that may throw, called from asynchronous code. *)
Definition liftD {A} (o : Outcome A) : D A := fun h => (o, h).

Definition post (env : Env) (request : Request) : D (option ApiObject) :=
  fun h =>
    let answer := restPost env h request in
    match answer with
    | inr res => (Returned res, h ++ [Posted request answer])
    | inl err => (Thrown err, h ++ [Posted request answer])
    end.

Definition load (env : Env) (url : jsstring) : D WebMedia :=
  fun h =>
    let answer := loadWebMedia env h url in
    match answer with
    | inr media => (Returned media, h ++ [Loaded url answer])
    | inl err => (Thrown err, h ++ [Loaded url answer])
    end.

Definition logLine (line : jsstring) : D unit :=
  fun h => (Returned tt, h ++ [Logged line]).

Definition resolveToken (env : Env) (explicit : option jsstring)
    : Outcome jsstring :=
  let token :=
    match explicit with
    | Some t => Some t
    | None =>
        match envToken env with
        | Some t => Some t
        | None => configToken env
        end
    end in
  match token with
  | Some t =>
      if negb (Js.truthy t)
      then Thrown (Js.lit "Error: DISCORD_BOT_TOKEN or discord.token is required for Discord sends")
      else Returned (Js.trim t)
  | None =>
      Thrown (Js.lit "Error: DISCORD_BOT_TOKEN or discord.token is required for Discord sends")
  end.

Definition parseRecipient (raw : jsstring) : Outcome DiscordRecipient :=
  let trimmed := Js.trim raw in
  if negb (Js.truthy trimmed)
  then Thrown (Js.lit "Error: Recipient is required for Discord sends")
  else if startsWith (Js.lit "user:") trimmed
  then Returned (userRecipient (drop (length (Js.lit "user:")) trimmed))
  else if startsWith (Js.lit "channel:") trimmed
  then Returned (channelRecipient (drop (length (Js.lit "channel:")) trimmed))
  else if startsWith (Js.lit "discord:") trimmed
  then Returned (userRecipient (drop (length (Js.lit "discord:")) trimmed))
  else if startsWith (Js.lit "@") trimmed
  then Returned (userRecipient (drop 1 trimmed))
  else Returned (channelRecipient trimmed).

(** [resolveChannelId]; the result is the [channelId]. *)
Definition resolveChannelId (env : Env) (recipient : DiscordRecipient)
    : D jsstring :=
  match recipient with
  | channelRecipient id => retD id
  | userRecipient id =>
      bindD (post env (postUserChannels id)) (fun dmChannel =>
        match dmChannel ≫= DiscordSend.id with
        | Some dmId =>
            if Js.truthy dmId then retD dmId
            else throwD (Js.lit "Error: Failed to create Discord DM channel")
        | None => throwD (Js.lit "Error: Failed to create Discord DM channel")
        end)
  end.

(** The loop of [sendDiscordText] over the chunks; [last] is the variable
    of that name. *)
Fixpoint postChunks (env : Env) (channel : jsstring) (chunks : list jsstring)
    (last : option ApiObject) : D (option ApiObject) :=
  match chunks with
  | [] => retD last
  | chunk :: rest =>
      bindD (post env (postChannelMessage channel (Some chunk) []))
        (fun res => postChunks env channel rest res)
  end.

Definition sendDiscordText (env : Env) (channel text : jsstring)
    : D (option ApiObject) :=
  if negb (Js.truthy (Js.trim text))
  then throwD (Js.lit "Error: Message must be non-empty for Discord sends")
  else if (length text <=? DISCORD_TEXT_LIMIT)%nat
  then post env (postChannelMessage channel (Some text) [])
  else
    let chunks := chunkText env text DISCORD_TEXT_LIMIT in
    bindD (postChunks env channel chunks None) (fun last =>
      match last with
      | None => throwD (Js.lit "Error: Discord send failed (empty chunk result)")
      | Some res => retD (Some res)
      end).

Definition sendDiscordMedia (env : Env) (channel text url : jsstring)
    : D (option ApiObject) :=
  bindD (load env url) (fun media =>
    let caption :=
      if (DISCORD_TEXT_LIMIT <? length text)%nat
      then take DISCORD_TEXT_LIMIT text else text in
    bindD (post env
             (postChannelMessage channel
                (if Js.truthy caption then Some caption else None)
                [{| data := buffer media;
                    name := default (Js.lit "upload") (fileName media) |}]))
      (fun res =>
         bindD (if (DISCORD_TEXT_LIMIT <? length text)%nat
                then
                  let remaining := Js.trim (drop DISCORD_TEXT_LIMIT text) in
                  if Js.truthy remaining
                  then bindD (sendDiscordText env channel remaining)
                         (fun _ => retD tt)
                  else retD tt
                else retD tt)
           (fun _ => retD res))).

Definition sendMessageDiscord (env : Env) (to text : jsstring)
    (opts : DiscordSendOpts) : D DiscordSendResult :=
  bindD (liftD (resolveToken env (token opts))) (fun _ =>
  bindD (liftD (parseRecipient to)) (fun recipient =>
  bindD (resolveChannelId env recipient) (fun resolvedChannel =>
  bindD (match mediaUrl opts with
         | Some url =>
             if Js.truthy url
             then sendDiscordMedia env resolvedChannel text url
             else sendDiscordText env resolvedChannel text
         | None => sendDiscordText env resolvedChannel text
         end)
    (fun result =>
       match result with
       | None => throwD (nullAccess env)
       | Some res =>
           retD {| messageId :=
                     match DiscordSend.id res with
                     | Some i => if Js.truthy i then i else Js.lit "unknown"
                     | None => Js.lit "unknown"
                     end;
                   channelId := default resolvedChannel (channel_id res) |}
       end)))).

(** The messages posted, in order, with their content. *)
Definition postedContents (h : list Ev) : list (option jsstring) :=
  omap (fun ev =>
          match ev with
          | Posted (postChannelMessage _ content _) _ => Some content
          | _ => None
          end) h.

(** The id and the kind of a recipient. *)
Definition recipientId (r : DiscordRecipient) : jsstring :=
  match r with
  | userRecipient i => i
  | channelRecipient i => i
  end.

Definition isUser (r : DiscordRecipient) : bool :=
  match r with
  | userRecipient _ => true
  | channelRecipient _ => false
  end.

(** Whether an event is a message posted to the channel [c]. *)
Definition postedTo (c : jsstring) (ev : Ev) : Prop :=
  match ev with
  | Posted (postChannelMessage c' _ _) _ => c' = c
  | _ => False
  end.

End DiscordSend.

(** ** The Discord monitor ([src/discord/monitor.ts]) *)

Module DiscordMonitor.

(** The allowlist check of the [MessageCreate] handler: whether the handler
    returns at "Blocked unauthorized discord sender". [allowFrom] holds the
    entries after [String] has been applied to each of them; it is [None]
    when the option is not an array. *)
Definition senderBlocked (isDirectMessage : bool)
    (allowFrom : option (list jsstring)) (candidate : jsstring) : bool :=
  match allowFrom with
  | Some allowed =>
      if isDirectMessage && (0 <? length allowed)%nat then
        let prefixed := map (fun val => Js.lit "discord:" ++ val) allowed in
        let permitted :=
          Js.includes allowed candidate
          || Js.includes prefixed (Js.lit "discord:" ++ candidate)
          || Js.includes allowed (Js.lit "*") in
        negb permitted
      else false
  | None => false
  end.

(** [for (const x of xs) { await body(x) }] in the Discord module. *)
Fixpoint forOfD {A} (xs : list A) (body : A -> DiscordSend.D unit)
    : DiscordSend.D unit :=
  match xs with
  | [] => DiscordSend.retD tt
  | x :: rest => DiscordSend.bindD (body x) (fun _ => forOfD rest body)
  end.

Fixpoint forOfFirstD {A} (first : bool) (xs : list A)
    (body : bool -> A -> DiscordSend.D unit) : DiscordSend.D unit :=
  match xs with
  | [] => DiscordSend.retD tt
  | x :: rest =>
      DiscordSend.bindD (body first x) (fun _ => forOfFirstD false rest body)
  end.

(** Whether the loop of [deliverReplies] skips the payload. *)
Definition skipsReply (payload : Payload) : bool :=
  negb (Js.truthy (default [] (text payload)))
  && (length (mediaListOf payload) =? 0)%nat.

(** The body of the loop of [deliverReplies]. *)
Definition deliverReply (env : DiscordSend.Env) (target : jsstring)
    (token : jsstring) (payload : Payload) : DiscordSend.D unit :=
  let mediaList := mediaListOf payload in
  let text := default [] (text payload) in
  if negb (Js.truthy text) && (length mediaList =? 0)%nat
  then DiscordSend.retD tt
  else
    DiscordSend.bindD
      (if (length mediaList =? 0)%nat then
         forOfD (DiscordSend.chunkText env text 2000) (fun chunk =>
           DiscordSend.bindD
             (DiscordSend.sendMessageDiscord env target chunk
                {| DiscordSend.token := Some token;
                   DiscordSend.mediaUrl := None |})
             (fun _ => DiscordSend.retD tt))
       else
         forOfFirstD true mediaList (fun first mediaUrl =>
           let caption := if first then text else [] in
           DiscordSend.bindD
             (DiscordSend.sendMessageDiscord env target caption
                {| DiscordSend.token := Some token;
                   DiscordSend.mediaUrl := Some mediaUrl |})
             (fun _ => DiscordSend.retD tt)))
      (fun _ =>
         DiscordSend.logLine (Js.lit "discord: delivered reply to " ++ target)).

Definition deliverReplies (env : DiscordSend.Env) (replies : list Payload)
    (target token : jsstring) : DiscordSend.D unit :=
  forOfD replies (deliverReply env target token).

End DiscordMonitor.

(** * commands/send.ts *)

Module SendCommand.

Record SendOpts := {
  to : jsstring;
  message : jsstring;
  provider : option jsstring;
  json : option bool;
  dryRun : option bool;
  media : option jsstring
}.

(** What [deps.sendMessageTelegram] resolves with. *)
Record TelegramResult := {
  telegramMessageId : jsstring;
  chatId : jsstring
}.

(** What [callGateway] resolves with; [messageId] may be missing. *)
Record GatewayResult := {
  gatewayMessageId : option jsstring
}.

(** The argument of [callGateway]. *)
Record GatewayParams := {
  paramTo : jsstring;
  paramMessage : jsstring;
  paramMediaUrl : option jsstring;
  idempotencyKey : jsstring
}.

Record GatewayCall := {
  url : jsstring;
  method : jsstring;
  params : GatewayParams;
  timeoutMs : Z;
  clientName : jsstring;
  mode : jsstring
}.

(** The values the objects given to [JSON.stringify] hold. *)
Inductive JsonValue :=
| jsonString (s : jsstring)
| jsonNull
| jsonUndefined.

Definition JsonObject := list (string * JsonValue).

(** What the command does to the outside world, in order; [inl] is a
    rejection. *)
Inductive Ev :=
| Telegram (recipient text : jsstring) (token mediaUrl : option jsstring)
    (answer : jsstring + TelegramResult)
| Discord (recipient text : jsstring) (token mediaUrl : option jsstring)
    (answer : jsstring + DiscordSend.DiscordSendResult)
| Gateway (call : GatewayCall) (answer : jsstring + GatewayResult)
| Log (line : jsstring).

(** The environment: the built-ins and imports the command calls, the
    process environment, and the three ways out. *)
Record Env := {
  toLowerCase : jsstring -> jsstring;
  success : jsstring -> jsstring;
  stringify : JsonObject -> jsstring;
  TELEGRAM_BOT_TOKEN : option jsstring;
  DISCORD_BOT_TOKEN : option jsstring;
  randomIdempotencyKey : list Ev -> jsstring;
  sendMessageTelegram :
    list Ev -> jsstring -> jsstring -> option jsstring -> option jsstring ->
    jsstring + TelegramResult;
  sendMessageDiscord :
    list Ev -> jsstring -> jsstring -> option jsstring -> option jsstring ->
    jsstring + DiscordSend.DiscordSendResult;
  callGateway : list Ev -> GatewayCall -> jsstring + GatewayResult
}.

Definition C (A : Type) : Type := list Ev -> Outcome A * list Ev.

Definition retC {A} (a : A) : C A := fun h => (Returned a, h).

Definition bindC {A B} (m : C A) (k : A -> C B) : C B :=
  fun h =>
    match m h with
    | (Returned a, h') => k a h'
    | (Thrown err, h') => (Thrown err, h')
    end.

(** An awaited call: its answer is recorded, and a rejection is thrown. *)
Definition await {A} (answer : list Ev -> jsstring + A)
    (record : jsstring + A -> Ev) : C A :=
  fun h =>
    match answer h with
    | inr a => (Returned a, h ++ [record (inr a)])
    | inl err => (Thrown err, h ++ [record (inl err)])
    end.

Definition log (line : jsstring) : C unit :=
  fun h => (Returned tt, h ++ [Log line]).

(** Truthiness of an optional boolean. *)
Definition flag (b : option bool) : bool := default false b.

(** [opts.media ?? null] *)
Definition orNull (s : option jsstring) : JsonValue :=
  match s with Some m => jsonString m | None => jsonNull end.

Definition checkMark : jsstring := [9989%N].

Definition dryRunLine (providerName : jsstring) (opts : SendOpts) : jsstring :=
  Js.lit "[dry-run] would send via " ++ providerName ++ Js.lit " -> "
  ++ to opts ++ Js.lit ": " ++ message opts
  ++ match media opts with
     | Some m =>
         if Js.truthy m then Js.lit " (media " ++ m ++ Js.lit ")" else []
     | None => []
     end.

Definition gatewayCallOf (opts : SendOpts) (key : jsstring) : GatewayCall :=
  {| url := Js.lit "ws://127.0.0.1:18789";
     method := Js.lit "send";
     params := {| paramTo := to opts;
                  paramMessage := message opts;
                  paramMediaUrl := media opts;
                  idempotencyKey := key |};
     timeoutMs := 10000;
     clientName := Js.lit "cli";
     mode := Js.lit "cli" |}.

Definition sendCommand (env : Env) (opts : SendOpts) : C unit :=
  let providerName :=
    toLowerCase env (default (Js.lit "whatsapp") (provider opts)) in
  if flag (dryRun opts) then log (dryRunLine providerName opts)
  else if Js.eqb providerName (Js.lit "telegram") then
    bindC (await (fun h => sendMessageTelegram env h (to opts) (message opts)
                              (TELEGRAM_BOT_TOKEN env) (media opts))
                 (Telegram (to opts) (message opts)
                    (TELEGRAM_BOT_TOKEN env) (media opts)))
      (fun result =>
    bindC (log (success env
                  (checkMark ++ Js.lit " Sent via telegram. Message ID: "
                   ++ telegramMessageId result ++ Js.lit " (chat "
                   ++ chatId result ++ Js.lit ")")))
      (fun _ =>
    if flag (json opts) then
      log (stringify env
             [("provider", jsonString (Js.lit "telegram"));
              ("via", jsonString (Js.lit "direct"));
              ("to", jsonString (to opts));
              ("chatId", jsonString (chatId result));
              ("messageId", jsonString (telegramMessageId result));
              ("mediaUrl", orNull (media opts))]%string)
    else retC tt))
  else if Js.eqb providerName (Js.lit "discord") then
    bindC (await (fun h => sendMessageDiscord env h (to opts) (message opts)
                              (DISCORD_BOT_TOKEN env) (media opts))
                 (Discord (to opts) (message opts)
                    (DISCORD_BOT_TOKEN env) (media opts)))
      (fun result =>
    bindC (log (success env
                  (checkMark ++ Js.lit " Sent via discord. Message ID: "
                   ++ DiscordSend.messageId result ++ Js.lit " (channel "
                   ++ DiscordSend.channelId result ++ Js.lit ")")))
      (fun _ =>
    if flag (json opts) then
      log (stringify env
             [("provider", jsonString (Js.lit "discord"));
              ("via", jsonString (Js.lit "direct"));
              ("to", jsonString (to opts));
              ("channelId", jsonString (DiscordSend.channelId result));
              ("messageId", jsonString (DiscordSend.messageId result));
              ("mediaUrl", orNull (media opts))]%string)
    else retC tt))
  else
    bindC (fun h =>
             let call := gatewayCallOf opts (randomIdempotencyKey env h) in
             await (fun h => callGateway env h call) (Gateway call) h)
      (fun result =>
    bindC (log (success env
                  (checkMark ++ Js.lit " Sent via gateway. Message ID: "
                   ++ default (Js.lit "unknown") (gatewayMessageId result))))
      (fun _ =>
    if flag (json opts) then
      log (stringify env
             [("provider", jsonString (Js.lit "web"));
              ("via", jsonString (Js.lit "gateway"));
              ("to", jsonString (to opts));
              ("messageId",
               match gatewayMessageId result with
               | Some m => jsonString m
               | None => jsonUndefined
               end);
              ("mediaUrl", orNull (media opts))]%string)
    else retC tt)).

(** The transport an outbound call of the trace uses. *)
Inductive Transport := viaTelegram | viaDiscord | viaGateway.

Definition transportOf (e : Ev) : option Transport :=
  match e with
  | Telegram _ _ _ _ _ => Some viaTelegram
  | Discord _ _ _ _ _ => Some viaDiscord
  | Gateway _ _ => Some viaGateway
  | Log _ => None
  end.

(** The rejection an event records, if it records one. *)
Definition rejectionOf (e : Ev) : option jsstring :=
  match e with
  | Telegram _ _ _ _ (inl err) | Discord _ _ _ _ (inl err)
  | Gateway _ (inl err) => Some err
  | _ => None
  end.

(** Recipient and text of an outbound call. *)
Definition addressedTo (e : Ev) : option (jsstring * jsstring) :=
  match e with
  | Telegram recipient text _ _ _ | Discord recipient text _ _ _ =>
      Some (recipient, text)
  | Gateway call _ => Some (paramTo (params call), paramMessage (params call))
  | Log _ => None
  end.

(** The transport the provider name selects. *)
Definition routeOf (env : Env) (opts : SendOpts) : Transport :=
  let providerName :=
    toLowerCase env (default (Js.lit "whatsapp") (provider opts)) in
  if bool_decide (providerName = Js.lit "telegram") then viaTelegram
  else if bool_decide (providerName = Js.lit "discord") then viaDiscord
  else viaGateway.

End SendCommand.

(** * Sample environments of the send paths *)

Module SendSample.

(** A Discord API that answers every request with message "m1" in channel
    "c9". *)
Definition restOk (h : list DiscordSend.Ev) (request : DiscordSend.Request)
    : jsstring + option DiscordSend.ApiObject :=
  inr (Some {| DiscordSend.id := Some (Js.lit "m1");
               DiscordSend.channel_id := Some (Js.lit "c9") |}).

(** A chunker that cuts at the limit once. *)
Definition cutOnce (text : jsstring) (limit : nat) : list jsstring :=
  [take limit text; drop limit text].

Definition discordEnv : DiscordSend.Env :=
  {| DiscordSend.envToken := Some (Js.lit "token-discord");
     DiscordSend.configToken := None;
     DiscordSend.chunkText := cutOnce;
     DiscordSend.loadWebMedia := fun _ _ => inl (Js.lit "Error: not found");
     DiscordSend.restPost := restOk;
     DiscordSend.nullAccess := Js.lit "TypeError: res is undefined" |}.

Definition noOpts : DiscordSend.DiscordSendOpts :=
  {| DiscordSend.token := None; DiscordSend.mediaUrl := None |}.

(** Lower case for the letters A to Z. *)
Definition asciiLower (s : jsstring) : jsstring :=
  map (fun c => if ((65 <=? c) && (c <=? 90))%N then (c + 32)%N else c) s.

(** The environment of the command's test suite: Telegram answers
    message "t1" in chat "123", Discord "d1" in "chan1", the gateway
    "g1". *)
Definition commandEnv : SendCommand.Env :=
  {| SendCommand.toLowerCase := asciiLower;
     SendCommand.success := fun line => line;
     SendCommand.stringify := fun _ => Js.lit "{}";
     SendCommand.TELEGRAM_BOT_TOKEN := Some (Js.lit "token-abc");
     SendCommand.DISCORD_BOT_TOKEN := Some (Js.lit "token-discord");
     SendCommand.randomIdempotencyKey := fun _ => Js.lit "idem-1";
     SendCommand.sendMessageTelegram := fun _ _ _ _ _ =>
       inr {| SendCommand.telegramMessageId := Js.lit "t1";
              SendCommand.chatId := Js.lit "123" |};
     SendCommand.sendMessageDiscord := fun _ _ _ _ _ =>
       inr {| DiscordSend.messageId := Js.lit "d1";
              DiscordSend.channelId := Js.lit "chan1" |};
     SendCommand.callGateway := fun _ _ =>
       inr {| SendCommand.gatewayMessageId := Some (Js.lit "g1") |} |}.

Definition mkOpts (recipient : jsstring) (providerName : option jsstring)
    (dry : option bool) : SendCommand.SendOpts :=
  {| SendCommand.to := recipient; SendCommand.message := Js.lit "hi";
     SendCommand.provider := providerName; SendCommand.json := None;
     SendCommand.dryRun := dry; SendCommand.media := None |}.

End SendSample.

Section IsolatedAgent.

(** Imports of [isolated-agent.ts] whose code lives in other modules, and
    the environment of the process. *)
Variable normalizeE164 : jsstring -> jsstring.
Variable DEFAULT_IDLE_MINUTES : Z.
Variable applyTemplate : jsstring -> jsstring -> jsstring.
Variable normalizeThinkLevel : option jsstring -> option jsstring.
Variable chunkText : jsstring -> Z -> list jsstring.
Variable runCommandReply :
  list Event -> CommandReplyArgs -> jsstring + option (list Payload).
Variable DISCORD_BOT_TOKEN : option jsstring.

Set Default Proof Using "Type".

Definition assertCommandReplyConfig (cfg : ClawdisConfig) : M ReplyConfig :=
  match inbound cfg ≫= reply with
  | Some reply =>
      if negb (Js.eqb (mode reply) (Js.lit "command"))
         || negb (match command reply with
                  | Some c => negb (length c =? 0)%nat
                  | None => false
                  end)
      then throw (Js.lit "Error: Configure inbound.reply.mode=command with reply.command before using cron agent jobs.")
      else ret reply
  | None =>
      throw (Js.lit "Error: Configure inbound.reply.mode=command with reply.command before using cron agent jobs.")
  end.

(** [(sessionCfg?.mainKey ?? "main").trim() || "main"] *)
Definition mainKeyOf (cfg : ClawdisConfig) : jsstring :=
  let k := Js.trim (default (Js.lit "main") (sessionCfgOf cfg ≫= mainKey)) in
  if Js.truthy k then k else Js.lit "main".

Definition requestedChannelOf (channel : option jsstring) : jsstring :=
  default (Js.lit "last") channel.

Definition explicitToOf (to : option jsstring) : option jsstring :=
  match to with
  | Some t => if Js.truthy (Js.trim t) then Some (Js.trim t) else None
  | None => None
  end.

Definition lastChannelOf (main : option SessionEntry) : option jsstring :=
  match main ≫= lastChannel with
  | Some c =>
      if Js.truthy c && negb (Js.eqb c (Js.lit "webchat")) then Some c else None
  | None => None
  end.

Definition lastToOf (main : option SessionEntry) : jsstring :=
  match main ≫= lastTo with
  | Some t => Js.trim t
  | None => []
  end.

(** The [channel] of [resolveDeliveryTarget]. *)
Definition resolveChannel (cfg : ClawdisConfig)
    (store : gmap jsstring SessionEntry) (channel : option jsstring) : jsstring :=
  let requestedChannel := requestedChannelOf channel in
  let main := store !! mainKeyOf cfg in
  if Js.eqb requestedChannel (Js.lit "whatsapp")
     || Js.eqb requestedChannel (Js.lit "telegram")
     || Js.eqb requestedChannel (Js.lit "discord")
  then requestedChannel
  else default (Js.lit "whatsapp") (lastChannelOf main).

(** The [to] of [resolveDeliveryTarget], before the allowlist is applied. *)
Definition resolveTo (cfg : ClawdisConfig)
    (store : gmap jsstring SessionEntry) (to : option jsstring) : option jsstring :=
  let main := store !! mainKeyOf cfg in
  match explicitToOf to with
  | Some explicitTo => Some explicitTo
  | None =>
      let lastTo := lastToOf main in
      if Js.truthy lastTo then Some lastTo else None
  end.

(** [rawAllow] *)
Definition rawAllowOf (cfg : ClawdisConfig) : list jsstring :=
  default [] (inbound cfg ≫= allowFrom).

(** [rawAllow.map(normalizeE164).filter((val) => val.length > 1)] *)
Definition normalizedAllow (rawAllow : list jsstring) : list jsstring :=
  List.filter (fun val => (1 <? length val)%nat) (map normalizeE164 rawAllow).

Definition sanitizedWhatsappTo (cfg : ClawdisConfig) (channel : jsstring)
    (to : option jsstring) : option jsstring :=
  if negb (Js.eqb channel (Js.lit "whatsapp")) then to
  else
    let rawAllow := rawAllowOf cfg in
    if Js.includes rawAllow (Js.lit "*") then to
    else
      match normalizedAllow rawAllow with
      | [] => to
      | (first :: _) as allowFrom =>
          if negb (hasRecipient to) then Some first
          else
            let normalized := normalizeE164 (default [] to) in
            if Js.includes allowFrom normalized then Some normalized
            else Some first
      end.

(** [resolveDeliveryTarget]; [store] is the session store it loads. *)
Definition resolveDeliveryTarget (cfg : ClawdisConfig)
    (store : gmap jsstring SessionEntry)
    (channel to : option jsstring) : DeliveryTarget :=
  let channel := resolveChannel cfg store channel in
  let to := resolveTo cfg store to in
  {| targetChannel := channel;
     targetTo := if Js.eqb channel (Js.lit "whatsapp")
                 then sanitizedWhatsappTo cfg channel to
                 else to |}.

(** [Math.max(sessionCfg?.idleMinutes ?? DEFAULT_IDLE_MINUTES, 1) * 60_000] *)
Definition idleMsOf (cfg : ClawdisConfig) : Z :=
  let idleMinutes :=
    Z.max (default DEFAULT_IDLE_MINUTES (sessionCfgOf cfg ≫= idleMinutes)) 1 in
  idleMinutes * 60000.

(** [fresh] of [resolveCronSession] *)
Definition isFresh (cfg : ClawdisConfig) (entry : option SessionEntry)
    (nowMs : Z) : bool :=
  match entry with
  | Some e => nowMs - updatedAt e <=? idleMsOf cfg
  | None => false
  end.

(** [resolveCronSession]; [store] is the session store it loads and
    [randomUUID] the value [crypto.randomUUID()] gives when called. *)
Definition resolveCronSession (cfg : ClawdisConfig)
    (store : gmap jsstring SessionEntry) (sessionKey : jsstring) (nowMs : Z)
    (randomUUID : jsstring) : CronSession :=
  let entry := store !! sessionKey in
  let fresh := isFresh cfg entry nowMs in
  let sessionId :=
    if fresh then default [] (sessionId <$> entry) else randomUUID in
  let systemSent :=
    if fresh then default false (entry ≫= systemSent) else false in
  {| sessionStore := store;
     sessionEntry :=
       {| sessionId := sessionId;
          updatedAt := nowMs;
          systemSent := Some systemSent;
          thinkingLevel := entry ≫= thinkingLevel;
          verboseLevel := entry ≫= verboseLevel;
          model := entry ≫= model;
          contextTokens := entry ≫= contextTokens;
          lastChannel := entry ≫= lastChannel;
          lastTo := entry ≫= lastTo;
          syncing := entry ≫= syncing |};
     sessionSystemSent := systemSent;
     isNewSession := negb fresh |}.

(** The agent turn of the job's payload, if it is one. *)
Definition turnOf (job : CronJob) : option AgentTurn :=
  match payload job with
  | agentTurn turn => Some turn
  | systemEvent _ => None
  end.

(** [delivery] *)
Definition deliveryRequested (job : CronJob) : bool :=
  bool_decide (turnOf job ≫= deliver = Some true).

(** [bestEffortDeliver] *)
Definition isBestEffort (job : CronJob) : bool :=
  bool_decide (turnOf job ≫= bestEffortDeliver = Some true).

(** [pickSummaryFromPayloads(payloads) ?? pickSummaryFromOutput(firstText)] *)
Definition summaryOf (payloads : list Payload) : option jsstring :=
  let firstText := default [] (head payloads ≫= text) in
  match pickSummaryFromPayloads payloads with
  | Some s => Some s
  | None => pickSummaryFromOutput (Some firstText)
  end.

Definition callAgent (args : CommandReplyArgs) : M (option (list Payload)) :=
  fun w =>
    let outcome := runCommandReply (log w) args in
    let w' := {| disk := disk w; log := log w ++ [EvAgent args outcome] |} in
    match outcome with
    | inr result => (Returned result, w')
    | inl err => (Thrown err, w')
    end.

Local Open Scope async_scope.

(** The body of the [try] of the WhatsApp branch. *)
Definition deliverWhatsApp (deps : CliDeps) (to : jsstring)
    (payloads : list Payload) : M unit :=
  forOf payloads (fun payload =>
    let mediaList := mediaListOf payload in
    let primaryMedia := head mediaList in
    callSend WhatsApp (sendMessageWhatsApp deps) to (default [] (text payload))
      {| verbose := Some false; optMediaUrl := primaryMedia; token := None |} ;;
    forOf (tail mediaList) (fun extra =>
      callSend WhatsApp (sendMessageWhatsApp deps) to []
        {| verbose := Some false; optMediaUrl := Some extra; token := None |})).

(** The body of the [try] of the Telegram branch. *)
Definition deliverTelegram (deps : CliDeps) (chatId : jsstring)
    (payloads : list Payload) : M unit :=
  forOf payloads (fun payload =>
    let mediaList := mediaListOf payload in
    if (length mediaList =? 0)%nat then
      forOf (chunkText (default [] (text payload)) 4000) (fun chunk =>
        callSend Telegram (sendMessageTelegram deps) chatId chunk
          {| verbose := Some false; optMediaUrl := None; token := None |})
    else
      forOfFirst true mediaList (fun first url =>
        let caption := if first then default [] (text payload) else [] in
        callSend Telegram (sendMessageTelegram deps) chatId caption
          {| verbose := Some false; optMediaUrl := Some url; token := None |})).

(** The body of the [try] of the Discord branch. *)
Definition deliverDiscord (deps : CliDeps) (discordTarget : jsstring)
    (payloads : list Payload) : M unit :=
  forOf payloads (fun payload =>
    let mediaList := mediaListOf payload in
    if (length mediaList =? 0)%nat then
      callSend Discord (sendMessageDiscord deps) discordTarget
        (default [] (text payload))
        {| verbose := None; optMediaUrl := None; token := DISCORD_BOT_TOKEN |}
    else
      forOfFirst true mediaList (fun first url =>
        let caption := if first then default [] (text payload) else [] in
        callSend Discord (sendMessageDiscord deps) discordTarget caption
          {| verbose := None; optMediaUrl := Some url;
             token := DISCORD_BOT_TOKEN |})).

(** One delivery branch: without a recipient it returns at once, otherwise
    it sends inside [try] and returns from the [catch] when a send throws.
    [None] means that control falls through to the final [return]. *)
Definition deliveryBranch (bestEffortDeliver : bool)
    (summary : option jsstring) (to : option jsstring)
    (missing skipNotice : string) (sendAll : jsstring -> M unit)
    : M (option RunCronAgentTurnResult) :=
  if negb (hasRecipient to) then
    if negb bestEffortDeliver then
      ret (Some {| status := StatusError; summary := summary;
                   error := Some (Js.lit missing) |})
    else
      ret (Some {| status := StatusSkipped;
                   summary := Some (Js.lit skipNotice);
                   error := None |})
  else
    tryCatch (sendAll (default [] to) ;; ret None)
      (fun err =>
         if negb bestEffortDeliver then
           ret (Some {| status := StatusError; summary := summary;
                        error := Some err |})
         else ret (Some {| status := StatusOk; summary := summary;
                           error := None |})).

(** The part of [runCronIsolatedAgentTurn] after the agent has answered. *)
Definition deliverResult (deps : CliDeps) (delivery bestEffortDeliver : bool)
    (resolvedDelivery : DeliveryTarget) (payloads : list Payload)
    : M RunCronAgentTurnResult :=
  let summary := summaryOf payloads in
  early <-
    (if delivery then
       if Js.eqb (targetChannel resolvedDelivery) (Js.lit "whatsapp") then
         deliveryBranch bestEffortDeliver summary (targetTo resolvedDelivery)
           "Cron delivery to WhatsApp requires a recipient."
           "Delivery skipped (no WhatsApp recipient)."
           (fun to => deliverWhatsApp deps (normalizeE164 to) payloads)
       else if Js.eqb (targetChannel resolvedDelivery) (Js.lit "telegram") then
         deliveryBranch bestEffortDeliver summary (targetTo resolvedDelivery)
           "Cron delivery to Telegram requires a chatId."
           "Delivery skipped (no Telegram chatId)."
           (fun chatId => deliverTelegram deps chatId payloads)
       else if Js.eqb (targetChannel resolvedDelivery) (Js.lit "discord") then
         deliveryBranch bestEffortDeliver summary (targetTo resolvedDelivery)
           "Cron delivery to Discord requires --channel discord and --to <channelId|user:ID>"
           "Delivery skipped (no Discord destination)."
           (fun discordTarget => deliverDiscord deps discordTarget payloads)
       else ret None
     else ret None) ;;
  match early with
  | Some result => ret result
  | None => ret {| status := StatusOk; summary := summary; error := None |}
  end.

(** The [channel] and [to] that the run passes to [resolveDeliveryTarget]. *)
Definition jobChannel (job : CronJob) : option jsstring :=
  match turnOf job with
  | Some turn => channel turn
  | None => Some (Js.lit "last")
  end.

Definition jobTo (job : CronJob) : option jsstring := turnOf job ≫= to.

(** [isFirstTurnInSession] *)
Definition isFirstTurn (cronSession : CronSession) : bool :=
  isNewSession cronSession || negb (sessionSystemSent cronSession).

(** [sendSystemOnce] *)
Definition sendSystemOnceOf (replyCfg : ReplyConfig) : bool :=
  bool_decide (session replyCfg ≫= sendSystemOnce = Some true).

(** The entry written to the store before the run. *)
Definition entryToPersist (replyCfg : ReplyConfig) (cronSession : CronSession)
    : SessionEntry :=
  if sendSystemOnceOf replyCfg && isFirstTurn cronSession
  then setSystemSent (sessionEntry cronSession) (Some true)
  else sessionEntry cronSession.

(** The argument object handed to [runCommandReply]. *)
Definition commandArgs (params : RunParams) (replyCfg : ReplyConfig)
    (cronSession : CronSession) (resolvedDelivery : DeliveryTarget)
    : CommandReplyArgs :=
  let sendSystemOnce := sendSystemOnceOf replyCfg in
  let isFirstTurnInSession := isFirstTurn cronSession in
  let newSessionId := sessionId (sessionEntry cronSession) in
  let sessionIntro :=
    match session replyCfg ≫= sessionIntro with
    | Some intro => if Js.truthy intro then applyTemplate intro newSessionId else []
    | None => []
    end in
  let bodyPrefix :=
    match bodyPrefix replyCfg with
    | Some prefix => if Js.truthy prefix then applyTemplate prefix newSessionId else []
    | None => []
    end in
  let thinkOverride := normalizeThinkLevel (thinkingDefault replyCfg) in
  let jobThink := normalizeThinkLevel (turnOf (job params) ≫= thinking) in
  let thinkLevel :=
    match jobThink with Some t => Some t | None => thinkOverride end in
  let fallbackTimeout :=
    default (QArith_base.inject_Z 600) (replyTimeoutSeconds replyCfg) in
  let timeoutSecondsRaw :=
    match turnOf (job params) ≫= timeoutSeconds with
    | Some n => if Js.truthyNumber n then n else fallbackTimeout
    | None => fallbackTimeout
    end in
  let timeoutSeconds := Z.max (Js.floor timeoutSecondsRaw) 1 in
  let base :=
    Js.trim (Js.lit "[cron:" ++ id (job params)
             ++ match name (job params) with
                | Some n => if Js.truthy n then Js.lit " " ++ n else []
                | None => []
                end
             ++ Js.lit "] " ++ runMessage params) in
  let prefixed :=
    if negb sendSystemOnce || isFirstTurnInSession
    then (if Js.truthy bodyPrefix then bodyPrefix ++ base else base)
    else base in
  let commandBody :=
    if Js.truthy sessionIntro
    then sessionIntro ++ [10; 10]%N ++ prefixed
    else prefixed in
  let recipient := default [] (targetTo resolvedDelivery) in
  {| argReply := withCommandMode replyCfg;
     templatingCtx :=
       {| Body := commandBody;
          BodyStripped := commandBody;
          SessionId := newSessionId;
          From := recipient;
          To := recipient;
          Surface := Js.lit "Cron";
          IsNewSession :=
            if isNewSession cronSession then Js.lit "true" else Js.lit "false" |};
     argSendSystemOnce := sendSystemOnce;
     argIsNewSession := isNewSession cronSession;
     argIsFirstTurnInSession := isFirstTurnInSession;
     argSystemSent :=
       default false (systemSent (entryToPersist replyCfg cronSession));
     timeoutMs := timeoutSeconds * 1000;
     argTimeoutSeconds := timeoutSeconds;
     thinkLevel := thinkLevel;
     argLane :=
       (let l := Js.trim (default [] (lane params)) in
        if Js.truthy l then l else Js.lit "cron");
     runId := newSessionId |}.

(** [runCronIsolatedAgentTurn]; [now] is the value of [Date.now()] and
    [randomUUID] that of [crypto.randomUUID()]. Both the cron session and
    the delivery target are resolved from the store as it is on disk when
    the run starts. *)
Definition runCronIsolatedAgentTurn (params : RunParams) (now : Z)
    (randomUUID : jsstring) : M RunCronAgentTurnResult :=
  replyCfg <- assertCommandReplyConfig (cfg params) ;;
  store <- loadSessionStore ;;
  let cronSession :=
    resolveCronSession (cfg params) store (sessionKey params) now randomUUID in
  let delivery := deliveryRequested (job params) in
  let bestEffortDeliver := isBestEffort (job params) in
  let resolvedDelivery :=
    resolveDeliveryTarget (cfg params) store
      (jobChannel (job params)) (jobTo (job params)) in
  saveSessionStore
    (<[sessionKey params := entryToPersist replyCfg cronSession]>
       (sessionStore cronSession)) ;;
  answer <-
    tryCatch
      (runResult <-
         callAgent (commandArgs params replyCfg cronSession resolvedDelivery) ;;
       ret (inr runResult))
      (fun err => ret (inl err)) ;;
  match answer with
  | inl err =>
      ret {| status := StatusError; summary := None; error := Some err |}
  | inr runResult =>
      deliverResult (deps params) delivery bestEffortDeliver resolvedDelivery
        (default [] runResult)
  end.

(** A run that starts with the session store [store] on disk. *)
Definition startWorld (store : gmap jsstring SessionEntry) : World :=
  {| disk := store; log := [] |}.


(** The outcome of a run from the store [store], what it did, and the
    store it leaves on disk. *)
Definition runOutcome (params : RunParams) (now : Z) (randomUUID : jsstring)
    (store : gmap jsstring SessionEntry) : Outcome RunCronAgentTurnResult :=
  fst (runCronIsolatedAgentTurn params now randomUUID (startWorld store)).

Definition runLog (params : RunParams) (now : Z) (randomUUID : jsstring)
    (store : gmap jsstring SessionEntry) : list Event :=
  log (snd (runCronIsolatedAgentTurn params now randomUUID (startWorld store))).

Definition runDisk (params : RunParams) (now : Z) (randomUUID : jsstring)
    (store : gmap jsstring SessionEntry) : gmap jsstring SessionEntry :=
  disk (snd (runCronIsolatedAgentTurn params now randomUUID (startWorld store))).

(** The delivery target of a run from the store [store]. *)
Definition resolvedDeliveryOf (params : RunParams)
    (store : gmap jsstring SessionEntry) : DeliveryTarget :=
  resolveDeliveryTarget (cfg params) store
    (jobChannel (job params)) (jobTo (job params)).

(** The summary of the payload that the scan stops at. *)
Definition summaryAt (found : option Payload) : option jsstring :=
  found ≫= (fun p => pickSummaryFromOutput (text p)).

(** The world after some more events. *)
Definition extend (w : World) (evs : list Event) : World :=
  {| disk := disk w; log := log w ++ evs |}.

(** What a loop of sends on one surface leaves in the log: sends that
    resolved, and then either nothing more, when the loop ran to its end, or
    the send that rejected, when it threw. *)
Inductive SendTrace (s : SendSurface) : list Event -> Outcome unit -> Prop :=
| trace_done : SendTrace s [] (Returned tt)
| trace_failed target body opts err :
    SendTrace s [EvSend s target body opts (Some err)] (Thrown err)
| trace_sent target body opts evs out :
    SendTrace s evs out ->
    SendTrace s (EvSend s target body opts None :: evs) out.

Definition Sends (s : SendSurface) (m : M unit) : Prop :=
  forall w, exists evs, SendTrace s evs (fst (m w)) /\ snd (m w) = extend w evs.

(** The results of a delivery branch. *)
Definition missingRecipientResult (bestEffortDeliver : bool)
    (summary : option jsstring) (missing skipNotice : string)
    : RunCronAgentTurnResult :=
  if bestEffortDeliver
  then {| status := StatusSkipped; summary := Some (Js.lit skipNotice);
          error := None |}
  else {| status := StatusError; summary := summary;
          error := Some (Js.lit missing) |}.

Definition sendFailureResult (bestEffortDeliver : bool)
    (summary : option jsstring) (err : jsstring) : RunCronAgentTurnResult :=
  if bestEffortDeliver
  then {| status := StatusOk; summary := summary; error := None |}
  else {| status := StatusError; summary := summary; error := Some err |}.

(** The name of the channel a surface is sent on. *)
Definition surfaceChannel (s : SendSurface) : jsstring :=
  match s with
  | WhatsApp => Js.lit "whatsapp"
  | Telegram => Js.lit "telegram"
  | Discord => Js.lit "discord"
  end.

(** Whether [assertCommandReplyConfig] accepts the configuration. *)
Definition commandReplyConfigured (cfg : ClawdisConfig) : bool :=
  match inbound cfg ≫= reply with
  | Some reply =>
      Js.eqb (mode reply) (Js.lit "command")
      && match command reply with
         | Some c => negb (length c =? 0)%nat
         | None => false
         end
  | None => false
  end.

(** Whether the resolved channel is one the run has a delivery branch for. *)
Definition knownChannel (resolved : DeliveryTarget) : bool :=
  Js.eqb (targetChannel resolved) (Js.lit "whatsapp")
  || Js.eqb (targetChannel resolved) (Js.lit "telegram")
  || Js.eqb (targetChannel resolved) (Js.lit "discord").

(** The recipient the sends of a delivery branch are addressed to. *)
Definition sendTargetOf (resolved : DeliveryTarget) : jsstring :=
  if Js.eqb (targetChannel resolved) (Js.lit "whatsapp")
  then normalizeE164 (default [] (targetTo resolved))
  else default [] (targetTo resolved).

(** A send on surface [s] addressed to [target]. *)
Definition sentTo (s : SendSurface) (target : jsstring) (ev : Event) : Prop :=
  match ev with
  | EvSend s' target' _ _ _ => s' = s /\ target' = target
  | _ => False
  end.

(** A computation that does nothing but send on [s] to [target]. *)
Definition SendsAllTo (s : SendSurface) (target : jsstring) (m : M unit) : Prop :=
  forall w, exists evs,
    snd (m w) = extend w evs /\ Forall (sentTo s target) evs.

(** Whether a logged event is a send that rejected. *)
Definition sendRejected (ev : Event) : bool :=
  match ev with
  | EvSend _ _ _ _ (Some _) => true
  | _ => false
  end.

(** ** Facts about strings and summaries *)

Lemma includes_elem_of (arr : list jsstring) (x : jsstring) :
  Js.includes arr x = true <-> x ∈ arr.
Proof.
  unfold Js.includes, Js.eqb. rewrite existsb_exists. split.
  - intros (y & Hy & Heq). apply bool_decide_eq_true in Heq. subst.
    by apply list_elem_of_In.
  - intros Hx. exists x. split; [by apply list_elem_of_In|].
    by apply bool_decide_eq_true.
Qed.

Lemma eqb_eq (a b : jsstring) : Js.eqb a b = true <-> a = b.
Proof. unfold Js.eqb. apply bool_decide_eq_true. Qed.

Lemma eqb_neq (a b : jsstring) : Js.eqb a b = false <-> a <> b.
Proof. unfold Js.eqb. apply bool_decide_eq_false. Qed.

Lemma truthy_false (s : jsstring) : Js.truthy s = false <-> s = [].
Proof. destruct s; simpl; split; congruence. Qed.

Lemma truthy_true (s : jsstring) : Js.truthy s = true <-> s <> [].
Proof. destruct s; simpl; split; congruence. Qed.

Lemma pickSummaryFromOutput_blank (t : option jsstring) :
  Js.trim (default [] t) = [] -> pickSummaryFromOutput t = None.
Proof. intros H. unfold pickSummaryFromOutput. by rewrite H. Qed.

Lemma pickSummaryFromOutput_short (t : option jsstring) :
  Js.trim (default [] t) <> [] ->
  (length (Js.trim (default [] t)) <= 2000)%nat ->
  pickSummaryFromOutput t = Some (Js.trim (default [] t)).
Proof.
  intros Hne Hlen. unfold pickSummaryFromOutput.
  apply truthy_true in Hne. rewrite Hne. simpl negb. cbv iota.
  destruct (Nat.ltb_spec 2000 (length (Js.trim (default [] t)))); [lia | done].
Qed.

Lemma pickSummaryFromOutput_long (t : option jsstring) :
  (2000 < length (Js.trim (default [] t)))%nat ->
  pickSummaryFromOutput t
  = Some (take 2000 (Js.trim (default [] t)) ++ truncationSuffix).
Proof.
  intros Hlen. unfold pickSummaryFromOutput.
  destruct (Js.trim (default [] t)) as [|c clean] eqn:E; [simpl in Hlen; lia|].
  simpl negb. cbv iota.
  destruct (Nat.ltb_spec 2000 (length (c :: clean))); [done | lia].
Qed.

Lemma pickSummaryFromOutput_truthy (t : option jsstring) (s : jsstring) :
  pickSummaryFromOutput t = Some s -> Js.truthy s = true.
Proof.
  unfold pickSummaryFromOutput.
  destruct (Js.trim (default [] t)) as [|c clean] eqn:E; [discriminate|].
  simpl negb. cbv iota. intros [= <-].
  match goal with |- context [if ?b then _ else _] => destruct b end;
    reflexivity.
Qed.

Lemma pickSummaryLoop_find (payloads : list Payload) (n : nat) :
  (n <= length payloads)%nat ->
  pickSummaryLoop payloads n
  = summaryAt (find (fun p => Js.truthy (trimmedText p)) (rev (take n payloads))).
Proof.
  induction n as [|i IH]; intros Hn; [done|].
  destruct (lookup_lt_is_Some_2 payloads i) as [p Hp]; [lia|].
  rewrite (take_S_r _ _ _ Hp), rev_unit. simpl. rewrite Hp. simpl.
  unfold trimmedText at 1.
  destruct (Js.trim (default [] (text p))) as [|c clean] eqn:E.
  - rewrite pickSummaryFromOutput_blank by done. simpl. apply IH. lia.
  - simpl. destruct (pickSummaryFromOutput (text p)) as [s|] eqn:Es.
    + by rewrite (pickSummaryFromOutput_truthy _ _ Es).
    + unfold pickSummaryFromOutput in Es. rewrite E in Es. discriminate.
Qed.

Lemma pickSummaryFromPayloads_find (payloads : list Payload) :
  pickSummaryFromPayloads payloads
  = summaryAt (find (fun p => Js.truthy (trimmedText p)) (rev payloads)).
Proof.
  unfold pickSummaryFromPayloads.
  rewrite pickSummaryLoop_find by done. by rewrite firstn_all.
Qed.

(** C6, as amended. [pickSummaryFromPayloads] scans the payloads from the
    last to the first and stops at the first one whose trimmed text is not
    empty. It returns that trimmed text when it has at most 2000 code units,
    and a string that starts with its first 2000 code units when it is
    longer. When every text trims to the empty string, or there is no
    payload, the summary is absent. For the payloads "first", " ", " last "
    the summary is "last". *)
Theorem pickSummaryFromPayloads_scan (payloads : list Payload) :
  match find (fun p => Js.truthy (trimmedText p)) (rev payloads) with
  | None => pickSummaryFromPayloads payloads = None
  | Some p =>
      ((length (trimmedText p) <= 2000)%nat ->
       pickSummaryFromPayloads payloads = Some (trimmedText p))
      /\ ((2000 < length (trimmedText p))%nat ->
          exists suffix,
            pickSummaryFromPayloads payloads
            = Some (take 2000 (trimmedText p) ++ suffix))
  end
  /\ pickSummaryFromPayloads Sample.threePayloads = Some (Js.lit "last").
Proof.
  split; [|by vm_compute].
  rewrite pickSummaryFromPayloads_find.
  destruct (find _ (rev payloads)) as [p|] eqn:Hfind; [|done].
  apply find_some in Hfind as [_ Hp]. apply truthy_true in Hp.
  simpl. split; intros Hlen.
  - by apply pickSummaryFromOutput_short.
  - exists truncationSuffix. by apply pickSummaryFromOutput_long.
Qed.

(** C7, on the input of the test suite. For a text of 2001 letters "a" the
    summary is 2000 letters "a" followed by the three code units U+00E2,
    U+20AC, U+00A6 of the source's template literal; it is not 2000 letters
    followed by the single ellipsis U+2026. *)
Theorem truncated_summary_suffix :
  pickSummaryFromOutput (Some (repeat 97%N 2001))
  = Some (repeat 97%N 2000 ++ [226; 8364; 166]%N)
  /\ pickSummaryFromOutput (Some (repeat 97%N 2001))
     <> Some (repeat 97%N 2000 ++ ellipsis).
Proof.
  assert (pickSummaryFromOutput (Some (repeat 97%N 2001))
          = Some (repeat 97%N 2000 ++ [226; 8364; 166]%N)) as E
    by (vm_compute; reflexivity).
  split; [exact E|]. rewrite E. intros H.
  apply (f_equal (fun o => length <$> o)) in H. vm_compute in H.
  discriminate.
Qed.

(** ** Facts about the delivery target *)

Lemma eqb_refl (a : jsstring) : Js.eqb a a = true.
Proof. by apply eqb_eq. Qed.

Lemma resolveTo_truthy (cfg : ClawdisConfig)
    (store : gmap jsstring SessionEntry) (to : option jsstring) (t : jsstring) :
  resolveTo cfg store to = Some t -> Js.truthy t = true.
Proof.
  unfold resolveTo, explicitToOf. destruct to as [explicit|].
  - destruct (Js.truthy (Js.trim explicit)) eqn:E; [by intros [= <-]|].
    destruct (Js.truthy (lastToOf _)) eqn:E'; [by intros [= <-] | done].
  - destruct (Js.truthy (lastToOf _)) eqn:E'; [by intros [= <-] | done].
Qed.

Lemma hasRecipient_resolveTo (cfg : ClawdisConfig)
    (store : gmap jsstring SessionEntry) (to : option jsstring) :
  hasRecipient (resolveTo cfg store to)
  = bool_decide (resolveTo cfg store to <> None).
Proof.
  destruct (resolveTo cfg store to) as [t|] eqn:E; unfold hasRecipient.
  - rewrite (resolveTo_truthy _ _ _ _ E). by rewrite bool_decide_eq_true_2.
  - by rewrite bool_decide_eq_false_2 by (intros Hne; by apply Hne).
Qed.

Lemma normalizedAllow_elem_of (rawAllow : list jsstring) (t : jsstring) :
  t ∈ normalizedAllow rawAllow
  <-> exists a, a ∈ rawAllow /\ t = normalizeE164 a /\ (1 < length t)%nat.
Proof.
  unfold normalizedAllow. rewrite list_elem_of_In, filter_In, in_map_iff.
  split.
  - intros [(a & <- & Ha) Hlen]. exists a. rewrite list_elem_of_In.
    split; [done|]. split; [done|]. by apply Nat.ltb_lt.
  - intros (a & Ha & -> & Hlen). split.
    + exists a. split; [done|]. by apply list_elem_of_In.
    + by apply Nat.ltb_lt.
Qed.

(** C1. On the whatsapp channel: when the allowlist has no wildcard and at
    least one entry whose normal form is longer than one code unit, the
    returned recipient is a member of the normalised allowlist, whatever the
    candidate recipient is; a listed candidate is returned in normal form,
    an absent or unlisted one is replaced by the first allowlisted entry.
    When the allowlist contains the wildcard or has no valid entry, the
    candidate is returned unchanged. *)
Theorem whatsapp_recipient_allowlisted (cfg : ClawdisConfig)
    (store : gmap jsstring SessionEntry) (channel to : option jsstring) :
  let resolved := resolveDeliveryTarget cfg store channel to in
  let candidate := resolveTo cfg store to in
  let rawAllow := rawAllowOf cfg in
  targetChannel resolved = Js.lit "whatsapp" ->
  (Js.lit "*" ∉ rawAllow ->
   (exists a, a ∈ rawAllow /\ (1 < length (normalizeE164 a))%nat) ->
   (exists t, targetTo resolved = Some t /\ t ∈ normalizedAllow rawAllow)
   /\ (forall t, candidate = Some t ->
         normalizeE164 t ∈ normalizedAllow rawAllow ->
         targetTo resolved = Some (normalizeE164 t))
   /\ (candidate = None
       \/ (exists t, candidate = Some t
                     /\ normalizeE164 t ∉ normalizedAllow rawAllow) ->
       targetTo resolved = head (normalizedAllow rawAllow)))
  /\ (Js.lit "*" ∈ rawAllow
      \/ (forall a, a ∈ rawAllow -> (length (normalizeE164 a) <= 1)%nat) ->
      targetTo resolved = candidate).
Proof.
  intros resolved candidate rawAllow Hchannel.
  assert (targetTo resolved
          = sanitizedWhatsappTo cfg (Js.lit "whatsapp") candidate) as ->.
  { subst resolved. unfold resolveDeliveryTarget in *. simpl in *.
    by rewrite Hchannel, eqb_refl. }
  unfold sanitizedWhatsappTo. rewrite eqb_refl. simpl negb. cbv iota.
  fold rawAllow. split.
  - intros Hstar (a & Ha & Hlen).
    destruct (Js.includes rawAllow (Js.lit "*")) eqn:Einc.
    { by apply includes_elem_of in Einc. }
    assert (normalizeE164 a ∈ normalizedAllow rawAllow) as Hin.
    { apply normalizedAllow_elem_of. by exists a. }
    destruct (normalizedAllow rawAllow) as [|first rest] eqn:Eallow.
    { by apply elem_of_nil in Hin. }
    subst candidate. rewrite hasRecipient_resolveTo.
    destruct (resolveTo cfg store to) as [t|] eqn:Eto.
    + rewrite bool_decide_eq_true_2 by done. cbn [negb from_option]. unfold Datatypes.id.
      destruct (Js.includes (first :: rest) (normalizeE164 t)) eqn:Elisted.
      * apply includes_elem_of in Elisted. split; [by eexists|].
        split; [by intros ? [= <-] _|].
        intros [? | (t' & [= <-] & Hnot)]; done.
      * split; [eexists; split; [done | apply list_elem_of_here]|].
        split; [|done]. intros t' [= <-] Hlisted.
        apply includes_elem_of in Hlisted. congruence.
    + rewrite bool_decide_eq_false_2 by (intros Hne; by apply Hne). cbn [negb].
      split; [eexists; split; [done | apply list_elem_of_here]|].
      split; [done | done].
  - intros [Hstar | Hnone].
    + apply includes_elem_of in Hstar. by rewrite Hstar.
    + destruct (Js.includes rawAllow (Js.lit "*")); [done|].
      destruct (normalizedAllow rawAllow) as [|first rest] eqn:Eallow; [done|].
      assert (first ∈ normalizedAllow rawAllow) as Hin
        by (rewrite Eallow; apply list_elem_of_here).
      apply normalizedAllow_elem_of in Hin as (a & Ha & -> & Hlen).
      specialize (Hnone a Ha). lia.
Qed.

Lemma lastToOf_trim (main : option SessionEntry) :
  lastToOf main = Js.trim (default [] (main ≫= lastTo)).
Proof. unfold lastToOf. by destruct (main ≫= lastTo). Qed.

(** C5, as amended. The candidate recipient is the explicit [to], trimmed,
    when that is not empty; otherwise it is the last-route [to] of the main
    session, trimmed, and absent when that is empty or missing. The returned
    recipient is the candidate on every channel but whatsapp, where the
    candidate goes through the allowlist first. The channel is the requested
    one when that is whatsapp, telegram or discord; otherwise it is the
    last-route channel of the main session when that is a non-empty string
    other than "webchat", and "whatsapp" in all remaining cases. *)
Theorem delivery_target_precedence (cfg : ClawdisConfig)
    (store : gmap jsstring SessionEntry) (channel to : option jsstring) :
  let resolved := resolveDeliveryTarget cfg store channel to in
  let candidate := resolveTo cfg store to in
  let main := store !! mainKeyOf cfg in
  let requested := default (Js.lit "last") channel in
  let known := [Js.lit "whatsapp"; Js.lit "telegram"; Js.lit "discord"] in
  let lastRecipient := Js.trim (default [] (main ≫= lastTo)) in
  (forall t, to = Some t -> Js.trim t <> [] -> candidate = Some (Js.trim t))
  /\ (to = None \/ (exists t, to = Some t /\ Js.trim t = []) ->
      (lastRecipient <> [] -> candidate = Some lastRecipient)
      /\ (lastRecipient = [] -> candidate = None))
  /\ (targetChannel resolved <> Js.lit "whatsapp" ->
      targetTo resolved = candidate)
  /\ (targetChannel resolved = Js.lit "whatsapp" ->
      targetTo resolved
      = sanitizedWhatsappTo cfg (Js.lit "whatsapp") candidate)
  /\ (requested ∈ known -> targetChannel resolved = requested)
  /\ (requested ∉ known ->
      (forall c, main ≫= lastChannel = Some c -> c <> [] ->
                 c <> Js.lit "webchat" -> targetChannel resolved = c)
      /\ (main ≫= lastChannel = None \/ main ≫= lastChannel = Some []
          \/ main ≫= lastChannel = Some (Js.lit "webchat") ->
          targetChannel resolved = Js.lit "whatsapp")).
Proof.
  intros resolved candidate main requested known lastRecipient.
  assert (forall t, Js.trim t = [] ->
            explicitToOf (Some t) = None) as Hblank.
  { intros t Ht. unfold explicitToOf. by rewrite Ht. }
  assert (explicitToOf to = None ->
          (lastRecipient <> [] -> candidate = Some lastRecipient)
          /\ (lastRecipient = [] -> candidate = None)) as Hlast.
  { intros Hnone. subst candidate. unfold resolveTo. rewrite Hnone.
    fold main. rewrite lastToOf_trim. fold lastRecipient.
    split; intros H.
    - apply truthy_true in H. by rewrite H.
    - by rewrite H. }
  repeat split.
  - intros t -> Ht. subst candidate. unfold resolveTo, explicitToOf.
    apply truthy_true in Ht. by rewrite Ht.
  - destruct H as [-> | (t & -> & Ht)]; [by apply Hlast|].
    by apply Hlast, Hblank.
  - destruct H as [-> | (t & -> & Ht)]; [by apply Hlast|].
    by apply Hlast, Hblank.
  - intros Hch. subst resolved. unfold resolveDeliveryTarget in *.
    simpl in *. apply eqb_neq in Hch. by rewrite Hch.
  - intros Hch. subst resolved. unfold resolveDeliveryTarget in *.
    simpl in *. by rewrite Hch, eqb_refl.
  - intros Hknown. subst resolved. unfold resolveDeliveryTarget. simpl.
    unfold resolveChannel, requestedChannelOf. fold requested.
    subst known. rewrite !elem_of_cons, elem_of_nil in Hknown.
    destruct Hknown as [-> | [-> | [-> | []]]]; by rewrite eqb_refl.
  - subst resolved. unfold resolveDeliveryTarget. simpl.
    unfold resolveChannel, requestedChannelOf. fold requested main.
    subst known. rewrite !elem_of_cons, elem_of_nil in H.
    intros c Hc Hne Hweb.
    rewrite !(proj2 (eqb_neq _ _)) by (intros Heq; apply H; auto). simpl.
    unfold lastChannelOf. rewrite Hc.
    apply truthy_true in Hne. apply eqb_neq in Hweb.
    by rewrite Hne, Hweb.
  - subst resolved. unfold resolveDeliveryTarget. simpl.
    unfold resolveChannel, requestedChannelOf. fold requested main.
    subst known. rewrite !elem_of_cons, elem_of_nil in H.
    intros Hc. rewrite !(proj2 (eqb_neq _ _)) by (intros Heq; apply H; auto). simpl.
    unfold lastChannelOf.
    destruct Hc as [-> | [-> | ->]]; [done | done |].
    by rewrite eqb_refl.
Qed.

(** ** Facts about the cron session *)

(** C2. A stored entry is fresh exactly when it exists and [nowMs] minus
    its [updatedAt] is at most the idle window, the configured (or default)
    idle minutes raised to at least 1 and multiplied by 60000. A fresh entry
    gives its [sessionId] and its [systemSent] flag to the session; a stale
    or missing one gives the session the value of [crypto.randomUUID()] and
    [systemSent = false]. One millisecond before the end of the window the
    [sessionId] is reused, one millisecond after it a new one is minted. *)
Theorem cron_session_freshness (cfg : ClawdisConfig)
    (store : gmap jsstring SessionEntry) (sessionKey : jsstring) (nowMs : Z)
    (randomUUID : jsstring) :
  let session := resolveCronSession cfg store sessionKey nowMs randomUUID in
  let idle :=
    Z.max (default DEFAULT_IDLE_MINUTES (sessionCfgOf cfg ≫= idleMinutes)) 1 in
  (isNewSession session = false
   <-> exists e, store !! sessionKey = Some e
                 /\ nowMs - updatedAt e <= idle * 60000)
  /\ (forall e, store !! sessionKey = Some e ->
                nowMs - updatedAt e <= idle * 60000 ->
                sessionId (sessionEntry session) = sessionId e
                /\ sessionSystemSent session = default false (systemSent e)
                /\ systemSent (sessionEntry session)
                   = Some (default false (systemSent e)))
  /\ (store !! sessionKey = None
      \/ (exists e, store !! sessionKey = Some e
                    /\ idle * 60000 < nowMs - updatedAt e) ->
      sessionId (sessionEntry session) = randomUUID
      /\ sessionSystemSent session = false
      /\ systemSent (sessionEntry session) = Some false
      /\ isNewSession session = true)
  /\ (forall e, store !! sessionKey = Some e ->
                (nowMs - updatedAt e = idle * 60000 - 1 ->
                 sessionId (sessionEntry session) = sessionId e)
                /\ (nowMs - updatedAt e = idle * 60000 + 1 ->
                    sessionId (sessionEntry session) = randomUUID)).
Proof.
  intros session idle.
  assert (forall e, isFresh cfg (Some e) nowMs = true
                    <-> nowMs - updatedAt e <= idle * 60000) as Hfresh.
  { intros e. unfold isFresh, idleMsOf. fold idle. apply Z.leb_le. }
  assert (forall e, store !! sessionKey = Some e ->
            nowMs - updatedAt e <= idle * 60000 ->
            sessionId (sessionEntry session) = sessionId e
            /\ sessionSystemSent session = default false (systemSent e)
            /\ systemSent (sessionEntry session)
               = Some (default false (systemSent e))
            /\ isNewSession session = false) as Hreuse.
  { intros e He Hle. apply Hfresh in Hle. subst session.
    unfold resolveCronSession.
    cbn [sessionEntry sessionId sessionSystemSent systemSent isNewSession].
    rewrite He, Hle. simpl. by destruct (systemSent e). }
  assert (store !! sessionKey = None
          \/ (exists e, store !! sessionKey = Some e
                        /\ idle * 60000 < nowMs - updatedAt e) ->
          sessionId (sessionEntry session) = randomUUID
          /\ sessionSystemSent session = false
          /\ systemSent (sessionEntry session) = Some false
          /\ isNewSession session = true) as Hmint.
  { intros Hstale.
    assert (isFresh cfg (store !! sessionKey) nowMs = false) as Hnot.
    { destruct Hstale as [-> | (e & -> & Hgt)]; [done|].
      apply not_true_is_false. rewrite Hfresh. lia. }
    subst session. unfold resolveCronSession.
    cbn [sessionEntry sessionId sessionSystemSent systemSent isNewSession].
    by rewrite Hnot. }
  split; [|split; [|split; [exact Hmint|]]].
  - split.
    + intros Hold. destruct (store !! sessionKey) as [e|] eqn:He.
      * exists e. split; [done|].
        destruct (Z.le_gt_cases (nowMs - updatedAt e) (idle * 60000))
          as [Hle | Hgt]; [done|].
        destruct Hmint as (_ & _ & _ & Hnew); [right; by exists e|].
        congruence.
      * destruct Hmint as (_ & _ & _ & Hnew); [by left|]. congruence.
    + intros (e & He & Hle). by apply (Hreuse e He Hle).
  - intros e He Hle. destruct (Hreuse e He Hle) as (? & ? & ? & _). done.
  - intros e He. split; intros Hdelta.
    + apply (Hreuse e He). lia.
    + apply Hmint. right. exists e. split; [done | lia].
Qed.

(** ** Facts about sending loops *)

Lemma extend_nil (w : World) : extend w [] = w.
Proof. destruct w. unfold extend. simpl. by rewrite app_nil_r. Qed.

Lemma extend_app (w : World) (evs1 evs2 : list Event) :
  extend (extend w evs1) evs2 = extend w (evs1 ++ evs2).
Proof. unfold extend. simpl. by rewrite app_assoc. Qed.

Lemma SendTrace_app (s : SendSurface) (evs1 evs2 : list Event)
    (out : Outcome unit) :
  SendTrace s evs1 (Returned tt) -> SendTrace s evs2 out ->
  SendTrace s (evs1 ++ evs2) out.
Proof.
  intros H1 H2. remember (Returned tt) as done1 eqn:E.
  induction H1 as [| |target body opts evs out1 H1 IH]; [done | done |].
  simpl. constructor. by apply IH.
Qed.

Lemma SendTrace_isSend (s : SendSurface) (evs : list Event)
    (out : Outcome unit) :
  SendTrace s evs out -> Forall (fun ev => isSend ev = true) evs.
Proof. induction 1; repeat constructor; done. Qed.

(** A send that rejected is the one the loop threw on, and it went out on
    the loop's surface. *)
Lemma SendTrace_failure (s s' : SendSurface) (evs : list Event)
    (out : Outcome unit) (target body : jsstring) (opts : SendOpts)
    (err : jsstring) :
  SendTrace s evs out -> EvSend s' target body opts (Some err) ∈ evs ->
  out = Thrown err /\ s' = s.
Proof.
  induction 1 as [| |? ? ? evs out H IH]; intros Hin.
  - by apply elem_of_nil in Hin.
  - apply list_elem_of_singleton in Hin. by injection Hin as -> _ _ _ ->.
  - apply elem_of_cons in Hin as [Hin | Hin]; [discriminate | by apply IH].
Qed.

Lemma Sends_ret (s : SendSurface) : Sends s (ret tt).
Proof.
  intros w. exists []. split; [constructor | by rewrite extend_nil].
Qed.

Lemma Sends_callSend (s : SendSurface)
    (send : list Event -> jsstring -> jsstring -> SendOpts -> option jsstring)
    (target body : jsstring) (opts : SendOpts) :
  Sends s (callSend s send target body opts).
Proof.
  intros w. exists [EvSend s target body opts (send (log w) target body opts)].
  unfold callSend. destruct (send (log w) target body opts); simpl.
  - split; [constructor | done].
  - split; [repeat constructor | done].
Qed.

Lemma Sends_bind (s : SendSurface) (m : M unit) (k : unit -> M unit) :
  Sends s m -> (forall u, Sends s (k u)) -> Sends s (bind m k).
Proof.
  intros Hm Hk w. destruct (Hm w) as (evs1 & Htrace1 & Hw1). unfold bind.
  destruct (m w) as [[[]|err] w1]; simpl in *; subst w1.
  - destruct (Hk tt (extend w evs1)) as (evs2 & Htrace2 & Hw2).
    exists (evs1 ++ evs2). split; [by eapply SendTrace_app|].
    by rewrite Hw2, extend_app.
  - by exists evs1.
Qed.

Lemma Sends_forOf {A} (s : SendSurface) (xs : list A) (body : A -> M unit) :
  (forall x, Sends s (body x)) -> Sends s (forOf xs body).
Proof.
  intros Hbody. induction xs as [|x xs IH]; simpl.
  - apply Sends_ret.
  - apply Sends_bind; [apply Hbody | by intros _].
Qed.

Lemma Sends_forOfFirst {A} (s : SendSurface) (first : bool) (xs : list A)
    (body : bool -> A -> M unit) :
  (forall b x, Sends s (body b x)) -> Sends s (forOfFirst first xs body).
Proof.
  intros Hbody. revert first. induction xs as [|x xs IH]; intros first; simpl.
  - apply Sends_ret.
  - apply Sends_bind; [apply Hbody | by intros _].
Qed.

Lemma Sends_deliverWhatsApp (deps : CliDeps) (to : jsstring)
    (payloads : list Payload) :
  Sends WhatsApp (deliverWhatsApp deps to payloads).
Proof.
  apply Sends_forOf. intros payload. apply Sends_bind.
  - apply Sends_callSend.
  - intros _. apply Sends_forOf. intros extra. apply Sends_callSend.
Qed.

Lemma Sends_deliverTelegram (deps : CliDeps) (chatId : jsstring)
    (payloads : list Payload) :
  Sends Telegram (deliverTelegram deps chatId payloads).
Proof.
  apply Sends_forOf. intros payload. cbv zeta.
  destruct (length (mediaListOf payload) =? 0)%nat.
  - apply Sends_forOf. intros chunk. apply Sends_callSend.
  - apply Sends_forOfFirst. intros first url. apply Sends_callSend.
Qed.

Lemma Sends_deliverDiscord (deps : CliDeps) (discordTarget : jsstring)
    (payloads : list Payload) :
  Sends Discord (deliverDiscord deps discordTarget payloads).
Proof.
  apply Sends_forOf. intros payload. cbv zeta.
  destruct (length (mediaListOf payload) =? 0)%nat.
  - apply Sends_callSend.
  - apply Sends_forOfFirst. intros first url. apply Sends_callSend.
Qed.

(** A delivery branch never throws. Without a recipient it sends nothing
    and returns the result for a missing recipient; with one it runs the
    sending loop and returns from the [catch] exactly when the loop threw. *)
Lemma deliveryBranch_spec (s : SendSurface) (bestEffortDeliver : bool)
    (summary to : option jsstring) (missing skipNotice : string)
    (sendAll : jsstring -> M unit) (w : World) :
  (forall t, Sends s (sendAll t)) ->
  exists evs early,
    deliveryBranch bestEffortDeliver summary to missing skipNotice sendAll w
    = (Returned early, extend w evs)
    /\ if hasRecipient to then
         exists out, SendTrace s evs out
           /\ early = match out with
                      | Returned _ => None
                      | Thrown err =>
                          Some (sendFailureResult bestEffortDeliver summary err)
                      end
       else evs = []
            /\ early = Some (missingRecipientResult bestEffortDeliver summary
                               missing skipNotice).
Proof.
  intros Hsends. unfold deliveryBranch. destruct (hasRecipient to); simpl.
  - destruct (Hsends (default [] to) w) as (evs & Htrace & Hw).
    unfold tryCatch, bind.
    destruct (sendAll (default [] to) w) as [[[]|err] w1]; simpl in *;
      subst w1.
    + exists evs, None. split; [done|]. by exists (Returned tt).
    + exists evs, (Some (sendFailureResult bestEffortDeliver summary err)).
      split; [by destruct bestEffortDeliver|]. by exists (Thrown err).
  - exists [], (Some (missingRecipientResult bestEffortDeliver summary
                        missing skipNotice)).
    rewrite extend_nil. by destruct bestEffortDeliver.
Qed.

(** ** Facts about the isolated run *)

(** After the agent has answered, the run never throws and only sends. A
    send that rejects decides the result, and it went out on the resolved
    channel of a run that asked for delivery. *)
Lemma deliverResult_spec (deps : CliDeps) (delivery bestEffortDeliver : bool)
    (resolved : DeliveryTarget) (payloads : list Payload) (w : World) :
  exists evs result,
    deliverResult deps delivery bestEffortDeliver resolved payloads w
    = (Returned result, extend w evs)
    /\ Forall (fun ev => isSend ev = true) evs
    /\ (forall s target body opts err,
          EvSend s target body opts (Some err) ∈ evs ->
          result = sendFailureResult bestEffortDeliver (summaryOf payloads) err
          /\ surfaceChannel s = targetChannel resolved
          /\ delivery = true)
    /\ ((forall ev, ev ∈ evs ->
           match ev with EvSend _ _ _ _ (Some _) => False | _ => True end) ->
        delivery = false \/ hasRecipient (targetTo resolved) = true
        \/ (Js.eqb (targetChannel resolved) (Js.lit "whatsapp")
             || Js.eqb (targetChannel resolved) (Js.lit "telegram")
             || Js.eqb (targetChannel resolved) (Js.lit "discord")) = false ->
        result = {| status := StatusOk; summary := summaryOf payloads;
                    error := None |}).
Proof.
  assert (forall s missing skipNotice sendAll,
    (forall t, Sends s (sendAll t)) ->
    targetChannel resolved = surfaceChannel s ->
    let branch :=
      deliveryBranch bestEffortDeliver (summaryOf payloads)
        (targetTo resolved) missing skipNotice sendAll in
    exists evs result,
      bind branch (fun early =>
        match early with
        | Some result => ret result
        | None => ret {| status := StatusOk; summary := summaryOf payloads;
                         error := None |}
        end) w = (Returned result, extend w evs)
      /\ Forall (fun ev => isSend ev = true) evs
      /\ (forall s' target body opts err,
            EvSend s' target body opts (Some err) ∈ evs ->
            result
            = sendFailureResult bestEffortDeliver (summaryOf payloads) err
            /\ surfaceChannel s' = targetChannel resolved
            /\ true = true)
      /\ ((forall ev, ev ∈ evs ->
             match ev with EvSend _ _ _ _ (Some _) => False | _ => True end) ->
          hasRecipient (targetTo resolved) = true ->
          result = {| status := StatusOk; summary := summaryOf payloads;
                      error := None |})) as Hbranch.
  { intros s missing skipNotice sendAll Hsends Hchannel branch.
    destruct (deliveryBranch_spec s bestEffortDeliver (summaryOf payloads)
                (targetTo resolved) missing skipNotice sendAll w Hsends)
      as (evs & early & Hrun & Hshape).
    subst branch. unfold bind. rewrite Hrun.
    destruct (hasRecipient (targetTo resolved)).
    - destruct Hshape as (out & Htrace & ->).
      pose proof (SendTrace_isSend _ _ _ Htrace) as Hsend.
      destruct out as [[]|err'].
      + exists evs, {| status := StatusOk; summary := summaryOf payloads;
                       error := None |}.
        split; [done|]. split; [done|]. split; [|done].
        intros s' target body opts err Hin.
        by destruct (SendTrace_failure _ _ _ _ _ _ _ _ Htrace Hin).
      + exists evs, (sendFailureResult bestEffortDeliver
                       (summaryOf payloads) err').
        split; [done|]. split; [done|]. split.
        * intros s' target body opts err Hin.
          destruct (SendTrace_failure _ _ _ _ _ _ _ _ Htrace Hin)
            as [[= ->] ->].
          by rewrite Hchannel.
        * intros Hnone _. exfalso. clear -Htrace Hnone.
          remember (Thrown err') as out eqn:E.
          induction Htrace as [| |? ? ? evs out Htrace IH]; [done | |].
          -- apply (Hnone _ (list_elem_of_here _ _)).
          -- apply (IH E). intros ev Hev. apply Hnone. by right.
    - destruct Hshape as [-> ->].
      exists [], (missingRecipientResult bestEffortDeliver
                    (summaryOf payloads) missing skipNotice).
      split; [done|]. split; [constructor|]. split; [|done].
      intros ? ? ? ? ? Hin. by apply elem_of_nil in Hin. }
  assert (exists evs result,
    (Returned {| status := StatusOk; summary := summaryOf payloads;
                 error := None |}, w) = (Returned result, extend w evs)
    /\ Forall (fun ev => isSend ev = true) evs
    /\ (forall s target body opts err,
          EvSend s target body opts (Some err) ∈ evs ->
          result = sendFailureResult bestEffortDeliver (summaryOf payloads) err
          /\ surfaceChannel s = targetChannel resolved
          /\ delivery = true)
    /\ result = {| status := StatusOk; summary := summaryOf payloads;
                   error := None |}) as Hnone.
  { exists [], {| status := StatusOk; summary := summaryOf payloads;
                  error := None |}.
    rewrite extend_nil. split; [done|]. split; [constructor|].
    split; [|done]. intros ? ? ? ? ? Hin. by apply elem_of_nil in Hin. }
  unfold deliverResult. cbv zeta.
  destruct delivery.
  - destruct (Js.eqb (targetChannel resolved) (Js.lit "whatsapp")) eqn:Ewa.
    { apply eqb_eq in Ewa.
      destruct (Hbranch WhatsApp
                  "Cron delivery to WhatsApp requires a recipient."%string
                  "Delivery skipped (no WhatsApp recipient)."%string
                  (fun to => deliverWhatsApp deps (normalizeE164 to) payloads))
        as (evs & result & Hrun & Hsend & Hfail & Hok);
        [intros t; apply Sends_deliverWhatsApp | done |].
      exists evs, result. repeat split; try done; try apply (Hfail _ _ _ _ _ H).
      intros Hall [? | [Hto | ?]]; [done | by apply Hok | done]. }
    destruct (Js.eqb (targetChannel resolved) (Js.lit "telegram")) eqn:Etg.
    { apply eqb_eq in Etg.
      destruct (Hbranch Telegram
                  "Cron delivery to Telegram requires a chatId."%string
                  "Delivery skipped (no Telegram chatId)."%string
                  (fun chatId => deliverTelegram deps chatId payloads))
        as (evs & result & Hrun & Hsend & Hfail & Hok);
        [intros t; apply Sends_deliverTelegram | done |].
      exists evs, result. repeat split; try done; try apply (Hfail _ _ _ _ _ H).
      intros Hall [? | [Hto | ?]]; [done | by apply Hok | done]. }
    destruct (Js.eqb (targetChannel resolved) (Js.lit "discord")) eqn:Edc.
    { apply eqb_eq in Edc.
      destruct (Hbranch Discord
                  "Cron delivery to Discord requires --channel discord and --to <channelId|user:ID>"%string
                  "Delivery skipped (no Discord destination)."%string
                  (fun discordTarget =>
                     deliverDiscord deps discordTarget payloads))
        as (evs & result & Hrun & Hsend & Hfail & Hok);
        [intros t; apply Sends_deliverDiscord | done |].
      exists evs, result. repeat split; try done; try apply (Hfail _ _ _ _ _ H).
      intros Hall [? | [Hto | ?]]; [done | by apply Hok | done]. }
    destruct Hnone as (evs & result & Hrun & Hsend & Hfail & ->).
    exists evs, {| status := StatusOk; summary := summaryOf payloads;
                   error := None |}.
    repeat split; try done; try apply (Hfail _ _ _ _ _ H).
  - destruct Hnone as (evs & result & Hrun & Hsend & Hfail & ->).
    exists evs, {| status := StatusOk; summary := summaryOf payloads;
                   error := None |}.
    repeat split; try done; try apply (Hfail _ _ _ _ _ H).
Qed.

(** Without a recipient on one of the three channels, a run that asked for
    delivery returns at once and the world is left as it was. *)
Lemma deliverResult_missing (deps : CliDeps) (bestEffortDeliver : bool)
    (resolved : DeliveryTarget) (payloads : list Payload) (w : World) :
  hasRecipient (targetTo resolved) = false ->
  (targetChannel resolved = Js.lit "whatsapp" ->
   deliverResult deps true bestEffortDeliver resolved payloads w
   = (Returned (missingRecipientResult bestEffortDeliver (summaryOf payloads)
                  "Cron delivery to WhatsApp requires a recipient."
                  "Delivery skipped (no WhatsApp recipient)."), w))
  /\ (targetChannel resolved = Js.lit "telegram" ->
      deliverResult deps true bestEffortDeliver resolved payloads w
      = (Returned (missingRecipientResult bestEffortDeliver
                     (summaryOf payloads)
                     "Cron delivery to Telegram requires a chatId."
                     "Delivery skipped (no Telegram chatId)."), w))
  /\ (targetChannel resolved = Js.lit "discord" ->
      deliverResult deps true bestEffortDeliver resolved payloads w
      = (Returned (missingRecipientResult bestEffortDeliver
                     (summaryOf payloads)
                     "Cron delivery to Discord requires --channel discord and --to <channelId|user:ID>"
                     "Delivery skipped (no Discord destination)."), w)).
Proof.
  intros Hto. unfold deliverResult, deliveryBranch, bind. rewrite Hto.
  repeat split; intros ->; by destruct bestEffortDeliver.
Qed.

Lemma assertCommandReplyConfig_cases (cfg : ClawdisConfig) (w : World) :
  (exists replyCfg, inbound cfg ≫= reply = Some replyCfg
                    /\ assertCommandReplyConfig cfg w = (Returned replyCfg, w))
  \/ (exists err, assertCommandReplyConfig cfg w = (Thrown err, w)).
Proof.
  unfold assertCommandReplyConfig.
  destruct (inbound cfg ≫= reply) as [replyCfg|]; [|right; by eexists].
  match goal with |- context [if ?b then _ else _] => destruct b end.
  - right. by eexists.
  - left. by exists replyCfg.
Qed.

(** The run, step by step: it throws when the configuration is rejected;
    otherwise it saves the store, calls the agent, and either reports the
    agent's failure or goes on to deliver. *)
Lemma run_steps (params : RunParams) (now : Z) (randomUUID : jsstring)
    (store : gmap jsstring SessionEntry) :
  (exists err,
     assertCommandReplyConfig (cfg params) (startWorld store)
     = (Thrown err, startWorld store)
     /\ runCronIsolatedAgentTurn params now randomUUID (startWorld store)
        = (Thrown err, startWorld store))
  \/ (exists replyCfg,
        inbound (cfg params) ≫= reply = Some replyCfg
        /\ assertCommandReplyConfig (cfg params) (startWorld store)
           = (Returned replyCfg, startWorld store)
        /\ let cronSession :=
             resolveCronSession (cfg params) store (sessionKey params) now
               randomUUID in
           let saved :=
             <[sessionKey params := entryToPersist replyCfg cronSession]>
               store in
           let args :=
             commandArgs params replyCfg cronSession
               (resolvedDeliveryOf params store) in
           let outcome := runCommandReply [EvSave saved] args in
           let answered :=
             {| disk := saved; log := [EvSave saved; EvAgent args outcome] |} in
           runCronIsolatedAgentTurn params now randomUUID (startWorld store)
           = match outcome with
             | inl err =>
                 (Returned {| status := StatusError; summary := None;
                              error := Some err |}, answered)
             | inr runResult =>
                 deliverResult (deps params) (deliveryRequested (job params))
                   (isBestEffort (job params))
                   (resolvedDeliveryOf params store)
                   (default [] runResult) answered
             end).
Proof.
  destruct (assertCommandReplyConfig_cases (cfg params) (startWorld store))
    as [(replyCfg & Hreply & Hassert) | (err & Hassert)].
  - right. exists replyCfg. split; [done|]. split; [done|].
    unfold runCronIsolatedAgentTurn. unfold bind at 1. rewrite Hassert.
    cbv beta iota zeta
      delta [bind loadSessionStore saveSessionStore tryCatch callAgent ret
             startWorld disk log sessionStore resolveCronSession].
    fold (resolveCronSession (cfg params) store (sessionKey params) now
            randomUUID).
    fold (resolvedDeliveryOf params store). simpl app.
    by destruct (runCommandReply _ _).
  - left. exists err. split; [done|].
    unfold runCronIsolatedAgentTurn. unfold bind at 1. by rewrite Hassert.
Qed.

(** The shape of the log of a run in which the agent returned. *)
Lemma run_agent_returned (params : RunParams) (now : Z)
    (randomUUID : jsstring) (store : gmap jsstring SessionEntry)
    (args : CommandReplyArgs) (runResult : option (list Payload)) :
  EvAgent args (inr runResult) ∈ runLog params now randomUUID store ->
  exists saved,
    runCronIsolatedAgentTurn params now randomUUID (startWorld store)
    = deliverResult (deps params) (deliveryRequested (job params))
        (isBestEffort (job params)) (resolvedDeliveryOf params store)
        (default [] runResult)
        {| disk := saved; log := [EvSave saved; EvAgent args (inr runResult)] |}.
Proof.
  unfold runLog.
  destruct (run_steps params now randomUUID store)
    as [(err & _ & ->) | (replyCfg & _ & _ & Hrun)].
  { intros Hin. by apply elem_of_nil in Hin. }
  cbv zeta in Hrun.
  destruct (runCommandReply _ _) as [err|answer] eqn:Hagent; intros Hin.
  - rewrite Hrun in Hin. simpl in Hin.
    rewrite !elem_of_cons, elem_of_nil in Hin.
    destruct Hin as [? | [? | []]]; discriminate.
  - match type of Hrun with _ = deliverResult ?d ?dl ?be ?r ?ps ?w =>
      destruct (deliverResult_spec d dl be r ps w)
        as (evs & result & Hdeliver & Hsend & _)
    end.
    rewrite Hrun, Hdeliver in Hin. simpl in Hin.
    rewrite !elem_of_cons in Hin.
    destruct Hin as [? | [[= -> ->] | Hin]]; [discriminate | | ].
    + eexists. exact Hrun.
    + rewrite Forall_forall in Hsend. apply Hsend in Hin. discriminate.
Qed.

(** C3, as amended. Take a run whose agent command returned, that asks
    for delivery, whose resolved channel is whatsapp and that resolved no
    recipient. Without best-effort delivery it returns status "error" with
    the message "Cron delivery to WhatsApp requires a recipient."; with
    best-effort delivery it returns status "skipped"; in both cases the run
    makes no send call. *)
Theorem whatsapp_without_recipient (params : RunParams) (now : Z)
    (randomUUID : jsstring) (store : gmap jsstring SessionEntry)
    (args : CommandReplyArgs) (runResult : option (list Payload)) :
  EvAgent args (inr runResult) ∈ runLog params now randomUUID store ->
  deliveryRequested (job params) = true ->
  targetChannel (resolvedDeliveryOf params store) = Js.lit "whatsapp" ->
  hasRecipient (targetTo (resolvedDeliveryOf params store)) = false ->
  (isBestEffort (job params) = false ->
   exists result message,
     runOutcome params now randomUUID store = Returned result
     /\ status result = StatusError
     /\ error result = Some message
     /\ message = Js.lit "Cron delivery to WhatsApp requires a recipient."
     /\ mentions (Js.lit "recipient") message = true)
  /\ (isBestEffort (job params) = true ->
      exists result,
        runOutcome params now randomUUID store = Returned result
        /\ status result = StatusSkipped)
  /\ (forall ev, ev ∈ runLog params now randomUUID store -> isSend ev = false).
Proof.
  intros Hagent Hdelivery Hchannel Hto.
  destruct (run_agent_returned _ _ _ _ _ _ Hagent) as (saved & Hrun).
  rewrite Hdelivery in Hrun.
  destruct (deliverResult_missing (deps params) (isBestEffort (job params))
              (resolvedDeliveryOf params store) (default [] runResult)
              {| disk := saved;
                 log := [EvSave saved; EvAgent args (inr runResult)] |} Hto)
    as (Hwhatsapp & _).
  rewrite (Hwhatsapp Hchannel) in Hrun.
  unfold runOutcome, runLog. rewrite Hrun. simpl. repeat split.
  - intros ->. eexists _, _. repeat split; by vm_compute.
  - intros ->. by eexists.
  - intros ev Hev. rewrite !elem_of_cons, elem_of_nil in Hev.
    by destruct Hev as [-> | [-> | []]].
Qed.

(** C4. In a run where the agent returned and a send call rejects, the send
    went out on the resolved channel of a run that asked for delivery, and
    the result is decided by the best-effort flag: without it the status is
    "error", with the summary of the agent's payloads and the send's error;
    with it the status is "ok". *)
Theorem send_failure_policy (params : RunParams) (now : Z)
    (randomUUID : jsstring) (store : gmap jsstring SessionEntry)
    (args : CommandReplyArgs) (runResult : option (list Payload))
    (s : SendSurface) (target body : jsstring) (opts : SendOpts)
    (err : jsstring) :
  EvAgent args (inr runResult) ∈ runLog params now randomUUID store ->
  EvSend s target body opts (Some err) ∈ runLog params now randomUUID store ->
  runOutcome params now randomUUID store
  = Returned (if isBestEffort (job params)
              then {| status := StatusOk;
                      summary := summaryOf (default [] runResult);
                      error := None |}
              else {| status := StatusError;
                      summary := summaryOf (default [] runResult);
                      error := Some err |})
  /\ surfaceChannel s = targetChannel (resolvedDeliveryOf params store)
  /\ deliveryRequested (job params) = true.
Proof.
  intros Hagent Hsend.
  destruct (run_agent_returned _ _ _ _ _ _ Hagent) as (saved & Hrun).
  match type of Hrun with _ = deliverResult ?d ?dl ?be ?r ?ps ?w =>
    destruct (deliverResult_spec d dl be r ps w)
      as (evs & result & Hdeliver & _ & Hfail & _)
  end.
  unfold runOutcome, runLog in *. rewrite Hrun, Hdeliver in *.
  simpl in Hsend. rewrite !elem_of_cons in Hsend.
  destruct Hsend as [? | [? | Hsend]]; [discriminate | discriminate |].
  destruct (Hfail _ _ _ _ _ Hsend) as (-> & ? & ?).
  simpl. by destruct (isBestEffort (job params)).
Qed.

Lemma agent_position (before after evs : list Event) (args args' : CommandReplyArgs)
    (outcome outcome' : jsstring + option (list Payload))
    (saved : gmap jsstring SessionEntry) :
  Forall (fun ev => isSend ev = true) evs ->
  EvSave saved :: EvAgent args' outcome' :: evs
  = before ++ EvAgent args outcome :: after ->
  before = [EvSave saved] /\ args = args' /\ outcome = outcome'.
Proof.
  intros Hsend Heq. destruct before as [|b1 [|b2 before]]; simpl in Heq.
  - discriminate.
  - by injection Heq as <- <- <- _.
  - injection Heq as _ _ ->. rewrite Forall_forall in Hsend.
    assert (isSend (EvAgent args outcome) = true) as Hno; [|discriminate].
    apply Hsend. apply elem_of_app. right. apply list_elem_of_here.
Qed.

(** C8. With the send-system-once policy enabled and a first turn in the
    session, whenever the run invokes the agent command, the only thing it
    has done before is to save a session store that holds, under the
    session key, an entry with [systemSent = true]; the agent is invoked
    with exactly that history, and that store is still the one on disk when
    the run ends, whatever the agent did. With a configuration that
    [assertCommandReplyConfig] accepts, the run does save and then invoke
    the agent. *)
Theorem system_sent_persisted_before_agent (params : RunParams) (now : Z)
    (randomUUID : jsstring) (store : gmap jsstring SessionEntry)
    (replyCfg : ReplyConfig) :
  inbound (cfg params) ≫= reply = Some replyCfg ->
  sendSystemOnceOf replyCfg = true ->
  isFirstTurn (resolveCronSession (cfg params) store (sessionKey params) now
                 randomUUID) = true ->
  (forall before args outcome after,
     runLog params now randomUUID store
     = before ++ EvAgent args outcome :: after ->
     exists saved entry,
       before = [EvSave saved]
       /\ saved !! sessionKey params = Some entry
       /\ systemSent entry = Some true
       /\ outcome = runCommandReply [EvSave saved] args
       /\ runDisk params now randomUUID store = saved)
  /\ (assertCommandReplyConfig (cfg params) (startWorld store)
      = (Returned replyCfg, startWorld store) ->
      exists saved args outcome after,
        runLog params now randomUUID store
        = EvSave saved :: EvAgent args outcome :: after).
Proof.
  intros Hreply Honce Hfirst. unfold runLog, runDisk.
  destruct (run_steps params now randomUUID store)
    as [(err & Hassert & ->) | (replyCfg' & Hreply' & _ & Hrun)].
  { split.
    - intros before args outcome after Hlog. simpl in Hlog.
      by destruct before.
    - intros Hvalid. rewrite Hvalid in Hassert. discriminate. }
  assert (replyCfg' = replyCfg) as -> by congruence.
  cbv zeta in Hrun.
  set (cronSession := resolveCronSession (cfg params) store
                        (sessionKey params) now randomUUID) in *.
  set (saved := <[sessionKey params := entryToPersist replyCfg cronSession]>
                  store) in *.
  set (agentArgs := commandArgs params replyCfg cronSession
                      (resolvedDeliveryOf params store)) in *.
  assert (exists evs,
            snd (runCronIsolatedAgentTurn params now randomUUID
                   (startWorld store))
            = {| disk := saved;
                 log := EvSave saved
                        :: EvAgent agentArgs
                             (runCommandReply [EvSave saved] agentArgs)
                        :: evs |}
            /\ Forall (fun ev => isSend ev = true) evs)
    as (evs & Hworld & Hsend).
  { rewrite Hrun.
    destruct (runCommandReply [EvSave saved] agentArgs) as [err|answer].
    - by exists [].
    - match goal with |- context [deliverResult ?d ?dl ?be ?r ?ps ?w] =>
        destruct (deliverResult_spec d dl be r ps w)
          as (evs & result & Hdeliver & Hsend & _)
      end.
      exists evs. by rewrite Hdeliver. }
  rewrite Hworld. simpl. split.
  - intros before args outcome after Hlog.
    destruct (agent_position _ _ _ _ _ _ _ _ Hsend Hlog) as (-> & -> & ->).
    exists saved, (entryToPersist replyCfg cronSession).
    split; [done|]. split; [apply lookup_insert_eq|].
    split; [|done]. unfold entryToPersist. by rewrite Honce, Hfirst.
  - intros _. by eexists _, _, _, _.
Qed.

(** C10. Take a run whose agent command returned, that asks for delivery
    and resolved no recipient on the whatsapp, telegram or discord channel.
    With best-effort delivery the result is "skipped", its summary is the
    fixed notice of the channel and not the summary of the agent's
    payloads, and it carries no error. Without best-effort delivery the
    result is "error" and its summary is the summary of the agent's
    payloads. *)
Theorem missing_recipient_summary (params : RunParams) (now : Z)
    (randomUUID : jsstring) (store : gmap jsstring SessionEntry)
    (args : CommandReplyArgs) (runResult : option (list Payload)) :
  EvAgent args (inr runResult) ∈ runLog params now randomUUID store ->
  deliveryRequested (job params) = true ->
  hasRecipient (targetTo (resolvedDeliveryOf params store)) = false ->
  let channel := targetChannel (resolvedDeliveryOf params store) in
  let outcome := runOutcome params now randomUUID store in
  let agentSummary := summaryOf (default [] runResult) in
  (isBestEffort (job params) = true ->
   (channel = Js.lit "whatsapp" ->
    outcome = Returned
      {| status := StatusSkipped;
         summary := Some (Js.lit "Delivery skipped (no WhatsApp recipient).");
         error := None |})
   /\ (channel = Js.lit "telegram" ->
       outcome = Returned
         {| status := StatusSkipped;
            summary := Some (Js.lit "Delivery skipped (no Telegram chatId).");
            error := None |})
   /\ (channel = Js.lit "discord" ->
       outcome = Returned
         {| status := StatusSkipped;
            summary := Some (Js.lit "Delivery skipped (no Discord destination).");
            error := None |}))
  /\ (isBestEffort (job params) = false ->
      channel = Js.lit "whatsapp" \/ channel = Js.lit "telegram"
      \/ channel = Js.lit "discord" ->
      exists message,
        outcome = Returned {| status := StatusError; summary := agentSummary;
                              error := Some message |}).
Proof.
  intros Hagent Hdelivery Hto channel outcome agentSummary.
  destruct (run_agent_returned _ _ _ _ _ _ Hagent) as (saved & Hrun).
  rewrite Hdelivery in Hrun.
  destruct (deliverResult_missing (deps params) (isBestEffort (job params))
              (resolvedDeliveryOf params store) (default [] runResult)
              {| disk := saved;
                 log := [EvSave saved; EvAgent args (inr runResult)] |} Hto)
    as (Hwhatsapp & Htelegram & Hdiscord).
  subst outcome. unfold runOutcome. rewrite Hrun. fold channel in Hwhatsapp, Htelegram, Hdiscord.
  split; intros Hbest; rewrite Hbest in *.
  - repeat split; intros Hchannel.
    + by rewrite (Hwhatsapp Hchannel).
    + by rewrite (Htelegram Hchannel).
    + by rewrite (Hdiscord Hchannel).
  - intros [Hchannel | [Hchannel | Hchannel]].
    + rewrite (Hwhatsapp Hchannel). by eexists.
    + rewrite (Htelegram Hchannel). by eexists.
    + rewrite (Hdiscord Hchannel). by eexists.
Qed.

(** ** More about summaries *)

Lemma trimStart_suffix (s : jsstring) :
  exists dropped, s = dropped ++ Js.trimStart s.
Proof.
  induction s as [|c s IH]; [by exists []|]. simpl.
  destruct (Js.isWhiteSpace c); [|by exists []].
  destruct IH as (dropped & IH). exists (c :: dropped). simpl. by f_equal.
Qed.

Lemma trimStart_head (s rest : jsstring) (c : N) :
  Js.trimStart s = c :: rest -> Js.isWhiteSpace c = false.
Proof.
  induction s as [|c' s IH]; [done|]. simpl.
  destruct (Js.isWhiteSpace c') eqn:E; [done|]. by intros [= <- _].
Qed.

Lemma trimEnd_prefix (s : jsstring) :
  exists dropped, s = Js.trimEnd s ++ dropped.
Proof.
  unfold Js.trimEnd. destruct (trimStart_suffix (rev s)) as (dropped & E).
  exists (rev dropped). rewrite <- rev_app_distr, <- E. by rewrite rev_involutive.
Qed.

Lemma trim_head (s rest : jsstring) (c : N) :
  Js.trim s = c :: rest -> Js.isWhiteSpace c = false.
Proof.
  unfold Js.trim. intros E.
  destruct (trimEnd_prefix (Js.trimStart s)) as (dropped & Hpre).
  rewrite E in Hpre. simpl in Hpre. by eapply trimStart_head.
Qed.

(** What [pickSummaryFromOutput] can return. *)
Lemma pickSummaryFromOutput_shape (t : option jsstring) (s : jsstring) :
  pickSummaryFromOutput t = Some s ->
  exists c rest, s = c :: rest /\ Js.isWhiteSpace c = false
                 /\ (length s <= 2003)%nat.
Proof.
  unfold pickSummaryFromOutput.
  destruct (Js.trim (default [] t)) as [|c clean] eqn:E; [done|].
  pose proof (trim_head _ _ _ E) as Hc.
  cbn [Js.truthy negb]. cbv iota.
  destruct (Nat.ltb_spec 2000 (length (c :: clean))) as [Hlong|Hshort];
    intros [= <-].
  - exists c, (take 1999 clean ++ truncationSuffix).
    split; [done|]. split; [done|].
    cbn [length]. rewrite length_app, length_take.
    change (length truncationSuffix) with 3%nat. lia.
  - exists c, clean. split; [done|]. split; [done | lia].
Qed.

Lemma find_none_trimmed (payloads : list Payload) :
  find (fun p => Js.truthy (trimmedText p)) (rev payloads) = None ->
  forall p, p ∈ payloads -> trimmedText p = [].
Proof.
  intros Hfind p Hp. apply truthy_false.
  apply (find_none _ _ Hfind). apply in_rev. rewrite rev_involutive.
  by apply list_elem_of_In.
Qed.

Lemma pickSummaryFromPayloads_none (payloads : list Payload) :
  pickSummaryFromPayloads payloads = None
  <-> forall p, p ∈ payloads -> trimmedText p = [].
Proof.
  rewrite pickSummaryFromPayloads_find. split.
  - destruct (find _ (rev payloads)) as [p|] eqn:Hfind.
    + apply find_some in Hfind as [_ Hp]. apply truthy_true in Hp.
      simpl. unfold pickSummaryFromOutput. fold (trimmedText p).
      destruct (trimmedText p); done.
    + intros _. by apply find_none_trimmed.
  - intros Hblank. destruct (find _ (rev payloads)) as [p|] eqn:Hfind; [|done].
    apply find_some in Hfind as [Hin Hp]. apply truthy_true in Hp.
    exfalso. apply Hp, Hblank. apply list_elem_of_In.
    by apply in_rev in Hin.
Qed.

Lemma summaryOf_pick (payloads : list Payload) :
  summaryOf payloads = pickSummaryFromPayloads payloads.
Proof.
  unfold summaryOf.
  destruct (pickSummaryFromPayloads payloads) eqn:E; [done|].
  apply pickSummaryFromOutput_blank. simpl.
  destruct payloads as [|p payloads]; [done|]. simpl.
  apply (proj1 (pickSummaryFromPayloads_none _) E p), list_elem_of_here.
Qed.

(** X1. The fallback of the run's summary never contributes: the summary
    is the one picked from the payloads, and it is absent exactly when
    every payload's text trims to the empty string. *)
Theorem summary_fallback_is_dead (payloads : list Payload) :
  summaryOf payloads = pickSummaryFromPayloads payloads
  /\ (summaryOf payloads = None
      <-> forall p, p ∈ payloads -> trimmedText p = []).
Proof.
  split; [apply summaryOf_pick|].
  rewrite summaryOf_pick. apply pickSummaryFromPayloads_none.
Qed.

(** X2. A summary is never empty, never starts with white space and never
    has more than 2003 code units, whatever the agent sent. *)
Theorem summary_is_bounded (payloads : list Payload) (s : jsstring) :
  summaryOf payloads = Some s ->
  exists c rest, s = c :: rest /\ Js.isWhiteSpace c = false
                 /\ (length s <= 2003)%nat.
Proof.
  rewrite summaryOf_pick, pickSummaryFromPayloads_find.
  destruct (find _ (rev payloads)) as [p|]; [|done]. simpl.
  apply pickSummaryFromOutput_shape.
Qed.

(** ** More about the delivery target *)

Lemma sanitized_listed (cfg : ClawdisConfig) (to : option jsstring)
    (t : jsstring) :
  Js.lit "*" ∉ rawAllowOf cfg ->
  normalizedAllow (rawAllowOf cfg) <> [] ->
  sanitizedWhatsappTo cfg (Js.lit "whatsapp") to = Some t ->
  t ∈ normalizedAllow (rawAllowOf cfg).
Proof.
  intros Hstar Hvalid. unfold sanitizedWhatsappTo. rewrite eqb_refl.
  cbn [negb]. cbv iota.
  destruct (Js.includes (rawAllowOf cfg) (Js.lit "*")) eqn:Einc.
  { by apply includes_elem_of in Einc. }
  destruct (normalizedAllow (rawAllowOf cfg)) as [|first rest]; [done|].
  destruct (hasRecipient to); cbn [negb]; cbv iota zeta.
  - destruct (Js.includes (first :: rest) _) eqn:Elisted; intros [= <-].
    + by apply includes_elem_of in Elisted.
    + apply list_elem_of_here.
  - intros [= <-]. apply list_elem_of_here.
Qed.

Lemma sanitized_nonempty (cfg : ClawdisConfig) (to : option jsstring)
    (t : jsstring) :
  (forall t', to = Some t' -> t' <> []) ->
  sanitizedWhatsappTo cfg (Js.lit "whatsapp") to = Some t -> t <> [].
Proof.
  intros Hto. unfold sanitizedWhatsappTo. rewrite eqb_refl.
  cbn [negb]. cbv iota.
  destruct (Js.includes (rawAllowOf cfg) (Js.lit "*")); [by apply Hto|].
  destruct (normalizedAllow (rawAllowOf cfg)) as [|first rest] eqn:Eallow;
    [by apply Hto|].
  assert (forall x, x ∈ first :: rest -> x <> []) as Hlong.
  { intros x Hx. rewrite <- Eallow in Hx.
    apply normalizedAllow_elem_of in Hx as (a & _ & _ & Hlen).
    intros ->. simpl in Hlen. lia. }
  destruct (hasRecipient to); cbn [negb]; cbv iota zeta.
  - destruct (Js.includes (first :: rest) _) eqn:Elisted; intros [= <-].
    + apply Hlong. by apply includes_elem_of in Elisted.
    + apply Hlong, list_elem_of_here.
  - intros [= <-]. apply Hlong, list_elem_of_here.
Qed.

Lemma targetTo_nonempty (cfg : ClawdisConfig)
    (store : gmap jsstring SessionEntry) (channel to : option jsstring)
    (t : jsstring) :
  targetTo (resolveDeliveryTarget cfg store channel to) = Some t -> t <> [].
Proof.
  unfold resolveDeliveryTarget. cbn [targetTo].
  assert (forall t', resolveTo cfg store to = Some t' -> t' <> []) as Hcand.
  { intros t' Ht'. apply truthy_true. by eapply resolveTo_truthy. }
  destruct (Js.eqb (resolveChannel cfg store channel) (Js.lit "whatsapp"))
    eqn:Ech; [|by apply Hcand].
  apply eqb_eq in Ech. rewrite Ech. by apply sanitized_nonempty.
Qed.

(** X3. The recipient that [resolveDeliveryTarget] returns is absent or a
    non-empty string, on every channel and for every allowlist; so testing
    it for truthiness tests whether it is present. *)
Theorem resolved_recipient_is_never_empty (cfg : ClawdisConfig)
    (store : gmap jsstring SessionEntry) (channel to : option jsstring) :
  let resolved := resolveDeliveryTarget cfg store channel to in
  (forall t, targetTo resolved = Some t -> t <> [])
  /\ (hasRecipient (targetTo resolved) = false <-> targetTo resolved = None).
Proof.
  intros resolved. split; [apply targetTo_nonempty|].
  destruct (targetTo resolved) as [t|] eqn:E; simpl; [|done].
  apply targetTo_nonempty, truthy_true in E. rewrite E. split; done.
Qed.

(** ** More about the isolated run *)

Lemma extend_inj (w : World) (evs1 evs2 : list Event) :
  extend w evs1 = extend w evs2 -> evs1 = evs2.
Proof. unfold extend. intros [= H]. by apply app_inv_head in H. Qed.

Lemma SendsAllTo_ret (s : SendSurface) (target : jsstring) :
  SendsAllTo s target (ret tt).
Proof. intros w. exists []. by rewrite extend_nil. Qed.

Lemma SendsAllTo_callSend (s : SendSurface)
    (send : list Event -> jsstring -> jsstring -> SendOpts -> option jsstring)
    (target body : jsstring) (opts : SendOpts) :
  SendsAllTo s target (callSend s send target body opts).
Proof.
  intros w. exists [EvSend s target body opts (send (log w) target body opts)].
  unfold callSend.
  split; [by destruct (send (log w) target body opts)|].
  by repeat constructor.
Qed.

Lemma SendsAllTo_bind (s : SendSurface) (target : jsstring) (m : M unit)
    (k : unit -> M unit) :
  SendsAllTo s target m -> (forall u, SendsAllTo s target (k u)) ->
  SendsAllTo s target (bind m k).
Proof.
  intros Hm Hk w. destruct (Hm w) as (evs1 & Hw1 & Hall1). unfold bind.
  destruct (m w) as [[[]|err] w1]; simpl in *; subst w1.
  - destruct (Hk tt (extend w evs1)) as (evs2 & Hw2 & Hall2).
    exists (evs1 ++ evs2). rewrite Hw2, extend_app.
    split; [done | by apply Forall_app].
  - by exists evs1.
Qed.

Lemma SendsAllTo_forOf {A} (s : SendSurface) (target : jsstring)
    (xs : list A) (body : A -> M unit) :
  (forall x, SendsAllTo s target (body x)) ->
  SendsAllTo s target (forOf xs body).
Proof.
  intros Hbody. induction xs as [|x xs IH]; simpl.
  - apply SendsAllTo_ret.
  - apply SendsAllTo_bind; [apply Hbody | by intros _].
Qed.

Lemma SendsAllTo_forOfFirst {A} (s : SendSurface) (target : jsstring)
    (first : bool) (xs : list A) (body : bool -> A -> M unit) :
  (forall b x, SendsAllTo s target (body b x)) ->
  SendsAllTo s target (forOfFirst first xs body).
Proof.
  intros Hbody. revert first. induction xs as [|x xs IH]; intros first; simpl.
  - apply SendsAllTo_ret.
  - apply SendsAllTo_bind; [apply Hbody | by intros _].
Qed.

Lemma SendsAllTo_deliverWhatsApp (deps : CliDeps) (to : jsstring)
    (payloads : list Payload) :
  SendsAllTo WhatsApp to (deliverWhatsApp deps to payloads).
Proof.
  apply SendsAllTo_forOf. intros payload. apply SendsAllTo_bind.
  - apply SendsAllTo_callSend.
  - intros _. apply SendsAllTo_forOf. intros extra. apply SendsAllTo_callSend.
Qed.

Lemma SendsAllTo_deliverTelegram (deps : CliDeps) (chatId : jsstring)
    (payloads : list Payload) :
  SendsAllTo Telegram chatId (deliverTelegram deps chatId payloads).
Proof.
  apply SendsAllTo_forOf. intros payload. cbv zeta.
  destruct (length (mediaListOf payload) =? 0)%nat.
  - apply SendsAllTo_forOf. intros chunk. apply SendsAllTo_callSend.
  - apply SendsAllTo_forOfFirst. intros first url. apply SendsAllTo_callSend.
Qed.

Lemma SendsAllTo_deliverDiscord (deps : CliDeps) (discordTarget : jsstring)
    (payloads : list Payload) :
  SendsAllTo Discord discordTarget (deliverDiscord deps discordTarget payloads).
Proof.
  apply SendsAllTo_forOf. intros payload. cbv zeta.
  destruct (length (mediaListOf payload) =? 0)%nat.
  - apply SendsAllTo_callSend.
  - apply SendsAllTo_forOfFirst. intros first url. apply SendsAllTo_callSend.
Qed.

Lemma deliveryBranch_targets (s : SendSurface) (address : jsstring -> jsstring)
    (bestEffortDeliver : bool) (summary to : option jsstring)
    (missing skipNotice : string) (sendAll : jsstring -> M unit) (w : World) :
  (forall t, SendsAllTo s (address t) (sendAll t)) ->
  exists evs,
    snd (deliveryBranch bestEffortDeliver summary to missing skipNotice
           sendAll w) = extend w evs
    /\ Forall (sentTo s (address (default [] to))) evs
    /\ (hasRecipient to = false -> evs = []).
Proof.
  intros Hsends. unfold deliveryBranch.
  destruct (hasRecipient to); cbn [negb]; cbv iota.
  - destruct (Hsends (default [] to) w) as (evs & Hw & Hall).
    exists evs. unfold tryCatch, bind.
    destruct (sendAll (default [] to) w) as [[[]|err] w1]; simpl in *;
      subst w1; (split; [by destruct bestEffortDeliver | done]).
  - exists []. rewrite extend_nil.
    split; [by destruct bestEffortDeliver | done].
Qed.

(** Whatever the run sends after the agent's answer, it sends because
    delivery was asked for and a recipient was resolved, on the surface of
    the resolved channel and to the resolved recipient. *)
Lemma deliverResult_targets (deps : CliDeps)
    (delivery bestEffortDeliver : bool) (resolved : DeliveryTarget)
    (payloads : list Payload) (w : World) :
  exists evs,
    snd (deliverResult deps delivery bestEffortDeliver resolved payloads w)
    = extend w evs
    /\ (evs = []
        \/ (delivery = true
            /\ hasRecipient (targetTo resolved) = true
            /\ exists s, surfaceChannel s = targetChannel resolved
                         /\ Forall (sentTo s (sendTargetOf resolved)) evs)).
Proof.
  assert (forall s address missing skipNotice sendAll,
    (forall t, SendsAllTo s (address t) (sendAll t)) ->
    surfaceChannel s = targetChannel resolved ->
    address (default [] (targetTo resolved)) = sendTargetOf resolved ->
    exists evs,
      snd (bind (deliveryBranch bestEffortDeliver (summaryOf payloads)
                   (targetTo resolved) missing skipNotice sendAll)
             (fun early =>
                match early with
                | Some result => ret result
                | None => ret {| status := StatusOk;
                                 summary := summaryOf payloads;
                                 error := None |}
                end) w) = extend w evs
      /\ (evs = []
          \/ (true = true
              /\ hasRecipient (targetTo resolved) = true
              /\ exists s, surfaceChannel s = targetChannel resolved
                           /\ Forall (sentTo s (sendTargetOf resolved)) evs)))
    as Hbranch.
  { intros s address missing skipNotice sendAll Hsends Hsurface Haddress.
    destruct (deliveryBranch_targets s address bestEffortDeliver
                (summaryOf payloads) (targetTo resolved) missing skipNotice
                sendAll w Hsends) as (evs & Hw & Hall & Hnone).
    exists evs. unfold bind.
    destruct (deliveryBranch _ _ _ _ _ _ w) as [[[result|]|err] w1];
      simpl in *; subst w1; (split; [done|]);
      (destruct (hasRecipient (targetTo resolved));
       [right; rewrite Haddress in Hall; by eauto | left; by apply Hnone]). }
  unfold deliverResult. cbv zeta. destruct delivery.
  - destruct (Js.eqb (targetChannel resolved) (Js.lit "whatsapp")) eqn:Ewa.
    { apply eqb_eq in Ewa.
      apply (Hbranch WhatsApp normalizeE164);
        [intros t; apply SendsAllTo_deliverWhatsApp | done |].
      unfold sendTargetOf. by rewrite Ewa, eqb_refl. }
    destruct (Js.eqb (targetChannel resolved) (Js.lit "telegram")) eqn:Etg.
    { apply eqb_eq in Etg.
      apply (Hbranch Telegram (fun t => t));
        [intros t; apply SendsAllTo_deliverTelegram | done |].
      unfold sendTargetOf. by rewrite Ewa. }
    destruct (Js.eqb (targetChannel resolved) (Js.lit "discord")) eqn:Edc.
    { apply eqb_eq in Edc.
      apply (Hbranch Discord (fun t => t));
        [intros t; apply SendsAllTo_deliverDiscord | done |].
      unfold sendTargetOf. by rewrite Ewa. }
    exists []. rewrite extend_nil. by split; [|left].
  - exists []. rewrite extend_nil. by split; [|left].
Qed.

Lemma assertCommandReplyConfig_configured (cfg : ClawdisConfig) (w : World) :
  if commandReplyConfigured cfg
  then exists replyCfg,
         inbound cfg ≫= reply = Some replyCfg
         /\ assertCommandReplyConfig cfg w = (Returned replyCfg, w)
  else assertCommandReplyConfig cfg w
       = (Thrown (Js.lit "Error: Configure inbound.reply.mode=command with reply.command before using cron agent jobs."), w).
Proof.
  unfold commandReplyConfigured, assertCommandReplyConfig.
  destruct (inbound cfg ≫= reply) as [replyCfg|]; [|done].
  destruct (Js.eqb (mode replyCfg) (Js.lit "command")); simpl; [|done].
  destruct (command replyCfg) as [c|]; simpl; [|done].
  destruct (length c =? 0)%nat; simpl; [done|]. by exists replyCfg.
Qed.

(** The world a run with an accepted configuration ends in, and its
    result. *)
Lemma run_world (params : RunParams) (now : Z) (randomUUID : jsstring)
    (store : gmap jsstring SessionEntry) :
  commandReplyConfigured (cfg params) = true ->
  exists replyCfg sends result,
    inbound (cfg params) ≫= reply = Some replyCfg
    /\ let cronSession :=
         resolveCronSession (cfg params) store (sessionKey params) now
           randomUUID in
       let saved :=
         <[sessionKey params := entryToPersist replyCfg cronSession]> store in
       let args :=
         commandArgs params replyCfg cronSession
           (resolvedDeliveryOf params store) in
       let outcome := runCommandReply [EvSave saved] args in
       let answered :=
         {| disk := saved; log := [EvSave saved; EvAgent args outcome] |} in
       runCronIsolatedAgentTurn params now randomUUID (startWorld store)
       = (Returned result, extend answered sends)
       /\ match outcome with
          | inl err =>
              sends = []
              /\ result = {| status := StatusError; summary := None;
                             error := Some err |}
          | inr runResult =>
              deliverResult (deps params) (deliveryRequested (job params))
                (isBestEffort (job params)) (resolvedDeliveryOf params store)
                (default [] runResult) answered
              = (Returned result, extend answered sends)
          end.
Proof.
  intros Hconfigured.
  destruct (run_steps params now randomUUID store)
    as [(err & Hassert & _) | (replyCfg & Hreply & _ & Hrun)].
  { pose proof (assertCommandReplyConfig_configured (cfg params)
                  (startWorld store)) as Hok.
    rewrite Hconfigured in Hok. destruct Hok as (r & _ & Hok).
    rewrite Hok in Hassert. discriminate. }
  cbv zeta in Hrun. exists replyCfg. cbv zeta.
  destruct (runCommandReply _ _) as [err|runResult].
  - exists [], {| status := StatusError; summary := None;
                  error := Some err |}.
    split; [done|]. by rewrite extend_nil.
  - match type of Hrun with _ = deliverResult ?d ?dl ?be ?r ?ps ?w =>
      destruct (deliverResult_spec d dl be r ps w)
        as (evs & result & Hdeliver & _)
    end.
    exists evs, result. split; [done|].
    by rewrite Hrun, Hdeliver.
Qed.

(** X4. When [assertCommandReplyConfig] rejects the configuration, that is
    when the reply configuration is missing, is not in command mode or has
    no command, the run rejects with that error before it does anything:
    the session store is not written, the agent is not invoked and nothing
    is sent. *)
Theorem configuration_is_checked_before_any_effect (params : RunParams)
    (now : Z) (randomUUID : jsstring) (store : gmap jsstring SessionEntry) :
  (inbound (cfg params) ≫= reply = None
   \/ exists replyCfg,
        inbound (cfg params) ≫= reply = Some replyCfg
        /\ (mode replyCfg <> Js.lit "command"
            \/ command replyCfg = None \/ command replyCfg = Some [])) ->
  runOutcome params now randomUUID store
  = Thrown (Js.lit "Error: Configure inbound.reply.mode=command with reply.command before using cron agent jobs.")
  /\ runLog params now randomUUID store = []
  /\ runDisk params now randomUUID store = store.
Proof.
  intros Hrejected.
  assert (commandReplyConfigured (cfg params) = false) as Hconfigured.
  { unfold commandReplyConfigured.
    destruct Hrejected as [-> | (replyCfg & -> & Hwhy)]; [done|].
    destruct Hwhy as [Hmode | [-> | ->]].
    - apply eqb_neq in Hmode. by rewrite Hmode.
    - apply andb_false_r.
    - apply andb_false_r. }
  unfold runOutcome, runLog, runDisk.
  pose proof (assertCommandReplyConfig_configured (cfg params)
                (startWorld store)) as Hthrow.
  rewrite Hconfigured in Hthrow.
  destruct (run_steps params now randomUUID store)
    as [(err & Hassert & ->) | (replyCfg & _ & Hassert & _)];
    rewrite Hthrow in Hassert; [|discriminate].
  by injection Hassert as <-.
Qed.

(** X5. When the agent command fails, the run resolves with status "error",
    the agent's error and no summary, and sends nothing, even if delivery
    was asked for; the session entry has been saved all the same, stamped
    with the time of the run. *)
Theorem agent_failure_is_reported (params : RunParams) (now : Z)
    (randomUUID : jsstring) (store : gmap jsstring SessionEntry)
    (args : CommandReplyArgs) (err : jsstring) :
  EvAgent args (inl err) ∈ runLog params now randomUUID store ->
  runOutcome params now randomUUID store
  = Returned {| status := StatusError; summary := None; error := Some err |}
  /\ (forall ev, ev ∈ runLog params now randomUUID store -> isSend ev = false)
  /\ exists entry,
       runDisk params now randomUUID store !! sessionKey params = Some entry
       /\ updatedAt entry = now.
Proof.
  unfold runOutcome, runLog, runDisk. intros Hin.
  destruct (commandReplyConfigured (cfg params)) eqn:Hconfigured.
  2:{ pose proof (assertCommandReplyConfig_configured (cfg params)
                    (startWorld store)) as Hthrow.
      rewrite Hconfigured in Hthrow.
      destruct (run_steps params now randomUUID store)
        as [(err' & _ & Hrun) | (replyCfg & _ & Hassert & _)].
      - rewrite Hrun in Hin. by apply elem_of_nil in Hin.
      - rewrite Hthrow in Hassert. discriminate. }
  destruct (run_world params now randomUUID store Hconfigured)
    as (replyCfg & sends & result & _ & Hrun & Hcases).
  cbv zeta in Hrun, Hcases. rewrite Hrun in *. simpl in Hin.
  destruct (runCommandReply _ _) as [err'|runResult] eqn:Hagent.
  - destruct Hcases as [-> ->]. simpl in *.
    rewrite !elem_of_cons, elem_of_nil in Hin.
    destruct Hin as [? | [[= _ ->] | []]]; [discriminate|].
    split; [done|]. split.
    + intros ev Hev. rewrite !elem_of_cons, elem_of_nil in Hev.
      by destruct Hev as [-> | [-> | []]].
    + eexists. split; [apply lookup_insert_eq|].
      unfold entryToPersist. by destruct (_ && _).
  - match type of Hcases with deliverResult ?d ?dl ?be ?r ?ps ?w = _ =>
      destruct (deliverResult_spec d dl be r ps w)
        as (evs & result' & Hdeliver & Hsend & _)
    end.
    rewrite Hdeliver in Hcases. injection Hcases as _ Hevs.
    assert (sends = evs) as ->
      by (symmetry; first [exact Hevs | by apply app_inv_head in Hevs]).
    rewrite !elem_of_cons in Hin.
    destruct Hin as [? | [? | Hin]]; [discriminate | discriminate |].
    rewrite Forall_forall in Hsend. apply Hsend in Hin. discriminate.
Qed.

(** The log of a run: nothing when the configuration is rejected, otherwise
    one save, one agent invocation and then sends only. *)
Lemma runLog_shape (params : RunParams) (now : Z) (randomUUID : jsstring)
    (store : gmap jsstring SessionEntry) :
  if commandReplyConfigured (cfg params) then
    exists replyCfg sends,
      inbound (cfg params) ≫= reply = Some replyCfg
      /\ let cronSession :=
           resolveCronSession (cfg params) store (sessionKey params) now
             randomUUID in
         let saved :=
           <[sessionKey params := entryToPersist replyCfg cronSession]> store in
         let args :=
           commandArgs params replyCfg cronSession
             (resolvedDeliveryOf params store) in
         runLog params now randomUUID store
         = EvSave saved :: EvAgent args (runCommandReply [EvSave saved] args)
           :: sends
         /\ runDisk params now randomUUID store = saved
         /\ Forall (fun ev => isSend ev = true) sends
         /\ (sends = []
             \/ (deliveryRequested (job params) = true
                 /\ hasRecipient (targetTo (resolvedDeliveryOf params store))
                    = true
                 /\ exists s,
                      surfaceChannel s
                      = targetChannel (resolvedDeliveryOf params store)
                      /\ Forall (sentTo s (sendTargetOf
                                             (resolvedDeliveryOf params store)))
                           sends))
  else runLog params now randomUUID store = []
       /\ runDisk params now randomUUID store = store.
Proof.
  unfold runLog, runDisk.
  destruct (commandReplyConfigured (cfg params)) eqn:Hconfigured.
  - destruct (run_world params now randomUUID store Hconfigured)
      as (replyCfg & sends & result & Hreply & Hrun & Hcases).
    exists replyCfg, sends. split; [done|].
    cbv zeta in *. rewrite Hrun. cbn [snd extend log disk app].
    split; [done|]. split; [done|].
    destruct (runCommandReply _ _) as [err|runResult].
    { destruct Hcases as [-> _]. split; [constructor | by left]. }
    match type of Hcases with deliverResult ?d ?dl ?be ?r ?ps ?w = _ =>
      destruct (deliverResult_spec d dl be r ps w)
        as (evs & result' & Hdeliver & Hsend & _);
      destruct (deliverResult_targets d dl be r ps w)
        as (evs' & Htargets & Hwhy)
    end.
    rewrite Hcases in Hdeliver, Htargets.
    injection Hdeliver as _ <-.
    cbn [snd] in Htargets. apply extend_inj in Htargets. subst evs'.
    done.
  - destruct (run_steps params now randomUUID store)
      as [(err & _ & ->) | (replyCfg & _ & Hassert & _)]; [done|].
    pose proof (assertCommandReplyConfig_configured (cfg params)
                  (startWorld store)) as Hthrow.
    rewrite Hconfigured, Hassert in Hthrow. discriminate.
Qed.




Lemma runLog_agent (params : RunParams) (now : Z) (randomUUID : jsstring)
    (store : gmap jsstring SessionEntry) (args : CommandReplyArgs)
    (outcome : jsstring + option (list Payload)) :
  EvAgent args outcome ∈ runLog params now randomUUID store ->
  exists replyCfg,
    inbound (cfg params) ≫= reply = Some replyCfg
    /\ args = commandArgs params replyCfg
                (resolveCronSession (cfg params) store (sessionKey params)
                   now randomUUID)
                (resolvedDeliveryOf params store).
Proof.
  pose proof (runLog_shape params now randomUUID store) as Hshape.
  destruct (commandReplyConfigured (cfg params)).
  - destruct Hshape as (replyCfg & sends & Hreply & -> & _ & Hsend & _).
    intros Hin. exists replyCfg. split; [done|].
    rewrite !elem_of_cons in Hin.
    destruct Hin as [? | [[= -> _] | Hin]]; [discriminate | done |].
    rewrite Forall_forall in Hsend. apply Hsend in Hin. discriminate.
  - destruct Hshape as [-> _]. intros Hin. by apply elem_of_nil in Hin.
Qed.

(** X8. The agent is always invoked with a timeout of at least one second,
    a whole number, given in milliseconds as one thousand times the
    seconds. A job timeout of at least one second is rounded down to whole
    seconds, so a whole number is used as it is; any other non-zero job
    timeout, a fraction of a second or a negative number, gives one second.
    Without a job timeout, or with a job timeout of zero, the configured
    reply timeout is used in the same way, or 600 seconds when there is
    none. *)
Theorem agent_timeout_bounds (params : RunParams) (now : Z)
    (randomUUID : jsstring) (store : gmap jsstring SessionEntry)
    (args : CommandReplyArgs) (outcome : jsstring + option (list Payload)) :
  EvAgent args outcome ∈ runLog params now randomUUID store ->
  let jobTimeout := turnOf (job params) ≫= timeoutSeconds in
  let seconds := argTimeoutSeconds args in
  1 <= seconds
  /\ timeoutMs args = seconds * 1000
  /\ (forall q, jobTimeout = Some q ->
                QArith_base.Qle (QArith_base.inject_Z 1) q ->
                QArith_base.Qle (QArith_base.inject_Z seconds) q
                /\ QArith_base.Qlt q (QArith_base.inject_Z (seconds + 1)))
  /\ (forall n, jobTimeout = Some (QArith_base.inject_Z n) -> 1 <= n ->
                seconds = n)
  /\ (forall q, jobTimeout = Some q ->
                ~ QArith_base.Qeq q (QArith_base.inject_Z 0) ->
                QArith_base.Qlt q (QArith_base.inject_Z 1) ->
                seconds = 1)
  /\ (jobTimeout = None
      \/ (exists q, jobTimeout = Some q
                    /\ QArith_base.Qeq q (QArith_base.inject_Z 0)) ->
      exists replyCfg,
        inbound (cfg params) ≫= reply = Some replyCfg
        /\ seconds
           = Z.max (Js.floor (default (QArith_base.inject_Z 600)
                                (replyTimeoutSeconds replyCfg))) 1).
Proof.
  intros Hin jobTimeout seconds. subst seconds.
  destruct (runLog_agent _ _ _ _ _ _ Hin) as (replyCfg & Hreply & ->).
  unfold commandArgs. cbn [argTimeoutSeconds timeoutMs]. fold jobTimeout.
  assert (forall q, QArith_base.Qle (QArith_base.inject_Z 1) q ->
                    Js.truthyNumber q = true /\ 1 <= Js.floor q) as Hlarge.
  { intros q Hq. split.
    - unfold Js.truthyNumber. apply negb_true_iff.
      destruct (QArith_base.Qeq_bool q (QArith_base.inject_Z 0)) eqn:Hzero;
        [|done].
      apply QArith_base.Qeq_bool_eq in Hzero. exfalso.
      apply (QArith_base.Qle_not_lt _ _ Hq).
      apply (QArith_base.Qeq_sym) in Hzero.
      eapply QArith_base.Qle_lt_trans;
        [apply QArith_base.Qle_lteq; right; apply QArith_base.Qeq_sym, Hzero|].
      done.
    - unfold Js.floor. rewrite <- (Qround.Qfloor_Z 1).
      by apply Qround.Qfloor_resp_le. }
  split; [lia|]. split; [done|]. split; [|split; [|split]].
  - intros q -> Hq. destruct (Hlarge q Hq) as [-> Hfloor].
    rewrite Z.max_l by done. unfold Js.floor.
    split; [apply Qround.Qfloor_le | apply Qround.Qlt_floor].
  - intros n -> Hn.
    destruct (Hlarge (QArith_base.inject_Z n)) as [-> Hfloor].
    { rewrite <- QArith_base.Zle_Qle. done. }
    unfold Js.floor in *. rewrite Qround.Qfloor_Z in *. lia.
  - intros q -> Hnonzero Hsmall.
    assert (Js.truthyNumber q = true) as ->.
    { unfold Js.truthyNumber. apply negb_true_iff.
      destruct (QArith_base.Qeq_bool q (QArith_base.inject_Z 0)) eqn:Hzero;
        [|done].
      by apply QArith_base.Qeq_bool_eq in Hzero. }
    assert (Js.floor q < 1); [|lia].
    unfold Js.floor. rewrite QArith_base.Zlt_Qlt.
    eapply QArith_base.Qle_lt_trans; [apply Qround.Qfloor_le | exact Hsmall].
  - intros Hnone. exists replyCfg. split; [done|].
    destruct Hnone as [-> | (q & -> & Hzero)]; [done|].
    unfold Js.truthyNumber.
    by rewrite (QArith_base.Qeq_eq_bool _ _ Hzero).
Qed.

Lemma runLog_send (params : RunParams) (now : Z) (randomUUID : jsstring)
    (store : gmap jsstring SessionEntry) (ev : Event) :
  ev ∈ runLog params now randomUUID store -> isSend ev = true ->
  deliveryRequested (job params) = true
  /\ hasRecipient (targetTo (resolvedDeliveryOf params store)) = true
  /\ exists s,
       surfaceChannel s = targetChannel (resolvedDeliveryOf params store)
       /\ sentTo s (sendTargetOf (resolvedDeliveryOf params store)) ev.
Proof.
  pose proof (runLog_shape params now randomUUID store) as Hshape.
  destruct (commandReplyConfigured (cfg params)).
  - destruct Hshape as (replyCfg & sends & _ & -> & _ & _ & Hwhy).
    intros Hin Hsend. rewrite !elem_of_cons in Hin.
    destruct Hin as [-> | [-> | Hin]]; [discriminate | discriminate |].
    destruct Hwhy as [-> | (Hdelivery & Hto & s & Hsurface & Hall)].
    { by apply elem_of_nil in Hin. }
    split; [done|]. split; [done|]. exists s. split; [done|].
    rewrite Forall_forall in Hall. by apply Hall.
  - destruct Hshape as [-> _]. intros Hin. by apply elem_of_nil in Hin.
Qed.

(** X9. A run whose job does not ask for delivery, because [deliver] is
    not [true] or because the payload is not an agent turn, never calls a
    send function; when its agent returns, its status is "ok" and its
    summary is the one extracted from the agent's payloads. *)
Theorem no_delivery_no_send (params : RunParams) (now : Z)
    (randomUUID : jsstring) (store : gmap jsstring SessionEntry) :
  deliveryRequested (job params) = false ->
  (forall ev, ev ∈ runLog params now randomUUID store -> isSend ev = false)
  /\ (forall args runResult,
        EvAgent args (inr runResult) ∈ runLog params now randomUUID store ->
        runOutcome params now randomUUID store
        = Returned {| status := StatusOk;
                      summary := summaryOf (default [] runResult);
                      error := None |}).
Proof.
  intros Hdelivery. split.
  - intros ev Hin. destruct (isSend ev) eqn:Hsend; [|done].
    destruct (runLog_send _ _ _ _ _ Hin Hsend) as (Hyes & _). congruence.
  - intros args runResult Hagent.
    destruct (run_agent_returned _ _ _ _ _ _ Hagent) as (saved & Hrun).
    unfold runOutcome. rewrite Hrun, Hdelivery. done.
Qed.

Lemma sendTargetOf_surface (resolved : DeliveryTarget) (s : SendSurface) :
  surfaceChannel s = targetChannel resolved ->
  sendTargetOf resolved
  = match s with
    | WhatsApp => normalizeE164 (default [] (targetTo resolved))
    | _ => default [] (targetTo resolved)
    end.
Proof.
  intros Hsurface. unfold sendTargetOf. rewrite <- Hsurface.
  by destruct s.
Qed.

(** X10. Every send call of a run goes out on the surface of the resolved
    channel, for a job that asked for delivery, and is addressed to the
    resolved recipient: in E.164 normal form on WhatsApp, as it is on
    Telegram and Discord. *)
Theorem sends_go_to_the_resolved_recipient (params : RunParams) (now : Z)
    (randomUUID : jsstring) (store : gmap jsstring SessionEntry)
    (s : SendSurface) (target body : jsstring) (opts : SendOpts)
    (failure : option jsstring) :
  EvSend s target body opts failure ∈ runLog params now randomUUID store ->
  deliveryRequested (job params) = true
  /\ surfaceChannel s = targetChannel (resolvedDeliveryOf params store)
  /\ exists t,
       targetTo (resolvedDeliveryOf params store) = Some t
       /\ t <> []
       /\ target = match s with
                   | WhatsApp => normalizeE164 t
                   | _ => t
                   end.
Proof.
  intros Hin.
  destruct (runLog_send _ _ _ _ _ Hin eq_refl)
    as (Hdelivery & Hto & s' & Hsurface & [-> ->]).
  split; [done|]. split; [done|].
  rewrite (sendTargetOf_surface _ _ Hsurface).
  destruct (targetTo (resolvedDeliveryOf params store)) as [t|] eqn:Et;
    [|done].
  exists t. split; [done|]. split; [by apply truthy_true|]. by destruct s'.
Qed.

Lemma targetTo_whatsapp (cfg : ClawdisConfig)
    (store : gmap jsstring SessionEntry) (channel to : option jsstring) :
  targetChannel (resolveDeliveryTarget cfg store channel to)
  = Js.lit "whatsapp" ->
  targetTo (resolveDeliveryTarget cfg store channel to)
  = sanitizedWhatsappTo cfg (Js.lit "whatsapp") (resolveTo cfg store to).
Proof.
  unfold resolveDeliveryTarget. cbn [targetChannel targetTo].
  intros ->. by rewrite eqb_refl.
Qed.

(** X11. With an allowlist that has no wildcard and at least one valid
    entry, every WhatsApp send call of a run is addressed to the normal
    form of an allowlisted number, whatever recipient the job or the last
    route names. *)
Theorem whatsapp_sends_stay_on_the_allowlist (params : RunParams) (now : Z)
    (randomUUID : jsstring) (store : gmap jsstring SessionEntry)
    (target body : jsstring) (opts : SendOpts) (failure : option jsstring) :
  Js.lit "*" ∉ rawAllowOf (cfg params) ->
  normalizedAllow (rawAllowOf (cfg params)) <> [] ->
  EvSend WhatsApp target body opts failure
    ∈ runLog params now randomUUID store ->
  exists t, t ∈ normalizedAllow (rawAllowOf (cfg params))
            /\ target = normalizeE164 t.
Proof.
  intros Hstar Hvalid Hin.
  destruct (runLog_send _ _ _ _ _ Hin eq_refl)
    as (_ & Hto & s & Hsurface & [<- ->]).
  rewrite (sendTargetOf_surface _ _ Hsurface).
  destruct (targetTo (resolvedDeliveryOf params store)) as [t|] eqn:Et;
    [|done].
  exists t. split; [|done].
  unfold resolvedDeliveryOf in *. symmetry in Hsurface.
  rewrite (targetTo_whatsapp _ _ _ _ Hsurface) in Et.
  by eapply sanitized_listed.
Qed.

Lemma existsb_sendRejected (evs : list Event) :
  existsb sendRejected evs = true
  <-> exists s target body opts err,
        EvSend s target body opts (Some err) ∈ evs.
Proof.
  rewrite existsb_exists. split.
  - intros (ev & Hin & Hrejected). apply list_elem_of_In in Hin.
    destruct ev as [| |s target body opts [err|]]; try discriminate.
    by exists s, target, body, opts, err.
  - intros (s & target & body & opts & err & Hin).
    eexists. split; [by apply list_elem_of_In|]. done.
Qed.

(** The result of the delivery step, case by case. *)
Lemma deliverResult_status (deps : CliDeps)
    (delivery bestEffortDeliver : bool) (resolved : DeliveryTarget)
    (payloads : list Payload) (w : World) (result : RunCronAgentTurnResult)
    (sends : list Event) :
  deliverResult deps delivery bestEffortDeliver resolved payloads w
  = (Returned result, extend w sends) ->
  let missing :=
    delivery && knownChannel resolved
    && negb (hasRecipient (targetTo resolved)) in
  let failed := existsb sendRejected sends in
  status result
  = (if missing
     then (if bestEffortDeliver then StatusSkipped else StatusError)
     else if failed && negb bestEffortDeliver then StatusError
          else StatusOk)
  /\ (error result = None <-> status result <> StatusError)
  /\ (status result <> StatusSkipped -> summary result = summaryOf payloads)
  /\ (missing = true -> sends = []).
Proof.
  intros Hrun missing failed.
  destruct (deliverResult_spec deps delivery bestEffortDeliver resolved
              payloads w) as (evs & result' & Hspec & _ & Hfail & Hok).
  rewrite Hrun in Hspec. injection Hspec as Hresult Hevs.
  apply app_inv_head in Hevs. subst result' evs.
  destruct (deliverResult_targets deps delivery bestEffortDeliver resolved
              payloads w) as (evs' & Htargets & Hwhy).
  rewrite Hrun in Htargets. cbn [snd] in Htargets.
  apply extend_inj in Htargets. subst evs'.
  destruct missing eqn:Hmissing; subst missing.
  - apply andb_true_iff in Hmissing as [Hmissing Hto].
    apply andb_true_iff in Hmissing as [-> Hknown].
    apply negb_true_iff in Hto.
    destruct (deliverResult_missing deps bestEffortDeliver resolved payloads
                w Hto) as (Hwa & Htg & Hdc).
    assert (exists missing skipNotice,
              (Returned result, extend w sends)
              = (Returned (missingRecipientResult bestEffortDeliver
                             (summaryOf payloads) missing skipNotice), w))
      as (missing & skipNotice & Heq).
    { rewrite <- Hrun. unfold knownChannel in Hknown.
      apply orb_true_iff in Hknown as [Hknown | Hknown];
        [apply orb_true_iff in Hknown as [Hknown | Hknown]|];
        apply eqb_eq in Hknown; eexists _, _; eauto. }
    injection Heq as -> Hsends.
    assert (sends = []) as ->.
    { apply (extend_inj w). by rewrite extend_nil. }
    by destruct bestEffortDeliver.
  - destruct failed eqn:Hfailed; subst failed.
    + apply existsb_sendRejected in Hfailed
        as (s & target & body & opts & err & Hin).
      destruct (Hfail _ _ _ _ _ Hin) as (-> & _ & _).
      by destruct bestEffortDeliver.
    + rewrite Hok.
      * done.
      * intros ev Hin. destruct ev as [| |s target body opts [err|]]; try done.
        apply not_true_iff_false in Hfailed. apply Hfailed.
        apply existsb_sendRejected. by eauto 6.
      * destruct delivery; [|by left]. right.
        destruct (hasRecipient (targetTo resolved)); [by left|]. right.
        simpl in Hmissing. by rewrite andb_true_r in Hmissing.
Qed.

(** X12. The status of a run whose agent returned. It is "skipped" or
    "error", by the best-effort flag, when delivery was asked for on
    whatsapp, telegram or discord and no recipient was resolved, and then
    nothing was sent. Otherwise it is "error" when a send rejected and the
    job is not best-effort, and "ok" in every other case. The result
    carries an error message exactly when the status is "error", and the
    summary of the agent's payloads whenever the status is not "skipped". *)
Theorem run_status_classification (params : RunParams) (now : Z)
    (randomUUID : jsstring) (store : gmap jsstring SessionEntry)
    (args : CommandReplyArgs) (runResult : option (list Payload)) :
  EvAgent args (inr runResult) ∈ runLog params now randomUUID store ->
  let resolved := resolvedDeliveryOf params store in
  let missing :=
    deliveryRequested (job params) && knownChannel resolved
    && negb (hasRecipient (targetTo resolved)) in
  let failed := existsb sendRejected (runLog params now randomUUID store) in
  let bestEffort := isBestEffort (job params) in
  exists result,
    runOutcome params now randomUUID store = Returned result
    /\ status result
       = (if missing
          then (if bestEffort then StatusSkipped else StatusError)
          else if failed && negb bestEffort then StatusError else StatusOk)
    /\ (error result = None <-> status result <> StatusError)
    /\ (status result <> StatusSkipped ->
        summary result = summaryOf (default [] runResult))
    /\ (missing = true ->
        forall ev, ev ∈ runLog params now randomUUID store -> isSend ev = false).
Proof.
  intros Hagent resolved missing failed bestEffort.
  destruct (run_agent_returned _ _ _ _ _ _ Hagent) as (saved & Hrun).
  match type of Hrun with _ = deliverResult ?d ?dl ?be ?r ?ps ?w =>
    destruct (deliverResult_spec d dl be r ps w)
      as (sends & result & Hdeliver & _)
  end.
  destruct (deliverResult_status _ _ _ _ _ _ _ _ Hdeliver)
    as (Hstatus & Herror & Hsummary & Hnone).
  subst failed. unfold runOutcome, runLog. rewrite Hrun, Hdeliver.
  exists result. cbn [fst snd extend log app existsb sendRejected orb].
  split; [done|]. split; [exact Hstatus|]. split; [done|]. split; [done|].
  intros Hmissing ev Hev. rewrite (Hnone Hmissing) in Hev.
  rewrite !elem_of_cons, elem_of_nil in Hev.
  by destruct Hev as [-> | [-> | []]].
Qed.

(** X13. When the resolved channel is none of whatsapp, telegram and
    discord, which happens when the main session's last route names some
    other channel, a run that asks for delivery sends nothing and still
    reports "ok" once its agent returned: the result is silently not
    delivered. *)
Theorem unknown_channel_is_silently_dropped (params : RunParams) (now : Z)
    (randomUUID : jsstring) (store : gmap jsstring SessionEntry) :
  knownChannel (resolvedDeliveryOf params store) = false ->
  (forall ev, ev ∈ runLog params now randomUUID store -> isSend ev = false)
  /\ (forall args runResult,
        EvAgent args (inr runResult) ∈ runLog params now randomUUID store ->
        runOutcome params now randomUUID store
        = Returned {| status := StatusOk;
                      summary := summaryOf (default [] runResult);
                      error := None |}).
Proof.
  intros Hunknown. split.
  - intros ev Hin. destruct (isSend ev) eqn:Hsend; [|done].
    destruct (runLog_send _ _ _ _ _ Hin Hsend) as (_ & _ & s & Hsurface & _).
    unfold knownChannel in Hunknown. rewrite <- Hsurface in Hunknown.
    by destruct s.
  - intros args runResult Hagent.
    destruct (run_agent_returned _ _ _ _ _ _ Hagent) as (saved & Hrun).
    unfold runOutcome. rewrite Hrun. unfold knownChannel in Hunknown.
    apply orb_false_iff in Hunknown as [Hunknown Hdc].
    apply orb_false_iff in Hunknown as [Hwa Htg].
    unfold deliverResult. rewrite Hwa, Htg, Hdc.
    by destruct (deliveryRequested (job params)).
Qed.

End IsolatedAgent.

(** ** The cron job editor *)

Module CronJobEditorFacts.
Import CronJobEditor.

Section Pairing.

Variable parseDurationMs : swstring -> option Z.

Lemma buildPayloadDict_kind (s : EditorState) :
  kind (buildPayloadDict s)
  = match sessionTarget s with
    | isolated => agentTurnKind
    | main => payloadKind s
    end.
Proof.
  unfold buildPayloadDict.
  destruct (sessionTarget s); simpl; [|done]. by destruct (payloadKind s).
Qed.

Lemma pairingError_cases (target : CronSessionTarget) (payload : PayloadDict) :
  pairingError target payload
  = match target, kind payload with
    | main, agentTurnKind =>
        Some "Main session jobs require systemEvent payloads (switch Session target to isolated)."%string
    | isolated, systemEventKind =>
        Some "Isolated jobs require agentTurn payloads."%string
    | _, _ => None
    end.
Proof.
  unfold pairingError, isKind. by destruct target, (kind payload).
Qed.

Lemma buildPayload_inr (s : EditorState) (j : JobDict) :
  buildPayload parseDurationMs s = inr j ->
  rSessionTarget j = sessionTarget s
  /\ rPayload j = buildPayloadDict s
  /\ pairingError (sessionTarget s) (buildPayloadDict s) = None.
Proof.
  unfold buildPayload. destruct (buildSchedule parseDurationMs s); [done|].
  destruct (pairingError _ _); [done|].
  destruct (buildPayloadDict s) as [eventText|turn];
    match goal with |- context [if ?b then _ else _] => destruct b end;
    try done; by intros [= <-].
Qed.

(** C9. The pairing is validated when the draft is saved, on the payload
    that [buildPayload] has just built. The guards reject both mismatched
    combinations, main with an agent turn payload and isolated with a
    system event payload, each with its own validation error, and accept
    the two matching ones. Whenever the guards reject the payload built
    from a draft, [save] shows a validation error and hands nothing on to
    be persisted; with a valid schedule the error shown is the guards'
    own. With the isolated target the payload is always built as an agent
    turn, so on a draft only the first guard can fire. Every record that
    [buildPayload] returns, and so every record that [save] hands on, pairs
    main with a system event and isolated with an agent turn. *)
Theorem buildPayload_pairing (s : EditorState) :
  (forall target payload,
     pairingError target payload
     = match target, kind payload with
       | main, agentTurnKind =>
           Some "Main session jobs require systemEvent payloads (switch Session target to isolated)."%string
       | isolated, systemEventKind =>
           Some "Isolated jobs require agentTurn payloads."%string
       | _, _ => None
       end)
  /\ (forall err,
        pairingError (sessionTarget s) (buildPayloadDict s) = Some err ->
        (exists shown,
           buildPayload parseDurationMs s = inl shown
           /\ save parseDurationMs s
              = {| shownError := Some shown; submitted := None |})
        /\ (forall schedule,
              buildSchedule parseDurationMs s = inr schedule ->
              buildPayload parseDurationMs s = inl err))
  /\ (sessionTarget s = isolated ->
      kind (buildPayloadDict s) = agentTurnKind)
  /\ (forall j, buildPayload parseDurationMs s = inr j -> pairingOk j = true)
  /\ (forall j, submitted (save parseDurationMs s) = Some j ->
                pairingOk j = true).
Proof.
  assert (forall j, buildPayload parseDurationMs s = inr j ->
                    pairingOk j = true) as Hpairing.
  { intros j Hj.
    destruct (buildPayload_inr s j Hj) as (Htarget & Hpayload & Hguard).
    unfold pairingOk. rewrite Htarget, Hpayload.
    rewrite pairingError_cases in Hguard.
    by destruct (sessionTarget s), (kind (buildPayloadDict s)). }
  split; [exact pairingError_cases|].
  split; [|split; [|split; [exact Hpairing|]]].
  - intros err Hguard.
    assert (forall schedule, buildSchedule parseDurationMs s = inr schedule ->
              buildPayload parseDurationMs s = inl err) as Hmessage.
    { intros schedule Hschedule. unfold buildPayload.
      by rewrite Hschedule, Hguard. }
    split; [|exact Hmessage].
    destruct (buildSchedule parseDurationMs s) as [early|schedule] eqn:E.
    + exists early. unfold save, buildPayload. by rewrite E.
    + exists err. unfold save. by rewrite (Hmessage schedule).
  - intros Hisolated. by rewrite buildPayloadDict_kind, Hisolated.
  - intros j. unfold save.
    destruct (buildPayload parseDurationMs s) as [err|j'] eqn:E; [done|].
    intros [= <-]. by apply Hpairing.
Qed.

End Pairing.

End CronJobEditorFacts.

(** ** The theorems on the sample data *)

(** The run of the test suite: no allowlist, a main session last seen on
    the web chat, a fresh job session. *)
Abbreviation sampleOutcome agent deps turn :=
  (runOutcome Sample.normalizeE164 10080 Sample.applyTemplate
     Sample.normalizeThinkLevel Sample.chunkText agent None
     (Sample.mkParams Sample.cfgPlain deps turn) 5000 (Js.lit "uuid-1")
     Sample.webchatStore).

Abbreviation sampleLog agent deps turn :=
  (runLog Sample.normalizeE164 10080 Sample.applyTemplate
     Sample.normalizeThinkLevel Sample.chunkText agent None
     (Sample.mkParams Sample.cfgPlain deps turn) 5000 (Js.lit "uuid-1")
     Sample.webchatStore).

Abbreviation sampleArgs deps turn :=
  (commandArgs Sample.applyTemplate Sample.normalizeThinkLevel
     (Sample.mkParams Sample.cfgPlain deps turn) Sample.reply1
     (resolveCronSession 10080 Sample.cfgPlain Sample.webchatStore
        (Js.lit "cron:job-1") 5000 (Js.lit "uuid-1"))
     (resolvedDeliveryOf Sample.normalizeE164
        (Sample.mkParams Sample.cfgPlain deps turn) Sample.webchatStore)).

Abbreviation helloAnswer := (Some [textPayload (Js.lit "hello")]).

Lemma whatsapp_recipient_allowlisted_witness :
  exists t,
    targetTo (resolveDeliveryTarget Sample.normalizeE164 Sample.cfgAllow
                Sample.webchatStore (Some (Js.lit "whatsapp"))
                (Some (Js.lit "+1999"))) = Some t
    /\ t ∈ normalizedAllow Sample.normalizeE164 (rawAllowOf Sample.cfgAllow).
Proof.
  destruct (whatsapp_recipient_allowlisted Sample.normalizeE164
              Sample.cfgAllow Sample.webchatStore (Some (Js.lit "whatsapp"))
              (Some (Js.lit "+1999"))) as [Hlisted _].
  - reflexivity.
  - apply Hlisted.
    + intros Hstar. apply list_elem_of_In in Hstar. vm_compute in Hstar.
      destruct Hstar as [Hstar | []]. discriminate.
    + exists (Js.lit "+1 (555) 555-0123").
      split; [apply list_elem_of_here | vm_compute; lia].
Defined.

Lemma whatsapp_without_recipient_witness :
  exists result,
    sampleOutcome Sample.agentHello Sample.depsOk
      (Sample.mkTurn true (Some (Js.lit "whatsapp")) None false)
    = Returned result
    /\ status result = StatusError.
Proof.
  destruct (whatsapp_without_recipient Sample.normalizeE164 10080
              Sample.applyTemplate Sample.normalizeThinkLevel Sample.chunkText
              Sample.agentHello None
              (Sample.mkParams Sample.cfgPlain Sample.depsOk
                 (Sample.mkTurn true (Some (Js.lit "whatsapp")) None false))
              5000 (Js.lit "uuid-1") Sample.webchatStore
              (sampleArgs Sample.depsOk
                 (Sample.mkTurn true (Some (Js.lit "whatsapp")) None false))
              helloAnswer) as (Herror & _ & _).
  - apply list_elem_of_In. vm_compute. right. left. reflexivity.
  - vm_compute. reflexivity.
  - vm_compute. reflexivity.
  - vm_compute. reflexivity.
  - destruct (Herror eq_refl) as (result & message & Hrun & Hstatus & _).
    exists result. split; [exact Hrun | exact Hstatus].
Defined.

Lemma send_failure_policy_witness :
  sampleOutcome Sample.agentHello Sample.depsDown
    (Sample.mkTurn true (Some (Js.lit "telegram")) (Some (Js.lit "42")) false)
  = Returned {| status := StatusError; summary := Some (Js.lit "hello");
                error := Some (Js.lit "Error: offline") |}.
Proof.
  apply (send_failure_policy Sample.normalizeE164 10080
           Sample.applyTemplate Sample.normalizeThinkLevel Sample.chunkText
           Sample.agentHello None
           (Sample.mkParams Sample.cfgPlain Sample.depsDown
              (Sample.mkTurn true (Some (Js.lit "telegram"))
                 (Some (Js.lit "42")) false))
           5000 (Js.lit "uuid-1") Sample.webchatStore
           (sampleArgs Sample.depsDown
              (Sample.mkTurn true (Some (Js.lit "telegram"))
                 (Some (Js.lit "42")) false))
           helloAnswer Telegram (Js.lit "42") (Js.lit "hello")
           {| verbose := Some false; optMediaUrl := None; token := None |}
           (Js.lit "Error: offline")).
  - apply list_elem_of_In. vm_compute. right. left. reflexivity.
  - apply list_elem_of_In. vm_compute. right. right. left. reflexivity.
Defined.

Lemma system_sent_persisted_before_agent_witness :
  exists saved entry,
    runDisk Sample.normalizeE164 10080 Sample.applyTemplate
      Sample.normalizeThinkLevel Sample.chunkText Sample.agentCrashes None
      (Sample.mkParams Sample.cfgPlain Sample.depsOk
         (Sample.mkTurn false None None false))
      5000 (Js.lit "uuid-1") Sample.webchatStore = saved
    /\ saved !! Js.lit "cron:job-1" = Some entry
    /\ systemSent entry = Some true.
Proof.
  destruct (system_sent_persisted_before_agent Sample.normalizeE164 10080
              Sample.applyTemplate Sample.normalizeThinkLevel Sample.chunkText
              Sample.agentCrashes None
              (Sample.mkParams Sample.cfgPlain Sample.depsOk
                 (Sample.mkTurn false None None false))
              5000 (Js.lit "uuid-1") Sample.webchatStore Sample.reply1)
    as [Hbefore Hcalled].
  - reflexivity.
  - vm_compute. reflexivity.
  - vm_compute. reflexivity.
  - destruct (Hcalled eq_refl) as (saved & args & outcome & after & Hlog).
    destruct (Hbefore [EvSave saved] args outcome after Hlog)
      as (saved' & entry & _ & Hlookup & Hsent & _ & Hdisk).
    exists saved', entry. split; [exact Hdisk|]. split; [exact Hlookup|].
    exact Hsent.
Defined.

Lemma missing_recipient_summary_witness :
  sampleOutcome Sample.agentHello Sample.depsOk
    (Sample.mkTurn true (Some (Js.lit "whatsapp")) None true)
  = Returned
      {| status := StatusSkipped;
         summary := Some (Js.lit "Delivery skipped (no WhatsApp recipient).");
         error := None |}.
Proof.
  destruct (missing_recipient_summary Sample.normalizeE164 10080
              Sample.applyTemplate Sample.normalizeThinkLevel Sample.chunkText
              Sample.agentHello None
              (Sample.mkParams Sample.cfgPlain Sample.depsOk
                 (Sample.mkTurn true (Some (Js.lit "whatsapp")) None true))
              5000 (Js.lit "uuid-1") Sample.webchatStore
              (sampleArgs Sample.depsOk
                 (Sample.mkTurn true (Some (Js.lit "whatsapp")) None true))
              helloAnswer) as (Hskipped & _).
  - apply list_elem_of_In. vm_compute. right. left. reflexivity.
  - vm_compute. reflexivity.
  - vm_compute. reflexivity.
  - destruct (Hskipped eq_refl) as (Hwhatsapp & _). apply Hwhatsapp.
    vm_compute. reflexivity.
Defined.

Lemma cron_session_freshness_witness :
  sessionId
    (sessionEntry
       (resolveCronSession 10080 Sample.cfgPlain
          {[ Js.lit "cron:job-1" := Sample.mkEntry (Js.lit "kept") 1000 None None ]}
          (Js.lit "cron:job-1") (1000 + 60 * 60000 - 1) (Js.lit "uuid-1")))
  = Js.lit "kept"
  /\ sessionId
       (sessionEntry
          (resolveCronSession 10080 Sample.cfgPlain
             {[ Js.lit "cron:job-1" := Sample.mkEntry (Js.lit "kept") 1000 None None ]}
             (Js.lit "cron:job-1") (1000 + 60 * 60000 + 1) (Js.lit "uuid-1")))
     = Js.lit "uuid-1".
Proof.
  split.
  - destruct (cron_session_freshness 10080 Sample.cfgPlain
                {[ Js.lit "cron:job-1" :=
                     Sample.mkEntry (Js.lit "kept") 1000 None None ]}
                (Js.lit "cron:job-1") (1000 + 60 * 60000 - 1) (Js.lit "uuid-1"))
      as (_ & _ & _ & Hedge).
    destruct (Hedge (Sample.mkEntry (Js.lit "kept") 1000 None None))
      as [Hreuse _]; [vm_compute; reflexivity|].
    apply Hreuse. vm_compute. reflexivity.
  - destruct (cron_session_freshness 10080 Sample.cfgPlain
                {[ Js.lit "cron:job-1" :=
                     Sample.mkEntry (Js.lit "kept") 1000 None None ]}
                (Js.lit "cron:job-1") (1000 + 60 * 60000 + 1) (Js.lit "uuid-1"))
      as (_ & _ & _ & Hedge).
    destruct (Hedge (Sample.mkEntry (Js.lit "kept") 1000 None None))
      as [_ Hmint]; [vm_compute; reflexivity|].
    apply Hmint. vm_compute. reflexivity.
Defined.

Lemma buildPayload_pairing_witness :
  exists shown,
    CronJobEditor.buildPayload CronJobEditor.wholeHours
      CronJobEditor.mainAgentDraft = inl shown
    /\ CronJobEditor.save CronJobEditor.wholeHours CronJobEditor.mainAgentDraft
       = {| CronJobEditor.shownError := Some shown;
            CronJobEditor.submitted := None |}.
Proof.
  destruct (CronJobEditorFacts.buildPayload_pairing CronJobEditor.wholeHours
              CronJobEditor.mainAgentDraft) as (_ & Hrejected & _).
  apply (Hrejected "Main session jobs require systemEvent payloads (switch Session target to isolated)."%string).
  vm_compute. reflexivity.
Defined.

(** ** Where the specification's wording and the code part *)

(** C3 as stated fails when the agent command itself fails: the run asks
    for best-effort delivery on whatsapp and resolves no recipient, yet its
    status is "error", not "skipped". *)
Lemma failed_agent_is_not_skipped :
  deliveryRequested
    (Sample.makeJob (Sample.mkTurn true (Some (Js.lit "whatsapp")) None true))
  = true
  /\ isBestEffort
       (Sample.makeJob (Sample.mkTurn true (Some (Js.lit "whatsapp")) None true))
     = true
  /\ resolvedDeliveryOf Sample.normalizeE164
       (Sample.mkParams Sample.cfgPlain Sample.depsOk
          (Sample.mkTurn true (Some (Js.lit "whatsapp")) None true))
       Sample.webchatStore
     = {| targetChannel := Js.lit "whatsapp"; targetTo := None |}
  /\ sampleOutcome Sample.agentCrashes Sample.depsOk
       (Sample.mkTurn true (Some (Js.lit "whatsapp")) None true)
     = Returned {| status := StatusError; summary := None;
                   error := Some (Js.lit "Error: command failed") |}.
Proof. repeat split; vm_compute; reflexivity. Qed.

(** C5 as stated fails on a last-route recipient stored with blanks around
    it: the run resolves the trimmed chat id, not the stored string. *)
Lemma last_route_recipient_is_trimmed :
  (Sample.telegramStore !! Js.lit "main") ≫= lastTo = Some (Js.lit " 123456 ")
  /\ resolveDeliveryTarget Sample.normalizeE164 Sample.cfgPlain
       Sample.telegramStore None None
     = {| targetChannel := Js.lit "telegram";
          targetTo := Some (Js.lit "123456") |}
  /\ targetTo (resolveDeliveryTarget Sample.normalizeE164 Sample.cfgPlain
                 Sample.telegramStore None None)
     <> recipientByPrecedence None
          ((Sample.telegramStore !! Js.lit "main") ≫= lastTo).
Proof.
  split; [vm_compute; reflexivity|]. split; [vm_compute; reflexivity|].
  vm_compute. discriminate.
Qed.

(** C6 as stated fails on a text of 2001 letters: the summary is not the
    trimmed text of the payload the scan stops at. *)
Lemma long_text_summary_is_not_trimmed_text :
  pickSummaryFromPayloads Sample.longPayloads
  <> lastNonEmptyTrimmedText Sample.longPayloads.
Proof.
  intros H. apply (f_equal (fun o => length <$> o)) in H.
  vm_compute in H. discriminate.
Qed.

(** ** Sending to Discord *)

Module DiscordSendFacts.
Import DiscordSend.

Lemma trimStart_snoc (a : jsstring) (c : N) :
  Js.isWhiteSpace c = false -> Js.trimStart (a ++ [c]) = Js.trimStart a ++ [c].
Proof.
  intros Hc. induction a as [|x a IH]; simpl; [by rewrite Hc|].
  by destruct (Js.isWhiteSpace x).
Qed.

Lemma trimEnd_cons (c : N) (s : jsstring) :
  Js.isWhiteSpace c = false -> Js.trimEnd (c :: s) = c :: Js.trimEnd s.
Proof.
  intros Hc. unfold Js.trimEnd. simpl rev.
  by rewrite trimStart_snoc, rev_app_distr.
Qed.

(** Trimming leaves a prefix without white space alone. *)
Lemma trim_prefixed (prefix rest : jsstring) :
  forallb (fun c => negb (Js.isWhiteSpace c)) prefix = true ->
  prefix <> [] ->
  Js.trim (prefix ++ rest) = prefix ++ Js.trimEnd rest.
Proof.
  intros Hall Hne. unfold Js.trim.
  assert (Js.trimStart (prefix ++ rest) = prefix ++ rest) as ->.
  { destruct prefix as [|c prefix]; [done|]. simpl in *.
    apply andb_true_iff in Hall as [Hc _]. apply negb_true_iff in Hc.
    by rewrite Hc. }
  clear Hne. induction prefix as [|c prefix IH]; [done|]. simpl in *.
  apply andb_true_iff in Hall as [Hc Hall]. apply negb_true_iff in Hc.
  rewrite trimEnd_cons by done. by rewrite IH.
Qed.

Lemma startsWith_app (prefix rest : jsstring) :
  startsWith prefix (prefix ++ rest) = true.
Proof.
  induction prefix as [|c prefix IH]; [done|]. simpl.
  by rewrite N.eqb_refl.
Qed.

Lemma startsWith_split (prefix s : jsstring) :
  startsWith prefix s = true -> s = prefix ++ drop (length prefix) s.
Proof.
  revert s. induction prefix as [|c prefix IH]; intros s; [done|].
  destruct s as [|x s]; [done|]. simpl.
  intros H. apply andb_true_iff in H as [Hc H]. apply N.eqb_eq in Hc.
  subst. f_equal. by apply IH.
Qed.

(** X14. [parseRecipient] throws exactly when the recipient is blank. Any
    other string parses: what follows "user:", "discord:" or "@" at the
    start of the trimmed string is a user id, what follows "channel:" is a
    channel id, and a string with none of these prefixes is a channel id as
    a whole. *)
Theorem parseRecipient_prefixes (raw : jsstring) :
  (Js.trim raw = [] ->
   parseRecipient raw
   = Thrown (Js.lit "Error: Recipient is required for Discord sends"))
  /\ (Js.trim raw <> [] ->
      exists r prefix,
        parseRecipient raw = Returned r
        /\ Js.trim raw = prefix ++ recipientId r
        /\ (isUser r = true /\ (prefix = Js.lit "user:"
                                \/ prefix = Js.lit "discord:"
                                \/ prefix = Js.lit "@")
            \/ isUser r = false /\ (prefix = Js.lit "channel:" \/ prefix = []))).
Proof.
  unfold parseRecipient. split.
  - intros ->. done.
  - intros Hne. apply truthy_true in Hne. rewrite Hne. cbn [negb].
    destruct (startsWith (Js.lit "user:") (Js.trim raw)) eqn:Huser.
    { eexists _, (Js.lit "user:"). split; [done|].
      split; [by apply startsWith_split | left; by eauto]. }
    destruct (startsWith (Js.lit "channel:") (Js.trim raw)) eqn:Hchannel.
    { eexists _, (Js.lit "channel:"). split; [done|].
      split; [by apply startsWith_split | right; by eauto]. }
    destruct (startsWith (Js.lit "discord:") (Js.trim raw)) eqn:Hdiscord.
    { eexists _, (Js.lit "discord:"). split; [done|].
      split; [by apply startsWith_split | left; by eauto]. }
    destruct (startsWith (Js.lit "@") (Js.trim raw)) eqn:Hat.
    { eexists _, (Js.lit "@"). split; [done|].
      split; [by apply startsWith_split | left; by eauto]. }
    eexists _, []. split; [done|]. split; [done | right; by eauto].
Qed.

(** X15. Written with its prefix, a recipient parses back to itself: for an
    id that does not end in white space, "user:", "discord:" and "@"
    followed by the id give the user with that id, and "channel:" followed
    by the id gives the channel with that id. The id may be empty: "user:"
    alone is accepted as a user with an empty id. *)
Theorem parseRecipient_round_trip (recipient : jsstring) :
  Js.trimEnd recipient = recipient ->
  parseRecipient (Js.lit "user:" ++ recipient)
  = Returned (userRecipient recipient)
  /\ parseRecipient (Js.lit "channel:" ++ recipient)
     = Returned (channelRecipient recipient)
  /\ parseRecipient (Js.lit "discord:" ++ recipient)
     = Returned (userRecipient recipient)
  /\ parseRecipient (Js.lit "@" ++ recipient)
     = Returned (userRecipient recipient).
Proof.
  intros Hend. unfold parseRecipient.
  rewrite !trim_prefixed, Hend by done.
  repeat split.
Qed.

Lemma bindD_eq {A B} (m : D A) (k : A -> D B) (h : list Ev) :
  bindD m k h
  = match m h with
    | (Returned a, h') => k a h'
    | (Thrown err, h') => (Thrown err, h')
    end.
Proof. reflexivity. Qed.

(** X16. [sendMessageDiscord] checks the token and the recipient before it
    touches the network: without a token, or with a blank recipient, it
    rejects and makes no request. The token is missing when none of the
    option, the environment and the configuration gives one, and also when
    the first of them that is present is the empty string: an empty token
    option is not replaced by the environment's token. *)
Theorem sendMessageDiscord_validates_first (env : Env) (to text : jsstring)
    (opts : DiscordSendOpts) (h : list Ev) :
  (forall err, resolveToken env (token opts) = Thrown err ->
               sendMessageDiscord env to text opts h = (Thrown err, h))
  /\ (forall t, resolveToken env (token opts) = Returned t ->
                Js.trim to = [] ->
                sendMessageDiscord env to text opts h
                = (Thrown (Js.lit "Error: Recipient is required for Discord sends"), h))
  /\ (token opts = Some []
      \/ (token opts = None
          /\ (envToken env = Some []
              \/ (envToken env = None
                  /\ (configToken env = None \/ configToken env = Some [])))) ->
      resolveToken env (token opts)
      = Thrown (Js.lit "Error: DISCORD_BOT_TOKEN or discord.token is required for Discord sends")).
Proof.
  split; [|split].
  - intros err Htoken. unfold sendMessageDiscord, bindD, liftD.
    by rewrite Htoken.
  - intros t Htoken Hblank. unfold sendMessageDiscord, bindD, liftD.
    rewrite Htoken. unfold parseRecipient. by rewrite Hblank.
  - unfold resolveToken.
    intros [-> | (-> & [-> | (-> & [-> | ->])])]; done.
Qed.

(** X17. A blank text without media is never delivered. To a channel the
    call rejects without any request. To a user it first asks Discord to
    open the direct-message channel and rejects only after that; when the
    channel was opened, the error is the one about the empty message. *)
Theorem blank_text_is_rejected (env : Env) (to text : jsstring)
    (opts : DiscordSendOpts) (h : list Ev) (t : jsstring)
    (r : DiscordRecipient) :
  resolveToken env (token opts) = Returned t ->
  parseRecipient to = Returned r ->
  Js.trim text = [] ->
  mediaUrl opts = None \/ mediaUrl opts = Some [] ->
  match r with
  | channelRecipient _ =>
      sendMessageDiscord env to text opts h
      = (Thrown (Js.lit "Error: Message must be non-empty for Discord sends"), h)
  | userRecipient user =>
      let answer := restPost env h (postUserChannels user) in
      snd (sendMessageDiscord env to text opts h)
      = h ++ [Posted (postUserChannels user) answer]
      /\ exists err,
           fst (sendMessageDiscord env to text opts h) = Thrown err
           /\ (forall dm dmId, answer = inr (Some dm) ->
                               DiscordSend.id dm = Some dmId -> dmId <> [] ->
                               err = Js.lit "Error: Message must be non-empty for Discord sends")
  end.
Proof.
  intros Htoken Hparse Hblank Hmedia.
  assert (forall c h',
            match mediaUrl opts with
            | Some url =>
                if Js.truthy url then sendDiscordMedia env c text url
                else sendDiscordText env c text
            | None => sendDiscordText env c text
            end h'
            = (Thrown (Js.lit "Error: Message must be non-empty for Discord sends"), h'))
    as Hsend.
  { intros c h'. unfold sendDiscordText.
    destruct Hmedia as [-> | ->]; simpl; by rewrite Hblank. }
  unfold sendMessageDiscord, bindD, liftD. rewrite Htoken, Hparse.
  destruct r as [user|c]; cbn [resolveChannelId retD].
  - cbv zeta. unfold bindD, post.
    destruct (restPost env h (postUserChannels user)) as [err|[dm|]]; cbn.
    + split; [done|]. by eexists.
    + destruct (DiscordSend.id dm) as [dmId|] eqn:Hid; cbn.
      * destruct (Js.truthy dmId) eqn:Hdm; cbn.
        -- rewrite Hsend. split; [done|]. by eexists.
        -- split; [done|]. eexists. split; [done|].
           intros dm' dmId' [= <-] Hid' Hne. rewrite Hid in Hid'.
           injection Hid' as <-. apply truthy_true in Hne. congruence.
      * split; [done|]. eexists. split; [done|].
        intros dm' dmId' [= <-] Hid'. congruence.
    + split; [done|]. eexists. split; [done|]. by intros dm' dmId' [=].
  - by rewrite Hsend.
Qed.

(** X18. A text of at most 2000 code units that is not blank goes to a
    channel in exactly one request, with the text as its content just as it
    was given. The call rejects with the request's error when that request
    rejects; otherwise it returns the message id of the response, or
    "unknown" when the response has none, and the channel id of the
    response, or the channel it posted to when the response has none. *)
Theorem short_text_is_one_request (env : Env) (to text : jsstring)
    (opts : DiscordSendOpts) (h : list Ev) (t channel : jsstring) :
  resolveToken env (token opts) = Returned t ->
  parseRecipient to = Returned (channelRecipient channel) ->
  Js.trim text <> [] ->
  (length text <= 2000)%nat ->
  mediaUrl opts = None \/ mediaUrl opts = Some [] ->
  let request := postChannelMessage channel (Some text) [] in
  let answer := restPost env h request in
  snd (sendMessageDiscord env to text opts h) = h ++ [Posted request answer]
  /\ fst (sendMessageDiscord env to text opts h)
     = match answer with
       | inl err => Thrown err
       | inr None => Thrown (nullAccess env)
       | inr (Some res) =>
           Returned
             {| messageId :=
                  match DiscordSend.id res with
                  | Some [] | None => Js.lit "unknown"
                  | Some i => i
                  end;
                channelId := default channel (channel_id res) |}
       end.
Proof.
  intros Htoken Hparse Htext Hlen Hmedia request answer.
  subst answer request.
  unfold sendMessageDiscord, bindD, liftD. rewrite Htoken, Hparse.
  cbn [resolveChannelId retD].
  assert (match mediaUrl opts with
          | Some url =>
              if Js.truthy url then sendDiscordMedia env channel text url
              else sendDiscordText env channel text
          | None => sendDiscordText env channel text
          end = post env (postChannelMessage channel (Some text) [])) as ->.
  { apply truthy_true in Htext. apply Nat.leb_le in Hlen.
    unfold sendDiscordText, DISCORD_TEXT_LIMIT.
    destruct Hmedia as [-> | ->]; simpl; by rewrite Htext, Hlen. }
  unfold post.
  destruct (restPost env h _) as [err|[res|]]; cbn; [done | | done].
  split; [done|]. by destruct (DiscordSend.id res) as [[|c i]|].
Qed.

Lemma postChunks_spec (env : Env) (channel : jsstring)
    (chunks : list jsstring) (last : option ApiObject) (h : list Ev) :
  exists new n,
    snd (postChunks env channel chunks last h) = h ++ new
    /\ Forall (postedTo channel) new
    /\ postedContents new = map Some (take n chunks)
    /\ (forall r, fst (postChunks env channel chunks last h) = Returned r ->
                  n = length chunks /\ (chunks = [] -> r = last)).
Proof.
  revert last h. induction chunks as [|chunk chunks IH]; intros last h.
  - exists [], 0%nat. simpl. rewrite app_nil_r.
    split; [done|]. split; [constructor|]. split; [done|].
    by intros r [= <-].
  - simpl. unfold bindD, post.
    destruct (restPost env h _) as [err|res] eqn:Hanswer.
    + eexists [_], 1%nat. simpl. split; [done|]. split; [by repeat constructor|].
      split; [by destruct chunks | done].
    + destruct (IH res (h ++ [Posted (postChannelMessage channel (Some chunk) [])
                                (inr res)]))
        as (new & n & Hsnd & Hall & Hcontents & Hret).
      eexists (_ :: new), (S n). rewrite Hsnd, <- app_assoc.
      split; [done|]. split; [by constructor|].
      split; [by simpl; rewrite Hcontents|].
      intros r Hr. destruct (Hret r Hr) as [-> _]. done.
Qed.



(** X20. A send with media loads the media first and posts nothing when
    that fails. Otherwise it posts the file with the caption, which is the
    text cut to its first 2000 code units and left out when empty, and only
    then sends what is left of a longer text. The call returns the response
    to the media post, never the one to a follow-up text; when the
    follow-up rejects, the call rejects although the media was posted. *)
Theorem media_is_posted_before_the_rest (env : Env)
    (channel text url : jsstring) (h : list Ev) :
  (forall err, loadWebMedia env h url = inl err ->
               sendDiscordMedia env channel text url h
               = (Thrown err, h ++ [Loaded url (inl err)]))
  /\ (forall media, loadWebMedia env h url = inr media ->
        let caption := take 2000 text in
        let request :=
          postChannelMessage channel
            (if Js.truthy caption then Some caption else None)
            [{| data := buffer media;
                name := default (Js.lit "upload") (fileName media) |}] in
        let loaded := h ++ [Loaded url (inr media)] in
        let answer := restPost env loaded request in
        exists rest,
          snd (sendDiscordMedia env channel text url h)
          = loaded ++ Posted request answer :: rest
          /\ ((length text <= 2000)%nat
              \/ Js.trim (drop 2000 text) = [] \/ (exists err, answer = inl err)
              -> rest = [])
          /\ Forall (postedTo channel) rest
          /\ (forall r, fst (sendDiscordMedia env channel text url h)
                        = Returned r -> answer = inr r)).
Proof.
  split.
  - intros err Hload. unfold sendDiscordMedia, bindD, load. by rewrite Hload.
  - intros media Hload caption request loaded answer.
    assert ((if (DISCORD_TEXT_LIMIT <? length text)%nat
             then take DISCORD_TEXT_LIMIT text else text) = caption) as Hcap.
    { subst caption. unfold DISCORD_TEXT_LIMIT.
      destruct (2000 <? length text)%nat eqn:E; [done|].
      apply Nat.ltb_ge in E. by rewrite take_ge. }
    unfold sendDiscordMedia. rewrite bindD_eq. unfold load at 1 2.
    rewrite Hload. cbv zeta. rewrite Hcap. fold request loaded.
    rewrite bindD_eq. unfold post at 1 2. subst answer.
    destruct (restPost env loaded request) as [err|res] eqn:Hanswer.
    { exists []. cbn [fst snd]. split; [done|]. split; [done|].
      split; [constructor | by intros r [=]]. }
    rewrite bindD_eq. unfold DISCORD_TEXT_LIMIT.
    destruct (2000 <? length text)%nat eqn:Hlong.
    2:{ apply Nat.ltb_ge in Hlong. exists []. unfold retD. cbn [fst snd].
        split; [done|]. split; [done|].
        split; [constructor | by intros r [= <-]]. }
    apply Nat.ltb_lt in Hlong.
    destruct (Js.truthy (Js.trim (drop 2000 text))) eqn:Hrest.
    2:{ exists []. unfold retD. cbn [fst snd].
        split; [done|]. split; [done|].
        split; [constructor | by intros r [= <-]]. }
    assert (exists new,
              snd (sendDiscordText env channel (Js.trim (drop 2000 text))
                     (loaded ++ [Posted request (inr res)]))
              = (loaded ++ [Posted request (inr res)]) ++ new
              /\ Forall (postedTo channel) new) as (new & Hsnd & Hall).
    { unfold sendDiscordText.
      destruct (negb (Js.truthy (Js.trim (Js.trim (drop 2000 text))))).
      { exists []. rewrite app_nil_r. split; [done | constructor]. }
      destruct (_ <=? _)%nat.
      - unfold post.
        match goal with |- context [restPost env ?hh ?rq] =>
          exists [Posted rq (restPost env hh rq)];
          split; [destruct (restPost env hh rq); reflexivity|]
        end.
        by repeat constructor.
      - cbv zeta. rewrite bindD_eq.
        match goal with |- context [postChunks ?e ?c ?cs ?l ?hh] =>
          destruct (postChunks_spec e c cs l hh)
            as (new & n & Hsnd & Hall & _)
        end.
        exists new.
        destruct (postChunks _ _ _ _ _) as [[[last|]|err] h'];
          cbn [fst snd] in *; by subst h'. }
    exists new. rewrite bindD_eq.
    destruct (sendDiscordText env channel _ _) as [[sent|err] h'];
      cbn [fst snd] in *; subst h'; rewrite <- app_assoc; unfold retD;
      cbn [fst snd app].
    + split; [done|]. split.
      * intros [? | [Hblank | (err & [=])]]; [lia|].
        apply truthy_true in Hrest. congruence.
      * split; [done|]. by intros r [= <-].
    + split; [done|]. split.
      * intros [? | [Hblank | (err' & [=])]]; [lia|].
        apply truthy_true in Hrest. congruence.
      * split; [done|]. by intros r [=].
Qed.

End DiscordSendFacts.

(** ** The Discord monitor *)

Module DiscordMonitorFacts.
Import DiscordSend DiscordMonitor.

Lemma includes_prefixed (allowed : list jsstring) (candidate : jsstring) :
  Js.includes (map (fun val => Js.lit "discord:" ++ val) allowed)
    (Js.lit "discord:" ++ candidate)
  = Js.includes allowed candidate.
Proof.
  apply eq_true_iff_eq. rewrite !includes_elem_of, !list_elem_of_In, in_map_iff.
  split.
  - intros (val & Heq & Hin). apply app_inv_head in Heq. by subst.
  - intros Hin. by exists candidate.
Qed.

(** X21. A direct message is blocked exactly when the allowlist is a
    non-empty array that contains neither the sender's id nor "*"; messages
    outside direct chats are never blocked by it. Comparing with the
    "discord:" prefix on both sides changes nothing, so an entry written as
    "discord:" followed by an id does not admit the sender with that id. *)
Theorem senderBlocked_iff (isDirectMessage : bool)
    (allowFrom : option (list jsstring)) (candidate : jsstring) :
  (senderBlocked isDirectMessage allowFrom candidate = true
   <-> isDirectMessage = true
       /\ exists allowed, allowFrom = Some allowed /\ allowed <> []
                          /\ (candidate ∉ allowed)
                          /\ (Js.lit "*" ∉ allowed))
  /\ senderBlocked true (Some [Js.lit "discord:" ++ candidate]) candidate
     = true.
Proof.
  split.
  - unfold senderBlocked. destruct allowFrom as [allowed|].
    2:{ split; [done | by intros (_ & allowed & [=] & _)]. }
    rewrite includes_prefixed, orb_diag.
    destruct isDirectMessage.
    2:{ split; [done | by intros [[=] _]]. }
    destruct allowed as [|entry allowed].
    { split; [done | by intros (_ & allowed & [= <-] & Hne & _)]. }
    cbn [andb length Nat.ltb Nat.leb]. cbv iota.
    rewrite negb_true_iff, orb_false_iff.
    rewrite <- !not_true_iff_false, !includes_elem_of.
    split.
    + intros [Hsender Hstar]. split; [done|].
      by exists (entry :: allowed).
    + by intros (_ & allowed' & [= <-] & _ & Hsender & Hstar).
  - unfold senderBlocked. rewrite includes_prefixed, orb_diag.
    cbn [andb length Nat.ltb Nat.leb]. cbv iota.
    rewrite negb_true_iff, orb_false_iff.
    rewrite <- !not_true_iff_false, !includes_elem_of.
    split; intros Hin; apply list_elem_of_singleton in Hin.
    + apply (f_equal length) in Hin. rewrite length_app in Hin.
      simpl in Hin. lia.
    + discriminate.
Qed.

Lemma forOfD_filter {A} (xs : list A) (body : A -> D unit)
    (skip : A -> bool) (h : list Ev) :
  (forall x h', skip x = true -> body x h' = (Returned tt, h')) ->
  forOfD xs body h = forOfD (List.filter (fun x => negb (skip x)) xs) body h.
Proof.
  intros Hskip. revert h. induction xs as [|x xs IH]; intros h; [done|].
  simpl. destruct (skip x) eqn:E; simpl.
  - unfold bindD. rewrite (Hskip x h E). apply IH.
  - unfold bindD. destruct (body x h) as [[[]|err] h']; [apply IH | done].
Qed.

(** X22. [deliverReplies] passes over a reply that has no text and no
    media: it sends nothing and logs nothing for it, so the replies are
    delivered as if those had been left out of the list. *)
Theorem deliverReplies_skips_empty_replies (env : Env)
    (replies : list Payload) (target token : jsstring) (h : list Ev) :
  (deliverReplies env replies target token h
   = deliverReplies env
       (List.filter (fun payload => negb (skipsReply payload)) replies)
       target token h)
  /\ ((forall payload, payload ∈ replies -> skipsReply payload = true) ->
      deliverReplies env replies target token h = (Returned tt, h)).
Proof.
  assert (forall payload h',
            skipsReply payload = true ->
            deliverReply env target token payload h' = (Returned tt, h'))
    as Hskip.
  { intros payload h' Hs. unfold deliverReply. unfold skipsReply in Hs.
    by rewrite Hs. }
  pose proof (forOfD_filter replies (deliverReply env target token)
                skipsReply h Hskip) as Hfilter.
  split; [exact Hfilter|].
  intros Hall. unfold deliverReplies. rewrite Hfilter.
  assert (List.filter (fun payload => negb (skipsReply payload)) replies = [])
    as ->; [|done].
  clear Hfilter. induction replies as [|payload replies IH]; [done|]. simpl.
  rewrite (Hall payload) by apply list_elem_of_here. simpl.
  apply IH. intros p Hp. apply Hall. by right.
Qed.

End DiscordMonitorFacts.

(** ** More about the cron job editor *)

Module CronJobEditorMoreFacts.
Import CronJobEditor.

Section Drafts.

Variable parseDurationMs : swstring -> option Z.

Lemma isEmpty_true (s : swstring) : isEmpty s = true <-> s = [].
Proof. destruct s; simpl; split; congruence. Qed.

Lemma isEmpty_false (s : swstring) : isEmpty s = false <-> s <> [].
Proof. destruct s; simpl; split; congruence. Qed.

Lemma buildSchedule_cases (s : EditorState) :
  match buildSchedule parseDurationMs s with
  | inl err =>
      (err = "Invalid every duration (use 10m, 1h, 1d)."%string
       /\ scheduleKind s = everyKind
       /\ parseDurationMs (everyText s) = None)
      \/ (err = "Cron expression is required."%string
          /\ scheduleKind s = cronKind
          /\ trimmingWhitespace (cronExpr s) = [])
  | inr (scheduleAt atMs) => scheduleKind s = atKind /\ atMs = atDateMs s
  | inr (scheduleEvery ms) =>
      scheduleKind s = everyKind /\ parseDurationMs (everyText s) = Some ms
  | inr (scheduleCron expr tz) =>
      scheduleKind s = cronKind
      /\ expr = trimmingWhitespace (cronExpr s) /\ expr <> []
      /\ (tz = None /\ trimmingWhitespace (cronTz s) = []
          \/ tz = Some (trimmingWhitespace (cronTz s))
             /\ trimmingWhitespace (cronTz s) <> [])
  end.
Proof.
  unfold buildSchedule. destruct (scheduleKind s); [done | |].
  - destruct (parseDurationMs (everyText s)); [done | by left].
  - destruct (isEmpty (trimmingWhitespace (cronExpr s))) eqn:Eexpr.
    + right. by apply isEmpty_true in Eexpr.
    + apply isEmpty_false in Eexpr.
      destruct (isEmpty (trimmingWhitespace (cronTz s))) eqn:Etz.
      * apply isEmpty_true in Etz. repeat split; try done. by left.
      * apply isEmpty_false in Etz. repeat split; try done. by right.
Qed.

(** X23. [buildPayload] fails in five ways only: an invalid "every"
    duration, a blank cron expression, the main session target with the
    agent turn kind picked, a blank system event text on the main target,
    and a blank agent message on the isolated target. It never reports
    "Isolated jobs require agentTurn payloads.": the payload kind picked is
    ignored for the isolated target. *)
Theorem buildPayload_errors (s : EditorState) (err : string) :
  buildPayload parseDurationMs s = inl err ->
  (err = "Invalid every duration (use 10m, 1h, 1d)."%string
   /\ scheduleKind s = everyKind /\ parseDurationMs (everyText s) = None)
  \/ (err = "Cron expression is required."%string
      /\ scheduleKind s = cronKind /\ trimmingWhitespace (cronExpr s) = [])
  \/ (err = "Main session jobs require systemEvent payloads (switch Session target to isolated)."%string
      /\ sessionTarget s = main /\ payloadKind s = agentTurnKind)
  \/ (err = "System event text is required."%string
      /\ sessionTarget s = main /\ payloadKind s = systemEventKind
      /\ trimmingWhitespace (systemEventText s) = [])
  \/ (err = "Agent message is required."%string
      /\ sessionTarget s = isolated
      /\ trimmingWhitespace (agentMessage s) = []).
Proof.
  unfold buildPayload. pose proof (buildSchedule_cases s) as Hschedule.
  destruct (buildSchedule parseDurationMs s) as [err'|schedule].
  { intros [= <-]. destruct Hschedule as [H | H]; [by left | right; by left]. }
  clear Hschedule. unfold pairingError, buildPayloadDict, isKind.
  destruct (sessionTarget s) eqn:Htarget; simpl.
  - destruct (payloadKind s) eqn:Hkind; simpl.
    + destruct (isEmpty (trimmingWhitespace (systemEventText s))) eqn:E;
        [|done].
      intros [= <-]. right. right. right. left.
      by apply isEmpty_true in E.
    + intros [= <-]. right. right. by left.
  - destruct (isEmpty (trimmingWhitespace (agentMessage s))) eqn:E; [|done].
    intros [= <-]. right. right. right. right. by apply isEmpty_true in E.
Qed.

(** X24. A record that [buildPayload] returns carries no blank string: its
    system event text or agent message is non-empty, its name, thinking
    level, recipient and time zone are non-empty when present, its cron
    expression is non-empty, and its timeout is positive when present. It
    has an isolation prefix, non-empty, exactly when the target is
    isolated, and it names a channel and a best-effort flag exactly when
    delivery is on. *)
Theorem buildPayload_record_is_clean (s : EditorState) (j : JobDict) :
  buildPayload parseDurationMs s = inr j ->
  (forall n, rName j = Some n -> n <> [])
  /\ (forall expr tz, rSchedule j = scheduleCron expr tz ->
        expr <> [] /\ tz <> Some [])
  /\ (forall p, rIsolation j = Some p -> p <> [])
  /\ (rIsolation j <> None <-> rSessionTarget j = isolated)
  /\ match rPayload j with
     | systemEventDict eventText => eventText <> []
     | agentTurnDict turn =>
         dMessage turn <> []
         /\ dThinking turn <> Some []
         /\ dTo turn <> Some []
         /\ (forall n, dTimeoutSeconds turn = Some n -> 0 < n)
         /\ (if dDeliver turn
             then dChannel turn <> None /\ dBestEffortDeliver turn <> None
             else dChannel turn = None /\ dTo turn = None
                  /\ dBestEffortDeliver turn = None)
     end.
Proof.
  unfold buildPayload. pose proof (buildSchedule_cases s) as Hschedule.
  destruct (buildSchedule parseDurationMs s) as [err|schedule]; [done|].
  destruct (pairingError _ _); [done|].
  assert (forall turn, turn = buildAgentTurnPayload s ->
            dThinking turn <> Some [] /\ dTo turn <> Some []
            /\ (forall n, dTimeoutSeconds turn = Some n -> 0 < n)
            /\ (if dDeliver turn
                then dChannel turn <> None /\ dBestEffortDeliver turn <> None
                else dChannel turn = None /\ dTo turn = None
                     /\ dBestEffortDeliver turn = None)) as Hturn.
  { intros turn ->. unfold buildAgentTurnPayload.
    cbn [dThinking dTo dTimeoutSeconds dDeliver dChannel dBestEffortDeliver].
    split; [|split; [|split]].
    - destruct (isEmpty (trimmingWhitespace (thinking s))) eqn:E; [done|].
      apply isEmpty_false in E. simpl. congruence.
    - destruct (deliver s); [|done].
      destruct (isEmpty (trimmingWhitespace (to s))) eqn:E; [done|].
      apply isEmpty_false in E. simpl. congruence.
    - intros n. destruct (parseInt (timeoutSeconds s)) as [m|]; [|done].
      destruct (Z.ltb_spec 0 m); [|done]. by intros [= <-].
    - by destruct (deliver s). }
  assert (forall eventText, (if isEmpty eventText then true else false) = false
                            -> eventText <> []) as Hne.
  { intros t Ht. apply isEmpty_false. by destruct (isEmpty t). }
  destruct (buildPayloadDict s) as [eventText|turn] eqn:Hdict.
  - destruct (isEmpty eventText) eqn:E; [done|]. intros [= <-].
    cbn [rName rSchedule rIsolation rSessionTarget rPayload].
    split; [|split; [|split; [|split]]].
    + intros n. destruct (isEmpty (trimmingWhitespace (name s))) eqn:En;
        [done|]. apply isEmpty_false in En. simpl. by intros [= <-].
    + intros expr tz ->. destruct Hschedule as (_ & _ & Hexpr & Htz).
      split; [done|]. destruct Htz as [[-> _] | [-> Htz]]; congruence.
    + intros p. destruct (sessionTarget s); [done|]. simpl.
      destruct (isEmpty (trimmingWhitespace (postPrefix s))) eqn:Ep;
        intros [= <-]; [done | by apply isEmpty_false].
    + by destruct (sessionTarget s).
    + by apply isEmpty_false.
  - destruct (isEmpty (dMessage turn)) eqn:E; [done|]. intros [= <-].
    cbn [rName rSchedule rIsolation rSessionTarget rPayload].
    split; [|split; [|split; [|split]]].
    + intros n. destruct (isEmpty (trimmingWhitespace (name s))) eqn:En;
        [done|]. apply isEmpty_false in En. simpl. by intros [= <-].
    + intros expr tz ->. destruct Hschedule as (_ & _ & Hexpr & Htz).
      split; [done|]. destruct Htz as [[-> _] | [-> Htz]]; congruence.
    + intros p. destruct (sessionTarget s); [done|]. simpl.
      destruct (isEmpty (trimmingWhitespace (postPrefix s))) eqn:Ep;
        intros [= <-]; [done | by apply isEmpty_false].
    + by destruct (sessionTarget s).
    + split; [by apply isEmpty_false|]. apply Hturn.
      unfold buildPayloadDict in Hdict.
      destruct (isIsolated _); [by injection Hdict|].
      destruct (payloadKind s); [done | by injection Hdict].
Qed.

(** X25. After the handler for a change of the session target has run,
    the draft pairs main with a system event and isolated with an agent
    turn; after the handler for a change of the payload kind, the draft
    does not pair main with an agent turn. Either way [buildPayload] cannot
    fail for the pairing, and the payload it builds has the kind that is
    picked. *)
Theorem handlers_keep_the_pairing (s : EditorState) :
  draftPaired (onChangeSessionTarget s) = true
  /\ (sessionTarget (onChangePayloadKind s) = main ->
      payloadKind (onChangePayloadKind s) = systemEventKind)
  /\ (forall s',
        s' = onChangeSessionTarget s \/ s' = onChangePayloadKind s ->
        buildPayload parseDurationMs s'
        <> inl "Main session jobs require systemEvent payloads (switch Session target to isolated)."%string
        /\ (sessionTarget s' = main ->
            kind (buildPayloadDict s') = payloadKind s')).
Proof.
  assert (draftPaired (onChangeSessionTarget s) = true) as Hpaired.
  { unfold draftPaired, onChangeSessionTarget.
    destruct (sessionTarget s) eqn:Ht; [destruct (payloadKind s) eqn:Hk|];
      simpl; by rewrite ?Ht, ?Hk. }
  assert (sessionTarget (onChangePayloadKind s) = main ->
          payloadKind (onChangePayloadKind s) = systemEventKind) as Hkind.
  { unfold onChangePayloadKind.
    destruct (payloadKind s) eqn:Hk; [done|].
    destruct (sessionTarget s) eqn:Ht; simpl; congruence. }
  split; [done|]. split; [done|].
  intros s' Hs'.
  assert (sessionTarget s' = main -> payloadKind s' = systemEventKind) as Hok.
  { destruct Hs' as [-> | ->]; [|done]. unfold draftPaired in Hpaired.
    intros Hmain. rewrite Hmain in Hpaired.
    by destruct (payloadKind (onChangeSessionTarget s)). }
  split.
  - unfold buildPayload. pose proof (buildSchedule_cases s') as Hschedule.
    destruct (buildSchedule parseDurationMs s') as [err|schedule].
    { destruct Hschedule as [(-> & _) | (-> & _)]; discriminate. }
    unfold pairingError, buildPayloadDict, isKind.
    destruct (sessionTarget s') eqn:Htarget; simpl.
    + rewrite (Hok eq_refl). simpl.
      destruct (isEmpty (trimmingWhitespace (systemEventText s')));
        discriminate.
    + destruct (isEmpty (trimmingWhitespace (agentMessage s')));
        discriminate.
  - intros Hmain. unfold buildPayloadDict. rewrite Hmain. simpl.
    by destruct (payloadKind s').
Qed.

End Drafts.

End CronJobEditorMoreFacts.

(** ** The send command *)

Module SendCommandFacts.
Import SendCommand.

(** X26. With [dryRun] set the command calls no transport, whatever the
    provider: it logs one line and returns. *)
Theorem dry_run_calls_nothing (env : Env) (opts : SendOpts) (h : list Ev) :
  dryRun opts = Some true ->
  exists logged,
    sendCommand env opts h = (Returned tt, h ++ logged)
    /\ Forall (fun e => transportOf e = None) logged
    /\ length logged = 1%nat.
Proof.
  intros Hdry. unfold sendCommand, flag. rewrite Hdry. simpl.
  eexists [_]. split; [reflexivity|]. split; [|reflexivity].
  repeat constructor.
Qed.

(** X27. Without [dryRun] the command makes exactly one outbound call,
    before it logs anything, to the recipient and with the text given. The
    call goes to Telegram or Discord when the lower-cased provider name is
    "telegram" or "discord", and through the gateway for every other name,
    known or not. When the call is rejected the command rejects with the
    same error and logs nothing; otherwise it returns after logging one
    line, or two with [json] set. *)
Theorem sendCommand_makes_one_call (env : Env) (opts : SendOpts)
    (h : list Ev) :
  flag (dryRun opts) = false ->
  exists call logged,
    snd (sendCommand env opts h) = h ++ call :: logged
    /\ transportOf call = Some (routeOf env opts)
    /\ addressedTo call = Some (to opts, message opts)
    /\ Forall (fun e => transportOf e = None) logged
    /\ match rejectionOf call with
       | Some err =>
           fst (sendCommand env opts h) = Thrown err /\ logged = []
       | None =>
           fst (sendCommand env opts h) = Returned tt
           /\ length logged = if flag (json opts) then 2%nat else 1%nat
       end.
Proof.
  intros Hdry. unfold sendCommand, routeOf, Js.eqb. rewrite Hdry.
  destruct (bool_decide (_ = Js.lit "telegram")).
  { unfold bindC, await.
    destruct (sendMessageTelegram env h _ _ _ _) as [err|result] eqn:Hsend.
    - eexists _, []. simpl. repeat split. constructor.
    - unfold log. destruct (flag (json opts)); simpl.
      + eexists _, [_; _]. simpl. rewrite <- !app_assoc. simpl.
        repeat split. repeat constructor.
      + eexists _, [_]. simpl. rewrite <- !app_assoc. simpl.
        repeat split. repeat constructor. }
  destruct (bool_decide (_ = Js.lit "discord")).
  { unfold bindC, await.
    destruct (sendMessageDiscord env h _ _ _ _) as [err|result] eqn:Hsend.
    - eexists _, []. simpl. repeat split. constructor.
    - unfold log. destruct (flag (json opts)); simpl.
      + eexists _, [_; _]. simpl. rewrite <- !app_assoc. simpl.
        repeat split. repeat constructor.
      + eexists _, [_]. simpl. rewrite <- !app_assoc. simpl.
        repeat split. repeat constructor. }
  unfold bindC, await.
  destruct (callGateway env h _) as [err|result] eqn:Hsend.
  - eexists _, []. simpl. repeat split. constructor.
  - unfold log. destruct (flag (json opts)); simpl.
    + eexists _, [_; _]. simpl. rewrite <- !app_assoc. simpl.
      repeat split. repeat constructor.
    + eexists _, [_]. simpl. rewrite <- !app_assoc. simpl.
      repeat split. repeat constructor.
Qed.

End SendCommandFacts.

(** ** The further properties on the sample data *)

Abbreviation quietTurn := (Sample.mkTurn false None None false).

Abbreviation telegramTurn :=
  (Sample.mkTurn true (Some (Js.lit "telegram")) (Some (Js.lit "42")) false).

Abbreviation whatsappTurn :=
  (Sample.mkTurn true (Some (Js.lit "whatsapp")) (Some (Js.lit "+1999")) false).

Abbreviation lastRouteTurn := (Sample.mkTurn true None None false).

Abbreviation sampleRun f agent config deps turn store :=
  (f Sample.normalizeE164 10080 Sample.applyTemplate
     Sample.normalizeThinkLevel Sample.chunkText agent None
     (Sample.mkParams config deps turn) 5000 (Js.lit "uuid-1") store).

Lemma summary_is_bounded_witness :
  exists c rest,
    Js.lit "hello" = c :: rest /\ Js.isWhiteSpace c = false
    /\ (length (Js.lit "hello") <= 2003)%nat.
Proof.
  apply (summary_is_bounded [textPayload (Js.lit "hello")]).
  vm_compute. reflexivity.
Defined.

Lemma configuration_is_checked_before_any_effect_witness :
  sampleRun runOutcome Sample.agentHello {| inbound := None |} Sample.depsOk
    quietTurn Sample.webchatStore
  = Thrown (Js.lit "Error: Configure inbound.reply.mode=command with reply.command before using cron agent jobs.").
Proof.
  refine (proj1 (sampleRun configuration_is_checked_before_any_effect
                   Sample.agentHello {| inbound := None |} Sample.depsOk
                   quietTurn Sample.webchatStore _)).
  left. reflexivity.
Defined.

Lemma agent_failure_is_reported_witness :
  sampleOutcome Sample.agentCrashes Sample.depsOk quietTurn
  = Returned {| status := StatusError; summary := None;
                error := Some (Js.lit "Error: command failed") |}.
Proof.
  refine (proj1 (sampleRun agent_failure_is_reported Sample.agentCrashes
                   Sample.cfgPlain Sample.depsOk quietTurn
                   Sample.webchatStore
                   (sampleArgs Sample.depsOk quietTurn)
                   (Js.lit "Error: command failed") _)).
  apply list_elem_of_In. vm_compute. right. left. reflexivity.
Defined.



Abbreviation fractionTurn :=
  {| message := Js.lit "do it"; thinking := None;
     timeoutSeconds := Some (QArith_base.Qmake 29 10);
     deliver := Some false; channel := None; to := None;
     bestEffortDeliver := Some false |}.

Lemma agent_timeout_bounds_witness :
  QArith_base.Qle
    (QArith_base.inject_Z
       (argTimeoutSeconds (sampleArgs Sample.depsOk fractionTurn)))
    (QArith_base.Qmake 29 10)
  /\ QArith_base.Qlt (QArith_base.Qmake 29 10)
       (QArith_base.inject_Z
          (argTimeoutSeconds (sampleArgs Sample.depsOk fractionTurn) + 1)).
Proof.
  refine (proj1 (proj2 (proj2
            (sampleRun agent_timeout_bounds Sample.agentHello
               Sample.cfgPlain Sample.depsOk fractionTurn
               Sample.webchatStore
               (sampleArgs Sample.depsOk fractionTurn) (inr helloAnswer) _)))
            (QArith_base.Qmake 29 10) eq_refl _).
  - apply list_elem_of_In. vm_compute. right. left. reflexivity.
  - unfold QArith_base.Qle. simpl. lia.
Defined.

Lemma no_delivery_no_send_witness :
  sampleOutcome Sample.agentHello Sample.depsOk quietTurn
  = Returned {| status := StatusOk; summary := Some (Js.lit "hello");
                error := None |}.
Proof.
  refine (proj2 (sampleRun no_delivery_no_send Sample.agentHello
                   Sample.cfgPlain Sample.depsOk quietTurn
                   Sample.webchatStore _)
            (sampleArgs Sample.depsOk quietTurn) helloAnswer _).
  - reflexivity.
  - apply list_elem_of_In. vm_compute. right. left. reflexivity.
Defined.

Lemma sends_go_to_the_resolved_recipient_witness :
  surfaceChannel Telegram
  = targetChannel
      (resolvedDeliveryOf Sample.normalizeE164
         (Sample.mkParams Sample.cfgPlain Sample.depsOk telegramTurn)
         Sample.webchatStore).
Proof.
  refine (proj1 (proj2
            (sampleRun sends_go_to_the_resolved_recipient Sample.agentHello
               Sample.cfgPlain Sample.depsOk telegramTurn Sample.webchatStore
               Telegram (Js.lit "42") (Js.lit "hello")
               {| verbose := Some false; optMediaUrl := None; token := None |}
               None _))).
  apply list_elem_of_In. vm_compute. right. right. left. reflexivity.
Defined.

Lemma whatsapp_sends_stay_on_the_allowlist_witness :
  exists t,
    t ∈ normalizedAllow Sample.normalizeE164 (rawAllowOf Sample.cfgAllow)
    /\ Js.lit "+15555550123" = Sample.normalizeE164 t.
Proof.
  apply (sampleRun whatsapp_sends_stay_on_the_allowlist Sample.agentHello
           Sample.cfgAllow Sample.depsOk whatsappTurn Sample.webchatStore
           (Js.lit "+15555550123") (Js.lit "hello")
           {| verbose := Some false; optMediaUrl := None; token := None |}
           None).
  - intros Hstar. apply list_elem_of_In in Hstar. vm_compute in Hstar.
    destruct Hstar as [Hstar | []]. discriminate Hstar.
  - vm_compute. discriminate.
  - apply list_elem_of_In. vm_compute. right. right. left. reflexivity.
Defined.

Lemma run_status_classification_witness :
  exists result,
    sampleOutcome Sample.agentHello Sample.depsDown telegramTurn
    = Returned result
    /\ status result = StatusError.
Proof.
  destruct (sampleRun run_status_classification Sample.agentHello
              Sample.cfgPlain Sample.depsDown telegramTurn
              Sample.webchatStore
              (sampleArgs Sample.depsDown telegramTurn) helloAnswer)
    as (result & Hresult & Hstatus & _).
  - apply list_elem_of_In. vm_compute. right. left. reflexivity.
  - exists result. split; [exact Hresult | exact Hstatus].
Defined.

Lemma unknown_channel_is_silently_dropped_witness :
  sampleRun runOutcome Sample.agentHello Sample.cfgPlain Sample.depsOk
    lastRouteTurn Sample.voiceStore
  = Returned {| status := StatusOk; summary := Some (Js.lit "hello");
                error := None |}.
Proof.
  refine (proj2 (sampleRun unknown_channel_is_silently_dropped
                   Sample.agentHello Sample.cfgPlain Sample.depsOk
                   lastRouteTurn Sample.voiceStore _)
            (commandArgs Sample.applyTemplate Sample.normalizeThinkLevel
               (Sample.mkParams Sample.cfgPlain Sample.depsOk lastRouteTurn)
               Sample.reply1
               (resolveCronSession 10080 Sample.cfgPlain Sample.voiceStore
                  (Js.lit "cron:job-1") 5000 (Js.lit "uuid-1"))
               (resolvedDeliveryOf Sample.normalizeE164
                  (Sample.mkParams Sample.cfgPlain Sample.depsOk
                     lastRouteTurn) Sample.voiceStore))
            helloAnswer _).
  - vm_compute. reflexivity.
  - apply list_elem_of_In. vm_compute. right. left. reflexivity.
Defined.

Lemma parseRecipient_round_trip_witness :
  DiscordSend.parseRecipient (Js.lit "user:" ++ Js.lit "42")
  = Returned (DiscordSend.userRecipient (Js.lit "42")).
Proof.
  refine (proj1 (DiscordSendFacts.parseRecipient_round_trip (Js.lit "42") _)).
  reflexivity.
Defined.

Lemma blank_text_is_rejected_witness :
  DiscordSend.sendMessageDiscord SendSample.discordEnv (Js.lit "channel:7")
    (Js.lit "  ") SendSample.noOpts []
  = (Thrown (Js.lit "Error: Message must be non-empty for Discord sends"), []).
Proof.
  apply (DiscordSendFacts.blank_text_is_rejected SendSample.discordEnv
           (Js.lit "channel:7") (Js.lit "  ") SendSample.noOpts []
           (Js.lit "token-discord")
           (DiscordSend.channelRecipient (Js.lit "7"))).
  - reflexivity.
  - vm_compute. reflexivity.
  - reflexivity.
  - left. reflexivity.
Defined.

Lemma short_text_is_one_request_witness :
  fst (DiscordSend.sendMessageDiscord SendSample.discordEnv
         (Js.lit "channel:7") (Js.lit "hi") SendSample.noOpts [])
  = Returned {| DiscordSend.messageId := Js.lit "m1";
                DiscordSend.channelId := Js.lit "c9" |}.
Proof.
  refine (proj2 (DiscordSendFacts.short_text_is_one_request
                   SendSample.discordEnv (Js.lit "channel:7") (Js.lit "hi")
                   SendSample.noOpts [] (Js.lit "token-discord")
                   (Js.lit "7") _ _ _ _ _)).
  - reflexivity.
  - vm_compute. reflexivity.
  - vm_compute. discriminate.
  - vm_compute. lia.
  - left. reflexivity.
Defined.


Lemma buildPayload_errors_witness :
  CronJobEditor.sessionTarget CronJobEditor.mainAgentDraft
  = CronJobEditor.main
  /\ CronJobEditor.payloadKind CronJobEditor.mainAgentDraft
     = CronJobEditor.agentTurnKind.
Proof.
  destruct (CronJobEditorMoreFacts.buildPayload_errors
              CronJobEditor.wholeHours CronJobEditor.mainAgentDraft
              "Main session jobs require systemEvent payloads (switch Session target to isolated)."%string)
    as [(Herr & _) | [(Herr & _) | [(_ & Hpair) | [(Herr & _) | (Herr & _)]]]].
  - vm_compute. reflexivity.
  - discriminate Herr.
  - discriminate Herr.
  - exact Hpair.
  - discriminate Herr.
  - discriminate Herr.
Defined.

Lemma buildPayload_record_is_clean_witness :
  exists j,
    CronJobEditor.buildPayload CronJobEditor.wholeHours
      CronJobEditor.isolatedDraft = inr j
    /\ (forall p, CronJobEditor.rIsolation j = Some p -> p <> []).
Proof.
  eexists. split.
  - vm_compute. reflexivity.
  - refine (proj1 (proj2 (proj2
              (CronJobEditorMoreFacts.buildPayload_record_is_clean
                 CronJobEditor.wholeHours CronJobEditor.isolatedDraft _ _)))).
    vm_compute. reflexivity.
Defined.

Lemma dry_run_calls_nothing_witness :
  exists logged,
    SendCommand.sendCommand SendSample.commandEnv
      (SendSample.mkOpts (Js.lit "+1") None (Some true)) []
    = (Returned tt, [] ++ logged)
    /\ Forall (fun e => SendCommand.transportOf e = None) logged
    /\ length logged = 1%nat.
Proof.
  apply (SendCommandFacts.dry_run_calls_nothing SendSample.commandEnv
           (SendSample.mkOpts (Js.lit "+1") None (Some true)) []).
  reflexivity.
Defined.

Lemma sendCommand_makes_one_call_witness :
  exists call logged,
    snd (SendCommand.sendCommand SendSample.commandEnv
           (SendSample.mkOpts (Js.lit "123") (Some (Js.lit "Telegram")) None)
           [])
    = [] ++ call :: logged
    /\ SendCommand.transportOf call = Some SendCommand.viaTelegram.
Proof.
  destruct (SendCommandFacts.sendCommand_makes_one_call SendSample.commandEnv
              (SendSample.mkOpts (Js.lit "123") (Some (Js.lit "Telegram"))
                 None) [])
    as (call & logged & Htrace & Hroute & _).
  - reflexivity.
  - exists call, logged. split; [exact Htrace | exact Hroute].
Defined.
